(** * GitHubSync: the activity ledger and the upload routes

    A shallow embedding of [server/storage.ts] (the [MemStorage] class),
    of the record types of [shared/schema.ts] and of the route handlers of
    [server/routes.ts] that read or write the activity ledger or return
    user objects, followed by the properties the specification states
    about them.

    The handlers are state-and-exception computations over the storage,
    the session and an environment that answers every [fetch] and every
    insert; request bodies are read as the handlers read them, property by
    property, with absent properties and JavaScript truthiness kept. *)

From Stdlib Require Import ZArith List String Bool Lia DecimalString.
From Stdlib Require Import Sorting.Sorted Sorting.Permutation.
Import ListNotations.

Set Warnings "-register-all".

Local Open Scope string_scope.
Local Open Scope list_scope.
Local Open Scope Z_scope.

(* ------------------------------------------------------------------ *)
(** * JavaScript values that cross the handlers *)

(** The JSON-like values the handlers build, receive and serialise. *)
Inductive JsVal : Type :=
| JUndefined
| JNull
| JBool (b : bool)
| JNum (n : Z)
| JStr (s : string)
| JArr (items : list JsVal)
| JObj (fields : list (string * JsVal)).

(** What a [throw] carries: an [Error] with its message, or another value. *)
Inductive Thrown : Type :=
| ErrorObj (message : string)
| NonError.

Module Js.

(** [!!v] *)
Definition truthy (v : JsVal) : bool :=
  match v with
  | JUndefined | JNull => false
  | JBool b => b
  | JNum n => negb (n =? 0)
  | JStr s => negb (s =? "")%string
  | JArr _ | JObj _ => true
  end.

(** [a || b] *)
Definition or (a b : JsVal) : JsVal := if truthy a then a else b.

(** An optional string field of a request body: absent is [undefined]. *)
Definition of_opt (o : option string) : JsVal :=
  match o with Some s => JStr s | None => JUndefined end.

(** A nullable text column: [null] when empty. *)
Definition of_nullable (o : option string) : JsVal :=
  match o with Some s => JStr s | None => JNull end.

(** [!!s] for an optional string: absent and the empty string are falsy. *)
Definition truthy_str (o : option string) : bool := truthy (of_opt o).

(** [s || d] for an optional string. *)
Definition str_or (o : option string) (d : string) : string :=
  match o with
  | Some s => if (s =? "")%string then d else s
  | None => d
  end.

(** [const { x = d } = body]: the default replaces [undefined] only. *)
Definition default (o : option string) (d : string) : string :=
  match o with Some s => s | None => d end.

Fixpoint assoc (k : string) (fs : list (string * JsVal)) : option JsVal :=
  match fs with
  | [] => None
  | (k', v) :: fs' => if (k =? k')%string then Some v else assoc k fs'
  end.

(** [k in o], own properties only. *)
Definition has_key (k : string) (v : JsVal) : bool :=
  match v with
  | JObj fs => match assoc k fs with Some _ => true | None => false end
  | _ => false
  end.

(** [v == null]: [undefined] and [null]. *)
Definition nullish (v : JsVal) : bool :=
  match v with
  | JUndefined | JNull => true
  | _ => false
  end.

(** [v.k]: reading a property of [undefined] or [null] throws a
    [TypeError]; a missing property reads as [undefined]. *)
Definition get_prop (v : JsVal) (k : string) : Thrown + JsVal :=
  match v with
  | JUndefined =>
      inl (ErrorObj ("Cannot read properties of undefined (reading '" ++ k ++ "')")%string)
  | JNull =>
      inl (ErrorObj ("Cannot read properties of null (reading '" ++ k ++ "')")%string)
  | JObj fs => inr (match assoc k fs with Some x => x | None => JUndefined end)
  | _ => inr JUndefined
  end.

(** What [v.k] is where reading it does not throw. *)
Definition prop (v : JsVal) (k : string) : JsVal :=
  match get_prop v k with
  | inr x => x
  | inl _ => JUndefined
  end.

(** [{ ...o, k: v }] on the property list: an existing key keeps its
    place and takes the new value, a new key goes last. *)
Fixpoint set_field (k : string) (v : JsVal) (fs : list (string * JsVal))
  : list (string * JsVal) :=
  match fs with
  | [] => [(k, v)]
  | (k', v') :: fs' =>
      if (k =? k')%string then (k', v) :: fs' else (k', v') :: set_field k v fs'
  end.

(** [const { k, ...rest } = o]: the properties of [rest]. *)
Definition remove_field (k : string) (fs : list (string * JsVal))
  : list (string * JsVal) :=
  filter (fun kv => negb (k =? fst kv)%string) fs.

(** [{ ...v }]: spreading [undefined], [null] or a primitive adds nothing. *)
Definition spread (v : JsVal) : list (string * JsVal) :=
  match v with JObj fs => fs | _ => [] end.

Definition is_undefined (v : JsVal) : bool :=
  match v with JUndefined => true | _ => false end.

(** What [JSON.stringify] keeps of a value: a property whose value is
    [undefined] is left out of its object, an [undefined] array item
    becomes [null]. *)
Fixpoint jsonify (v : JsVal) : JsVal :=
  match v with
  | JObj fs =>
      JObj ((fix props (l : list (string * JsVal)) : list (string * JsVal) :=
               match l with
               | [] => []
               | (k, x) :: l' =>
                   if is_undefined x then props l' else (k, jsonify x) :: props l'
               end) fs)
  | JArr items =>
      JArr ((fix elems (l : list JsVal) : list JsVal :=
               match l with
               | [] => []
               | x :: l' =>
                   (if is_undefined x then JNull else jsonify x) :: elems l'
               end) items)
  | _ => v
  end.

(** [String(v)], which is [v.toString()] where [v] has one. *)
Fixpoint to_string (v : JsVal) : string :=
  match v with
  | JUndefined => "undefined"
  | JNull => "null"
  | JBool b => if b then "true" else "false"
  | JNum n => NilZero.string_of_int (Z.to_int n)
  | JStr s => s
  | JObj _ => "[object Object]"
  | JArr items =>
      (fix join (l : list JsVal) : string :=
         match l with
         | [] => ""
         | x :: l' =>
             let here := match x with
                         | JUndefined | JNull => ""
                         | _ => to_string x
                         end in
             match l' with
             | [] => here
             | _ :: _ => (here ++ "," ++ join l')%string
             end
         end) items
  end.

(** [s.length] of a string that may be absent. *)
Definition length_of (o : option string) : Thrown + Z :=
  match o with
  | Some s => inr (Z.of_nat (String.length s))
  | None => inl (ErrorObj "Cannot read properties of undefined (reading 'length')")
  end.

(** [v.length] of any value: the length of a string or of an array, and
    otherwise the property of that name. *)
Definition get_length (v : JsVal) : Thrown + JsVal :=
  match v with
  | JStr s => inr (JNum (Z.of_nat (String.length s)))
  | JArr items => inr (JNum (Z.of_nat (List.length items)))
  | _ => get_prop v "length"
  end.

(** [xs.slice(0, n)] *)
Definition slice0 {A : Type} (xs : list A) (n : Z) : list A :=
  if 0 <=? n then firstn (Z.to_nat n) xs
  else firstn (Z.to_nat (Z.of_nat (List.length xs) + n)) xs.

(** [xs.sort(cmp)]: the sort is stable; [cmp a b <= 0] keeps [a] first. *)
Section Sort.
Context {A : Type} (cmp : A -> A -> Z).

Fixpoint sort_insert (x : A) (l : list A) : list A :=
  match l with
  | [] => [x]
  | y :: l' => if cmp x y <=? 0 then x :: y :: l' else y :: sort_insert x l'
  end.

Definition sort (l : list A) : list A := fold_right sort_insert [] l.
End Sort.

End Js.

(* ------------------------------------------------------------------ *)
(** * Records of [shared/schema.ts] *)

(** A [Date], as its [getTime()]. *)
Definition Date := Z.

Module User.
Record t : Type := mk {
  id : Z;
  githubId : string;
  username : string;
  email : option string;
  avatarUrl : option string;
  accessToken : string;
  createdAt : Date
}.

(** The object a [User] row is in the handlers. *)
Definition to_js (u : t) : JsVal :=
  JObj [ ("id", JNum (id u));
         ("githubId", JStr (githubId u));
         ("username", JStr (username u));
         ("email", Js.of_nullable (email u));
         ("avatarUrl", Js.of_nullable (avatarUrl u));
         ("accessToken", JStr (accessToken u));
         ("createdAt", JNum (createdAt u)) ].
End User.

Module InsertUser.
Record t : Type := mk {
  githubId : string;
  username : string;
  email : option string;
  avatarUrl : option string;
  accessToken : string
}.
End InsertUser.

(** [filePath] holds what the caller passed: the single-file routes pass
    the path of the request, a string; the batch route passes the [path]
    of the item, whatever that is. *)
Module FileOperation.
Record t : Type := mk {
  id : Z;
  userId : Z;
  repositoryId : Z;
  operation : string;
  filePath : JsVal;
  branch : string;
  status : string;
  metadata : JsVal;
  createdAt : Date
}.

Definition with_status (op : t) (s : string) : t :=
  mk (id op) (userId op) (repositoryId op) (operation op) (filePath op)
     (branch op) s (metadata op) (createdAt op).
End FileOperation.

Module InsertFileOperation.
Record t : Type := mk {
  userId : Z;
  repositoryId : Z;
  operation : string;
  filePath : JsVal;
  branch : string;
  status : option string;
  metadata : JsVal
}.
End InsertFileOperation.

(* ------------------------------------------------------------------ *)
(** * [Map<number, V>]

    A JavaScript [Map] iterates in insertion order and [set] on a key that
    is present keeps the key's place: an association list. *)

Module NumMap.
Section Ops.
Context {V : Type}.

Definition t := list (Z * V).

Fixpoint get (k : Z) (m : list (Z * V)) : option V :=
  match m with
  | [] => None
  | (k', v) :: m' => if k =? k' then Some v else get k m'
  end.

Fixpoint set (k : Z) (v : V) (m : list (Z * V)) : list (Z * V) :=
  match m with
  | [] => [(k, v)]
  | (k', v') :: m' => if k =? k' then (k', v) :: m' else (k', v') :: set k v m'
  end.

Definition values (m : list (Z * V)) : list V := map snd m.
End Ops.
End NumMap.

(* ------------------------------------------------------------------ *)
(** * [class MemStorage] of [server/storage.ts]

    The repository map and its four methods are left out: none of the
    routes below touches them. [DatabaseStorage], the instance the routes
    import, hands the same operations to the database through drizzle-orm,
    which is outside the sources; the routes below run over [MemStorage],
    and the one thing the database adds that a handler can observe, an
    insert that is refused, comes from the environment. *)

Module MemStorage.

Record t : Type := mk {
  users : list (Z * User.t);
  fileOperations : list (Z * FileOperation.t);
  currentUserId : Z;
  currentOpId : Z
}.

(** [new MemStorage()] *)
Definition empty : t := mk [] [] 1 1.

Definition getUser (st : t) (id : Z) : option User.t :=
  NumMap.get id (users st).

Definition getUserByGithubId (st : t) (githubId : string) : option User.t :=
  find (fun user => (User.githubId user =? githubId)%string)
       (NumMap.values (users st)).

(** [x || null] on an optional text: the empty string is falsy too. *)
Definition or_null (o : option string) : option string :=
  match o with
  | Some s => if (s =? "")%string then None else Some s
  | None => None
  end.

Definition createUser (st : t) (insertUser : InsertUser.t) (now : Date)
  : User.t * t :=
  let id := currentUserId st in
  let user :=
    User.mk id (InsertUser.githubId insertUser) (InsertUser.username insertUser)
            (or_null (InsertUser.email insertUser))
            (or_null (InsertUser.avatarUrl insertUser))
            (InsertUser.accessToken insertUser) now in
  (user, mk (NumMap.set id user (users st)) (fileOperations st)
            (id + 1) (currentOpId st)).

Definition updateUserToken (st : t) (id : Z) (accessToken : string)
  : option User.t * t :=
  match NumMap.get id (users st) with
  | Some user =>
      let updatedUser :=
        User.mk (User.id user) (User.githubId user) (User.username user)
                (User.email user) (User.avatarUrl user) accessToken
                (User.createdAt user) in
      (Some updatedUser,
       mk (NumMap.set id updatedUser (users st)) (fileOperations st)
          (currentUserId st) (currentOpId st))
  | None => (None, st)
  end.

(** [x ?? null] on the metadata. *)
Definition nullish_null (v : JsVal) : JsVal :=
  match v with JUndefined => JNull | _ => v end.

Definition createFileOperation (st : t) (insertOperation : InsertFileOperation.t)
           (now : Date) : FileOperation.t * t :=
  let id := currentOpId st in
  let operation :=
    FileOperation.mk id
      (InsertFileOperation.userId insertOperation)
      (InsertFileOperation.repositoryId insertOperation)
      (InsertFileOperation.operation insertOperation)
      (InsertFileOperation.filePath insertOperation)
      (InsertFileOperation.branch insertOperation)
      (match InsertFileOperation.status insertOperation with
       | Some s => s
       | None => "pending"
       end)
      (nullish_null (InsertFileOperation.metadata insertOperation))
      now in
  (operation, mk (users st) (NumMap.set id operation (fileOperations st))
                 (currentUserId st) (id + 1)).

(** The comparator of the activity query: newest first. *)
Definition newest_first (a b : FileOperation.t) : Z :=
  FileOperation.createdAt b - FileOperation.createdAt a.

Definition getUserFileOperations (st : t) (userId : Z) (limit : Z)
  : list FileOperation.t :=
  Js.slice0
    (Js.sort newest_first
       (filter (fun op => FileOperation.userId op =? userId)
               (NumMap.values (fileOperations st))))
    limit.

Definition updateFileOperationStatus (st : t) (id : Z) (status : string)
  : option FileOperation.t * t :=
  match NumMap.get id (fileOperations st) with
  | Some operation =>
      let updatedOperation := FileOperation.with_status operation status in
      (Some updatedOperation,
       mk (users st) (NumMap.set id updatedOperation (fileOperations st))
          (currentUserId st) (currentOpId st))
  | None => (None, st)
  end.

End MemStorage.

(* ------------------------------------------------------------------ *)
(** * Handlers as state-and-exception computations

    An [async] handler body runs over a mutable state and may throw;
    [try_catch] is [try { ... } catch (error) { ... }]: what the body did
    to the state before it threw stays done. *)

Module Exec.

Definition M (S A : Type) : Type := S -> (Thrown + A) * S.

Definition ret {S A : Type} (a : A) : M S A := fun s => (inr a, s).

Definition throw {S A : Type} (e : Thrown) : M S A := fun s => (inl e, s).

Definition bind {S A B : Type} (m : M S A) (k : A -> M S B) : M S B :=
  fun s =>
    match m s with
    | (inl e, s') => (inl e, s')
    | (inr a, s') => k a s'
    end.

Definition try_catch {S A : Type} (m : M S A) (handler : Thrown -> M S A)
  : M S A :=
  fun s =>
    match m s with
    | (inl e, s') => handler e s'
    | (inr a, s') => (inr a, s')
    end.

(** An expression that may throw, evaluated in place. *)
Definition eval {S A : Type} (r : Thrown + A) : M S A := fun s => (r, s).

Definition gets {S A : Type} (f : S -> A) : M S A := fun s => (inr (f s), s).

Definition modify {S : Type} (f : S -> S) : M S unit := fun s => (inr tt, f s).

(** Run a computation on a part [S] of a larger state [T]. *)
Definition zoom {S T A : Type} (get : T -> S) (put : S -> T -> T) (m : M S A)
  : M T A :=
  fun t => let (r, s') := m (get t) in (r, put s' t).

(** [for (const x of xs) { body }] *)
Fixpoint for_of {S A : Type} (xs : list A) (body : A -> M S unit) : M S unit :=
  match xs with
  | [] => ret tt
  | x :: xs' => bind (body x) (fun _ => for_of xs' body)
  end.

End Exec.

Declare Scope exec_scope.
Delimit Scope exec_scope with exec.
Notation "x <- c ;; k" := (Exec.bind c (fun x => k))
  (at level 61, c at next level, right associativity) : exec_scope.
Notation "c ;; k" := (Exec.bind c (fun _ => k))
  (at level 61, right associativity) : exec_scope.

(* ------------------------------------------------------------------ *)
(** * What goes over the wire *)

(** A call of [fetch] to api.github.com: [body] is what [JSON.stringify]
    made of the body object ([JUndefined] for a request without body). *)
Module Fetch.
Record t : Type := mk {
  url : string;
  method : string;
  authorization : string;
  body : JsVal
}.
End Fetch.

(** The settled [fetch]: [ok] and what [await response.json()] gives. *)
Module Response.
Record t : Type := mk {
  ok : bool;
  json : Thrown + JsVal
}.
End Response.

Inductive FetchOutcome : Type :=
| Rejected (e : Thrown)
| Responded (r : Response.t).

(** One entry of [results] and of [errors] in the batch handler. *)
Record ResultEntry : Type := mkResult {
  result_path : JsVal;
  result_success : bool;
  result_result : JsVal
}.

Record ErrorEntry : Type := mkError {
  error_path : JsVal;
  error_error : JsVal
}.

(** The object the batch handler answers with. *)
Module Aggregate.
Record t : Type := mk {
  success : bool;
  uploaded : Z;
  failed : Z;
  results : list ResultEntry;
  errors : list ErrorEntry
}.
End Aggregate.

(** What a handler passes to [res.json], with the status set before it. *)
Module Res.
Inductive Payload : Type :=
| Error (error : string)                    (* { error } *)
| Json (v : JsVal)                          (* a value passed through *)
| Operations (ops : list FileOperation.t)   (* the activity list *)
| Batch (a : Aggregate.t)
| AuthSuccess (user : JsVal).               (* { success: true, user } *)

Record t : Type := mk {
  status : Z;
  payload : Payload
}.

(** [res.json(x)] without [res.status(..)] answers 200. *)
Definition json (p : Payload) : t := mk 200 p.
End Res.

(** An item of the [files] array as the client sends it: an object with
    a [path], a [content] unless the data URL had none, and possibly a
    prior content hash [sha], which the handler does not read. The server
    takes the items as they come, see [FilesArray]. *)
Module BatchFile.
Record t : Type := mk {
  path : string;
  content : option string;
  sha : option string
}.

(** A property that is there only when it has a value. *)
Definition optional (k : string) (o : option string) : list (string * JsVal) :=
  match o with
  | Some s => [(k, JStr s)]
  | None => []
  end.

(** The item as [express.json()] hands it to the handler. *)
Definition to_js (f : t) : JsVal :=
  JObj (("path", JStr (path f)) :: optional "content" (content f)
        ++ optional "sha" (sha f)).
End BatchFile.

(** The [files] property of the body of a batch request. The items of an
    array are any JSON values: the handler checks none of them. *)
Inductive FilesField : Type :=
| FilesMissing
| FilesNotArray (v : JsVal)
| FilesArray (files : list JsVal).

Module BatchBody.
Record t : Type := mk {
  files : FilesField;
  branch : option string;
  message : option string
}.
End BatchBody.

(** Body of [PUT .../contents/*]. *)
Module PutBody.
Record t : Type := mk {
  content : option string;
  message : option string;
  branch : option string;
  sha : option string
}.
End PutBody.

(** Body of [DELETE .../contents/*]. *)
Module DeleteBody.
Record t : Type := mk {
  message : option string;
  branch : option string;
  sha : option string
}.
End DeleteBody.

(** [`https://api.github.com/repos/${owner}/${repo}/contents/${path}`] *)
Definition contents_url (owner repo path : string) : string :=
  ("https://api.github.com/repos/" ++ owner ++ "/" ++ repo ++ "/contents/" ++ path)%string.

Definition bearer (accessToken : string) : string :=
  ("Bearer " ++ accessToken)%string.

(** [req.session ? req.session.userId : null] followed by [if (!userId)]:
    the user id the handler goes on with, if any. *)
Definition authenticated (sessionUserId : option Z) : option Z :=
  match sessionUserId with
  | Some n => if n =? 0 then None else Some n
  | None => None
  end.

(* ------------------------------------------------------------------ *)
(** * The route handlers of [server/routes.ts] *)

Section Routes.

(** Everything outside the process: api.github.com, the clock and the
    database connection. [github] settles one [fetch]. [persist] settles
    one insert of the persistence layer: it is refused with an exception,
    or it goes through and stamps the row ([createdAt]). *)
Variable Env : Type.
Variable github : Env -> Fetch.t -> FetchOutcome * Env.
Variable persist : Env -> (Thrown + Date) * Env.

(** The state a handler runs over; [wire] logs the [fetch] calls made. *)
Record Sys : Type := mkSys {
  env : Env;
  storage : MemStorage.t;
  session : option Z;
  wire : list Fetch.t
}.

Local Open Scope exec_scope.
Import Exec.

(** [await fetch(url, init)] *)
Definition fetch (rq : Fetch.t) : M Sys Response.t :=
  fun s =>
    let (o, e') := github (env s) rq in
    let s' := mkSys e' (storage s) (session s) (wire s ++ [rq]) in
    match o with
    | Rejected e => (inl e, s')
    | Responded r => (inr r, s')
    end.

(** [await storage.getUser(id)] *)
Definition storage_getUser (id : Z) : M Sys (option User.t) :=
  gets (fun s => MemStorage.getUser (storage s) id).

(** [await storage.getUserByGithubId(githubId)] *)
Definition storage_getUserByGithubId (githubId : string) : M Sys (option User.t) :=
  gets (fun s => MemStorage.getUserByGithubId (storage s) githubId).

(** [await storage.getUserFileOperations(userId, limit)] *)
Definition storage_getUserFileOperations (userId limit : Z)
  : M Sys (list FileOperation.t) :=
  gets (fun s => MemStorage.getUserFileOperations (storage s) userId limit).

(** [await storage.createFileOperation(op)] *)
Definition storage_createFileOperation (op : InsertFileOperation.t)
  : M Sys FileOperation.t :=
  fun s =>
    let (p, e') := persist (env s) in
    match p with
    | inl e => (inl e, mkSys e' (storage s) (session s) (wire s))
    | inr now =>
        let (row, st') := MemStorage.createFileOperation (storage s) op now in
        (inr row, mkSys e' st' (session s) (wire s))
    end.

(** [await storage.createUser(user)] *)
Definition storage_createUser (u : InsertUser.t) : M Sys User.t :=
  fun s =>
    let (p, e') := persist (env s) in
    match p with
    | inl e => (inl e, mkSys e' (storage s) (session s) (wire s))
    | inr now =>
        let (row, st') := MemStorage.createUser (storage s) u now in
        (inr row, mkSys e' st' (session s) (wire s))
    end.

(** [await storage.updateUserToken(id, accessToken)] *)
Definition storage_updateUserToken (id : Z) (accessToken : string)
  : M Sys (option User.t) :=
  fun s =>
    let (r, st') := MemStorage.updateUserToken (storage s) id accessToken in
    (inr r, mkSys (env s) st' (session s) (wire s)).

(** ** [PUT /api/repositories/:owner/:repo/contents/*] *)

Definition put_request (user : User.t) (owner repo filePath : string)
           (body : PutBody.t) : Fetch.t :=
  Fetch.mk (contents_url owner repo filePath) "PUT"
    (bearer (User.accessToken user))
    (Js.jsonify
       (JObj ([ ("message",
                 JStr (Js.str_or (PutBody.message body) ("Upload " ++ filePath)%string));
                ("content", Js.of_opt (PutBody.content body));
                ("branch", JStr (Js.default (PutBody.branch body) "main")) ]
              ++ (if Js.truthy_str (PutBody.sha body)
                  then [("sha", Js.of_opt (PutBody.sha body))]
                  else [])))).

Definition upload_file (owner repo filePath : string) (body : PutBody.t)
  : M Sys Res.t :=
  try_catch
    (sessionUserId <- gets session ;;
     match authenticated sessionUserId with
     | None => ret (Res.mk 401 (Res.Error "Not authenticated"))
     | Some userId =>
         user <- storage_getUser userId ;;
         match user with
         | None => ret (Res.mk 404 (Res.Error "User not found"))
         | Some user =>
             let branch := Js.default (PutBody.branch body) "main" in
             uploadResponse <- fetch (put_request user owner repo filePath body) ;;
             result <- eval (Response.json uploadResponse) ;;
             size <- eval (Js.length_of (PutBody.content body)) ;;
             storage_createFileOperation
               (InsertFileOperation.mk userId 0 "upload" (JStr filePath) branch
                  (Some (if Response.ok uploadResponse then "completed" else "failed"))
                  (JObj [ ("message", Js.of_opt (PutBody.message body));
                          ("size", JNum size) ])) ;;
             ret (Res.json (Res.Json (Js.jsonify result)))
         end
     end)
    (fun _ => ret (Res.mk 500 (Res.Error "Failed to upload file"))).

(** ** [DELETE /api/repositories/:owner/:repo/contents/*] *)

Definition delete_request (user : User.t) (owner repo filePath : string)
           (body : DeleteBody.t) : Fetch.t :=
  Fetch.mk (contents_url owner repo filePath) "DELETE"
    (bearer (User.accessToken user))
    (Js.jsonify
       (JObj [ ("message",
                JStr (Js.str_or (DeleteBody.message body) ("Delete " ++ filePath)%string));
               ("sha", Js.of_opt (DeleteBody.sha body));
               ("branch", JStr (Js.default (DeleteBody.branch body) "main")) ])).

Definition delete_file (owner repo filePath : string) (body : DeleteBody.t)
  : M Sys Res.t :=
  try_catch
    (sessionUserId <- gets session ;;
     match authenticated sessionUserId with
     | None => ret (Res.mk 401 (Res.Error "Not authenticated"))
     | Some userId =>
         user <- storage_getUser userId ;;
         match user with
         | None => ret (Res.mk 404 (Res.Error "User not found"))
         | Some user =>
             let branch := Js.default (DeleteBody.branch body) "main" in
             deleteResponse <- fetch (delete_request user owner repo filePath body) ;;
             result <- eval (Response.json deleteResponse) ;;
             storage_createFileOperation
               (InsertFileOperation.mk userId 0 "delete" (JStr filePath) branch
                  (Some (if Response.ok deleteResponse then "completed" else "failed"))
                  (JObj [ ("message", Js.of_opt (DeleteBody.message body)) ])) ;;
             ret (Res.json (Res.Json (Js.jsonify result)))
         end
     end)
    (fun _ => ret (Res.mk 500 (Res.Error "Failed to delete file"))).

(** ** [GET /api/activity] *)

Definition activity : M Sys Res.t :=
  try_catch
    (sessionUserId <- gets session ;;
     match authenticated sessionUserId with
     | None => ret (Res.mk 401 (Res.Error "Not authenticated"))
     | Some userId =>
         operations <- storage_getUserFileOperations userId 10 ;;
         ret (Res.json (Res.Operations operations))
     end)
    (fun _ => ret (Res.mk 500 (Res.Error "Failed to fetch activity"))).

(** ** [POST /api/repositories/:owner/:repo/upload-batch] *)

(** The handler's state inside the loop: the system and its two arrays. *)
Record Loop : Type := mkLoop {
  sys : Sys;
  results : list ResultEntry;
  errors : list ErrorEntry
}.

Definition in_sys {A : Type} (m : M Sys A) : M Loop A :=
  zoom sys (fun s l => mkLoop s (results l) (errors l)) m.

(** [results.push(r)] *)
Definition push_result (r : ResultEntry) : M Loop unit :=
  modify (fun l => mkLoop (sys l) (results l ++ [r]) (errors l)).

(** [errors.push(e)] *)
Definition push_error (e : ErrorEntry) : M Loop unit :=
  modify (fun l => mkLoop (sys l) (results l) (errors l ++ [e])).

(** The request of one item: [path] and [content] are what [file.path]
    and [file.content] have given, [`${path}`] is the text of [path]. *)
Definition batch_request (user : User.t) (owner repo branch : string)
           (message : option string) (path content : JsVal) : Fetch.t :=
  Fetch.mk (contents_url owner repo (Js.to_string path)) "PUT"
    (bearer (User.accessToken user))
    (Js.jsonify
       (JObj [ ("message",
                JStr (Js.str_or message ("Upload " ++ Js.to_string path)%string));
               ("content", content);
               ("branch", JStr branch) ])).

(** [error instanceof Error ? error.message : "Unknown error"] *)
Definition error_text (error : Thrown) : string :=
  match error with
  | ErrorObj message => message
  | NonError => "Unknown error"
  end.

(** The body of the [for (const file of files)] loop. Every [file.path]
    and [file.content] is a read of a property of the item, the one in
    the [catch] too: on an item that is [null] it throws again, out of the
    loop. *)
Definition upload_one (userId : Z) (user : User.t) (owner repo branch : string)
           (message : option string) (file : JsVal) : M Loop unit :=
  try_catch
    (path <- eval (Js.get_prop file "path") ;;
     content <- eval (Js.get_prop file "content") ;;
     uploadResponse <- in_sys (fetch (batch_request user owner repo branch message
                                        path content)) ;;
     result <- eval (Response.json uploadResponse) ;;
     if Response.ok uploadResponse then
       path <- eval (Js.get_prop file "path") ;;
       push_result (mkResult path true result) ;;
       filePath <- eval (Js.get_prop file "path") ;;
       content <- eval (Js.get_prop file "content") ;;
       size <- eval (Js.get_length content) ;;
       in_sys (storage_createFileOperation
                 (InsertFileOperation.mk userId 0 "upload" filePath
                    branch (Some "completed")
                    (JObj [ ("message", Js.of_opt message); ("size", size) ]))) ;;
       ret tt
     else
       path <- eval (Js.get_prop file "path") ;;
       resultMessage <- eval (Js.get_prop result "message") ;;
       push_error (mkError path (Js.or resultMessage (JStr "Upload failed"))))
    (fun error =>
       path <- eval (Js.get_prop file "path") ;;
       push_error (mkError path (JStr (error_text error)))).

(** The request a turn of the loop sends for an item that is not [null]. *)
Definition item_request (user : User.t) (owner repo branch : string)
           (message : option string) (file : JsVal) : Fetch.t :=
  batch_request user owner repo branch message
    (Js.prop file "path") (Js.prop file "content").

(** The loop with its arrays: [const results = []; const errors = [];
    for (...) {...}], giving the two arrays as they stand after it. *)
Definition upload_all (userId : Z) (user : User.t) (owner repo branch : string)
           (message : option string) (files : list JsVal)
  : M Sys (list ResultEntry * list ErrorEntry) :=
  fun s =>
    let (r, l) := for_of files (upload_one userId user owner repo branch message)
                         (mkLoop s [] []) in
    match r with
    | inl e => (inl e, sys l)
    | inr _ => (inr (results l, errors l), sys l)
    end.

Definition aggregate (results : list ResultEntry) (errors : list ErrorEntry)
  : Aggregate.t :=
  Aggregate.mk (Nat.eqb (List.length errors) 0)
               (Z.of_nat (List.length results))
               (Z.of_nat (List.length errors))
               results errors.

Definition upload_batch (owner repo : string) (body : BatchBody.t) : M Sys Res.t :=
  try_catch
    (sessionUserId <- gets session ;;
     match authenticated sessionUserId with
     | None => ret (Res.mk 401 (Res.Error "Not authenticated"))
     | Some userId =>
         user <- storage_getUser userId ;;
         match user with
         | None => ret (Res.mk 404 (Res.Error "User not found"))
         | Some user =>
             let branch := Js.default (BatchBody.branch body) "main" in
             match BatchBody.files body with
             | FilesMissing | FilesNotArray _ | FilesArray [] =>
                 ret (Res.mk 400 (Res.Error "Files array is required"))
             | FilesArray files =>
                 arrays <- upload_all userId user owner repo branch
                                      (BatchBody.message body) files ;;
                 ret (Res.json (Res.Batch (aggregate (fst arrays) (snd arrays))))
             end
         end
     end)
    (fun _ => ret (Res.mk 500 (Res.Error "Failed to upload files"))).

(** ** [GET /api/user] *)

Definition get_user : M Sys Res.t :=
  try_catch
    (sessionUserId <- gets session ;;
     match authenticated sessionUserId with
     | None => ret (Res.mk 401 (Res.Error "Not authenticated"))
     | Some userId =>
         user <- storage_getUser userId ;;
         match user with
         | None => ret (Res.mk 404 (Res.Error "User not found"))
         | Some user =>
             (* const { accessToken, ...userWithoutToken } = user *)
             let userWithoutToken :=
               JObj (Js.remove_field "accessToken" (Js.spread (User.to_js user))) in
             ret (Res.json (Res.Json (Js.jsonify userWithoutToken)))
         end
     end)
    (fun _ => ret (Res.mk 500 (Res.Error "Failed to get user info"))).

(** ** [POST /api/auth/token] *)

Definition user_info_request (token : string) : Fetch.t :=
  Fetch.mk "https://api.github.com/user" "GET" (bearer token) JUndefined.

(** [githubUser.id.toString()] *)
Definition github_id (githubUser : JsVal) : Thrown + string :=
  match Js.get_prop githubUser "id" with
  | inl e => inl e
  | inr (JUndefined | JNull) =>
      inl (ErrorObj "Cannot read properties of undefined (reading 'toString')")
  | inr id => inr (Js.to_string id)
  end.

(** A nullable, optional text column under [insertUserSchema.parse]. *)
Definition parse_nullable (v : JsVal) : Thrown + option string :=
  match v with
  | JStr s => inr (Some s)
  | JNull | JUndefined => inr None
  | _ => inl (ErrorObj "Expected string")
  end.

(** [insertUserSchema.parse({ githubId, username: githubUser.login,
    email: githubUser.email, avatarUrl: githubUser.avatar_url, accessToken })] *)
Definition parse_new_user (githubId : string) (githubUser : JsVal) (token : string)
  : Thrown + InsertUser.t :=
  match Js.get_prop githubUser "login",
        Js.get_prop githubUser "email",
        Js.get_prop githubUser "avatar_url" with
  | inr (JStr login), inr email, inr avatar =>
      match parse_nullable email, parse_nullable avatar with
      | inr email, inr avatar => inr (InsertUser.mk githubId login email avatar token)
      | _, _ => inl (ErrorObj "Expected string")
      end
  | inl e, _, _ => inl e
  | _, _, _ => inl (ErrorObj "Required")
  end.

Definition set_session (userId : option Z) : M Sys unit :=
  modify (fun s => mkSys (env s) (storage s) userId (wire s)).

(** [{ ...user, accessToken: undefined }] for a [user] that may be
    [undefined]. *)
Definition masked_user (user : option User.t) : JsVal :=
  JObj (Js.set_field "accessToken" JUndefined
          (Js.spread (match user with
                      | Some u => User.to_js u
                      | None => JUndefined
                      end))).

Definition auth_token (token : option string) : M Sys Res.t :=
  try_catch
    (match token with
     | Some token =>
         if (token =? "")%string
         then ret (Res.mk 400 (Res.Error "Token is required"))
         else
           userResponse <- fetch (user_info_request token) ;;
           if negb (Response.ok userResponse)
           then ret (Res.mk 401 (Res.Error "Invalid token"))
           else
             githubUser <- eval (Response.json userResponse) ;;
             githubId <- eval (github_id githubUser) ;;
             found <- storage_getUserByGithubId githubId ;;
             user <- match found with
                     | None =>
                         newUser <- eval (parse_new_user githubId githubUser token) ;;
                         created <- storage_createUser newUser ;;
                         ret (Some created)
                     | Some existing =>
                         storage_updateUserToken (User.id existing) token
                     end ;;
             set_session (option_map User.id user) ;;
             ret (Res.json (Res.AuthSuccess (Js.jsonify (masked_user user))))
     | None => ret (Res.mk 400 (Res.Error "Token is required"))
     end)
    (fun _ => ret (Res.mk 500 (Res.Error "Authentication failed"))).

End Routes.

Arguments mkSys {Env}.
Arguments env {Env}.
Arguments storage {Env}.
Arguments session {Env}.
Arguments wire {Env}.
Arguments mkLoop {Env}.
Arguments sys {Env}.
Arguments results {Env}.
Arguments errors {Env}.

(* ------------------------------------------------------------------ *)
(** * A scripted environment

    The replies of api.github.com and the verdicts of the persistence
    layer are read off two lists, one per call; a call past the end of
    its list fails (the network is down, the connection is closed). *)

Module Script.

Record t : Type := mk {
  replies : list FetchOutcome;
  inserts : list (Thrown + Date)
}.

Definition github (e : t) (_ : Fetch.t) : FetchOutcome * t :=
  match replies e with
  | [] => (Rejected (ErrorObj "fetch failed"), e)
  | r :: rs => (r, mk rs (inserts e))
  end.

Definition persist (e : t) : (Thrown + Date) * t :=
  match inserts e with
  | [] => (inl (ErrorObj "Connection terminated"), e)
  | i :: rest => (i, mk (replies e) rest)
  end.

(** A 2xx reply and a 4xx reply with a JSON body. *)
Definition created (v : JsVal) : FetchOutcome := Responded (Response.mk true (inr v)).
Definition refused (v : JsVal) : FetchOutcome := Responded (Response.mk false (inr v)).

Definition start (e : t) (st : MemStorage.t) (sessionUserId : option Z) : Sys t :=
  mkSys e st sessionUserId [].

End Script.

(** A store with one user, and files to upload. *)
Definition alice : User.t :=
  User.mk 1 "583231" "alice" None None "ghp_secret" 1000.

Definition one_user : MemStorage.t :=
  MemStorage.mk [(1, alice)] [] 2 1.

Definition readme : BatchFile.t := BatchFile.mk "readme.md" (Some "aGVsbG8=") None.
Definition index_ts : BatchFile.t := BatchFile.mk "src/index.ts" (Some "Y29uc3Q=") None.

Definition batch_of (files : list BatchFile.t) : BatchBody.t :=
  BatchBody.mk (FilesArray (map BatchFile.to_js files)) (Some "main")
               (Some "Upload files").

(* ------------------------------------------------------------------ *)
(** * A content store as environment *)

(** The remote content store as section 4.3 of the specification
    describes it, for the examples: it keeps the current content hash of
    every path; a write to a new path needs no hash, a write to an
    existing path must carry that path's current hash and is refused
    without it. The hash of a content is stood for by the content itself. *)
Module ContentStore.

Record t : Type := mk {
  blobs : list (string * string);
  clock : Date
}.

Fixpoint current (url : string) (bs : list (string * string)) : option string :=
  match bs with
  | [] => None
  | (u, h) :: bs' => if (url =? u)%string then Some h else current url bs'
  end.

Definition exists_at (e : t) (url : string) : bool :=
  match current url (blobs e) with Some _ => true | None => false end.

Definition text_of (v : Thrown + JsVal) : string :=
  match v with inr (JStr s) => s | _ => "" end.

Definition github (e : t) (rq : Fetch.t) : FetchOutcome * t :=
  if (Fetch.method rq =? "PUT")%string then
    let content := text_of (Js.get_prop (Fetch.body rq) "content") in
    match current (Fetch.url rq) (blobs e), Js.get_prop (Fetch.body rq) "sha" with
    | None, _ =>
        (Responded (Response.mk true (inr (JObj [("sha", JStr content)]))),
         mk ((Fetch.url rq, content) :: blobs e) (clock e))
    | Some h, inr (JStr given) =>
        if (given =? h)%string
        then (Responded (Response.mk true (inr (JObj [("sha", JStr content)]))),
              mk ((Fetch.url rq, content) :: blobs e) (clock e))
        else (Responded (Response.mk false
                (inr (JObj [("message", JStr "sha does not match")]))), e)
    | Some _, _ =>
        (Responded (Response.mk false
           (inr (JObj [("message", JStr "sha was not supplied")]))), e)
    end
  else (Responded (Response.mk false (inr (JObj [("message", JStr "Not Found")]))), e).

Definition persist (e : t) : (Thrown + Date) * t :=
  (inr (clock e), mk (blobs e) (clock e + 1)).

End ContentStore.

(* ------------------------------------------------------------------ *)
(** * States and requests used in the examples *)

(** A ledger holding one completed upload. *)
Definition done_upload : FileOperation.t :=
  FileOperation.mk 1 1 0 "upload" (JStr "readme.md") "main" "completed" JNull 1000.

Definition one_done : MemStorage.t :=
  MemStorage.mk [] [(1, done_upload)] 1 2.

(** A ledger with rows of two users, not in order of time. *)
Definition mixed_ledger : MemStorage.t :=
  MemStorage.mk [(1, alice)]
    [ (1, FileOperation.mk 1 1 0 "upload" (JStr "a.txt") "main" "completed" JNull 30);
      (2, FileOperation.mk 2 2 0 "upload" (JStr "b.txt") "main" "completed" JNull 50);
      (3, FileOperation.mk 3 1 0 "delete" (JStr "a.txt") "main" "failed" JNull 40);
      (4, FileOperation.mk 4 1 0 "upload" (JStr "c.txt") "dev" "completed" JNull 10) ]
    2 5.

Definition notes : BatchFile.t := BatchFile.mk "docs/notes.txt" (Some "bm90ZXM=") None.

(** The store takes two writes and the ledger both rows. *)
Definition fair_weather : Script.t :=
  Script.mk [ Script.created (JObj [("content", JObj [("path", JStr "readme.md")])]);
              Script.created (JObj [("content", JObj [("path", JStr "src/index.ts")])]) ]
            [ inr 7000; inr 7001 ].

(** For three files: the store refuses the first, the connection drops on
    the second, the third goes through. *)
Definition rough_network : Script.t :=
  Script.mk [ Script.refused (JObj [("message", JStr "Invalid request")]);
              Rejected (ErrorObj "fetch failed");
              Script.created (JObj [("content", JObj [("path", JStr "docs/notes.txt")])]) ]
            [ inr 7000 ].

(** The store refuses the one write it is asked for. *)
Definition refusing : Script.t :=
  Script.mk [ Script.refused (JObj [("message", JStr "Invalid request")]) ]
            [ inr 9000 ].

(** A store that already holds [readme.md]. *)
Definition holds_readme : ContentStore.t :=
  ContentStore.mk
    [("https://api.github.com/repos/alice/site/contents/readme.md", "b2xk")] 5000.

Definition at_holds_readme : Sys ContentStore.t :=
  mkSys holds_readme one_user (Some 1) [].

(** The store takes the write, the ledger insert is refused. *)
Definition ledger_down : Script.t :=
  Script.mk [ Script.created (JObj [("content", JObj [("path", JStr "readme.md")])]) ]
            [ inl (ErrorObj "Connection terminated") ].

(** The store takes a write whose item carries no content. *)
Definition lenient_store : Script.t :=
  Script.mk [ Script.created (JObj [("content", JObj [("path", JStr "empty.txt")])]) ]
            [ inr 9000 ].

(* ------------------------------------------------------------------ *)
(** * The vocabulary of the statements *)

(** The order the comparator of a sort puts between neighbours. *)
Definition before {A : Type} (cmp : A -> A -> Z) (a b : A) : Prop := cmp a b <= 0.

(** [a] is at least as recent as [b]. *)
Definition newer_or_same (a b : FileOperation.t) : Prop :=
  FileOperation.createdAt b <= FileOperation.createdAt a.

(** The ledger rows of one user, in the order the map holds them. *)
Definition rows_of (st : MemStorage.t) (userId : Z) : list FileOperation.t :=
  filter (fun op => FileOperation.userId op =? userId)
         (NumMap.values (MemStorage.fileOperations st)).

(** The reading of the status rule: a status stays, or leaves [pending]
    for [completed] or [failed]. *)
Definition forward (old new : string) : Prop :=
  old = new \/ (old = "pending" /\ (new = "completed" \/ new = "failed")).

(** The status rule for [updateFileOperationStatus]: whatever record it
    finds and rewrites, the new status is a forward step from the old. *)
Definition status_only_forward : Prop :=
  forall (st : MemStorage.t) (id : Z) (status : string) (op op' : FileOperation.t),
    NumMap.get id (MemStorage.fileOperations st) = Some op ->
    fst (MemStorage.updateFileOperationStatus st id status) = Some op' ->
    forward (FileOperation.status op) (FileOperation.status op').

(** Every ledger row of [st'] was already in [st] or carries the
    repository id 0. *)
Definition placeholder_only (st st' : MemStorage.t) : Prop :=
  forall (k : Z) (op : FileOperation.t),
    In (k, op) (MemStorage.fileOperations st') ->
    In (k, op) (MemStorage.fileOperations st)
    \/ FileOperation.repositoryId op = 0.

(** The [files] values the batch route turns away: missing, not an array,
    or an empty array ([!Array.isArray(files) || files.length === 0]). *)
Definition files_rejected (f : FilesField) : bool :=
  match f with
  | FilesArray (_ :: _) => false
  | _ => true
  end.

(** The store's rule for overwriting, as far as the handlers meet it:
    a [PUT] on a path that exists, sent without a [sha], is not answered
    with success. [exists_at e url] says that the path behind [url] holds
    a file in the store of [e]. *)
Definition overwrite_needs_sha {Env : Type} (exists_at : Env -> string -> bool)
           (github : Env -> Fetch.t -> FetchOutcome * Env) : Prop :=
  forall (e : Env) (rq : Fetch.t),
    Fetch.method rq = "PUT" ->
    exists_at e (Fetch.url rq) = true ->
    Js.has_key "sha" (Fetch.body rq) = false ->
    forall (r : Response.t) (e' : Env),
      github e rq = (Responded r, e') -> Response.ok r = false.

(** A request as the batch route sends them. *)
Definition put_without_sha (rq : Fetch.t) : Prop :=
  Fetch.method rq = "PUT" /\ Js.has_key "sha" (Fetch.body rq) = false.

(** Whether the answer holds a user object with an [accessToken]
    property: the object of [GET /api/user], the [user] of a successful
    [POST /api/auth/token]. *)
Definition shows_access_token (r : Thrown + Res.t) : bool :=
  match r with
  | inr res =>
      match Res.payload res with
      | Res.Json v => Js.has_key "accessToken" v
      | Res.AuthSuccess user => Js.has_key "accessToken" user
      | _ => false
      end
  | inl _ => false
  end.

(** The keys of the ledger lie below the next id to hand out, as they do
    in every store grown from [new MemStorage()]. *)
Definition ledger_wf (st : MemStorage.t) : Prop :=
  Forall (fun row => fst row < MemStorage.currentOpId st)
         (MemStorage.fileOperations st).

(** [st'] is [st] with rows added at the end of the ledger: the rows of
    [st] are all still there, in place and as they were. *)
Definition grows (st st' : MemStorage.t) : Prop :=
  ledger_wf st'
  /\ exists added,
       MemStorage.fileOperations st' = MemStorage.fileOperations st ++ added.

(** What a route may do to the ledger: leave it, or add rows with
    repository id 0; on a well-formed ledger the rows go to the end. *)
Definition logs_only (st st' : MemStorage.t) : Prop :=
  placeholder_only st st' /\ (ledger_wf st -> grows st st').

(** The persistence layer takes every insert. *)
Definition always_persists {Env : Type} (persist : Env -> (Thrown + Date) * Env)
  : Prop :=
  forall e, exists now e', persist e = (inr now, e').

(** The number of entries in the two arrays of the batch loop together. *)
Definition reported {Env : Type} (l : Loop Env) : nat :=
  (List.length (results l) + List.length (errors l))%nat.

(** The items of a [files] array that the loop gets to: those before the
    first item that is [null]. *)
Fixpoint attempted (files : list JsVal) : list JsVal :=
  match files with
  | [] => []
  | file :: files' => if Js.nullish file then [] else file :: attempted files'
  end.

(** An item that is not [null] and has a [content] that is not [null]
    either, so that [file.content.length] does not throw. *)
Definition with_content (file : JsVal) : bool :=
  negb (Js.nullish file) && negb (Js.nullish (Js.prop file "content")).

(** No item of the array is [null]. *)
Definition all_files (files : list JsVal) : bool :=
  forallb (fun file => negb (Js.nullish file)) files.

(** What one turn of the batch loop does for an item that is not [null],
    whatever the environment answers: it has sent the one request of its
    file, and has pushed, for that file, something onto [results] or
    [errors]. *)
Record turn {Env : Type} (request : JsVal -> Fetch.t) (file : JsVal)
       (l l' : Loop Env) : Prop := mkTurn {
  turn_wire : wire (sys l') = wire (sys l) ++ [request file];
  turn_session : session (sys l') = session (sys l);
  turn_users : MemStorage.users (storage (sys l')) = MemStorage.users (storage (sys l));
  turn_ledger : logs_only (storage (sys l)) (storage (sys l'));
  turn_arrays :
    exists rs es,
      results l' = results l ++ rs /\ errors l' = errors l ++ es
      /\ (List.length rs <= 1)%nat /\ (List.length es <= 1)%nat
      /\ (1 <= List.length rs + List.length es)%nat
      /\ Forall (fun r => result_path r = Js.prop file "path") rs
      /\ Forall (fun e => error_path e = Js.prop file "path") es
}.

(** What the whole loop does: one request per file, in the order of the
    list, and every file accounted for in one of the arrays. *)
Record run {Env : Type} (request : JsVal -> Fetch.t) (files : list JsVal)
       (l l' : Loop Env) : Prop := mkRun {
  run_wire : wire (sys l') = wire (sys l) ++ map request files;
  run_session : session (sys l') = session (sys l);
  run_users : MemStorage.users (storage (sys l')) = MemStorage.users (storage (sys l));
  run_ledger : logs_only (storage (sys l)) (storage (sys l'));
  run_arrays :
    exists rs es,
      results l' = results l ++ rs /\ errors l' = errors l ++ es
      /\ (List.length rs <= List.length files)%nat
      /\ (List.length es <= List.length files)%nat
      /\ (List.length files <= List.length rs + List.length es)%nat
      /\ (forall file, In file files ->
            In (Js.prop file "path") (map result_path rs)
            \/ In (Js.prop file "path") (map error_path es))
}.

(* ------------------------------------------------------------------ *)
(** * The repository half of [MemStorage]

    The fields [repositories] and [currentRepoId] of the class and the
    four methods that read or write them and nothing else. What a
    repository row takes from the listing of api.github.com is stored as
    it comes. *)

Module Repository.
Record t : Type := mk {
  id : Z;
  userId : Z;
  githubId : string;
  name : JsVal;
  fullName : JsVal;
  private : JsVal;
  defaultBranch : JsVal;
  lastSyncAt : option Date
}.
End Repository.

Module InsertRepository.
Record t : Type := mk {
  userId : Z;
  githubId : string;
  name : JsVal;
  fullName : JsVal;
  private : JsVal;
  defaultBranch : JsVal
}.
End InsertRepository.

Module MemRepositories.

Record t : Type := mk {
  repositories : list (Z * Repository.t);
  currentRepoId : Z
}.

(** The two fields as [new MemStorage()] sets them. *)
Definition empty : t := mk [] 1.

Definition getUserRepositories (st : t) (userId : Z) : list Repository.t :=
  filter (fun repo => Repository.userId repo =? userId)
         (NumMap.values (repositories st)).

(** [v ?? d] *)
Definition nullish (v d : JsVal) : JsVal :=
  match v with
  | JUndefined | JNull => d
  | _ => v
  end.

Definition createRepository (st : t) (insertRepository : InsertRepository.t)
  : Repository.t * t :=
  let id := currentRepoId st in
  let repository :=
    Repository.mk id
      (InsertRepository.userId insertRepository)
      (InsertRepository.githubId insertRepository)
      (InsertRepository.name insertRepository)
      (InsertRepository.fullName insertRepository)
      (nullish (InsertRepository.private insertRepository) (JBool false))
      (nullish (InsertRepository.defaultBranch insertRepository) (JStr "main"))
      None in
  (repository, mk (NumMap.set id repository (repositories st)) (id + 1)).

Definition getRepository (st : t) (id : Z) : option Repository.t :=
  NumMap.get id (repositories st).

Definition updateRepositorySync (st : t) (id : Z) (now : Date)
  : option Repository.t * t :=
  match NumMap.get id (repositories st) with
  | Some repo =>
      let updatedRepo :=
        Repository.mk (Repository.id repo) (Repository.userId repo)
          (Repository.githubId repo) (Repository.name repo)
          (Repository.fullName repo) (Repository.private repo)
          (Repository.defaultBranch repo) (Some now) in
      (Some updatedRepo, mk (NumMap.set id updatedRepo (repositories st))
                            (currentRepoId st))
  | None => (None, st)
  end.

End MemRepositories.

(* ------------------------------------------------------------------ *)
(** * Calls on the storage, one after the other *)

(** A call of one of the writing methods of [MemStorage], with the time
    at which it runs where the method reads the clock. *)
Inductive StorageCall : Type :=
| CreateUser (insertUser : InsertUser.t) (now : Date)
| UpdateUserToken (id : Z) (accessToken : string)
| CreateFileOperation (insertOperation : InsertFileOperation.t) (now : Date)
| UpdateFileOperationStatus (id : Z) (status : string).

Definition call (st : MemStorage.t) (c : StorageCall) : MemStorage.t :=
  match c with
  | CreateUser u now => snd (MemStorage.createUser st u now)
  | UpdateUserToken id token => snd (MemStorage.updateUserToken st id token)
  | CreateFileOperation op now => snd (MemStorage.createFileOperation st op now)
  | UpdateFileOperationStatus id status =>
      snd (MemStorage.updateFileOperationStatus st id status)
  end.

(** The storage after the calls [cs], made on [new MemStorage()]. *)
Definition after (cs : list StorageCall) : MemStorage.t :=
  fold_left call cs MemStorage.empty.

(* ------------------------------------------------------------------ *)
(** * The other routes of [server/routes.ts] *)

Section MoreRoutes.

Variable Env : Type.
Variable github : Env -> Fetch.t -> FetchOutcome * Env.
Variable persist : Env -> (Thrown + Date) * Env.

Local Open Scope exec_scope.
Import Exec.

(** A [fetch] without [method] or [body], with the user's token. *)
Definition get_request (user : User.t) (url : string) : Fetch.t :=
  Fetch.mk url "GET" (bearer (User.accessToken user)) JUndefined.

(** ** [POST /api/auth/logout] *)

Definition logout : M (Sys Env) Res.t :=
  set_session Env None ;;
  ret (Res.json (Res.Json (JObj [("success", JBool true)]))).

(** ** [GET /api/repositories/:owner/:repo/branches] *)

Definition branches_url (owner repo : string) : string :=
  ("https://api.github.com/repos/" ++ owner ++ "/" ++ repo ++ "/branches")%string.

Definition get_branches (owner repo : string) : M (Sys Env) Res.t :=
  try_catch
    (sessionUserId <- gets session ;;
     match authenticated sessionUserId with
     | None => ret (Res.mk 401 (Res.Error "Not authenticated"))
     | Some userId =>
         user <- storage_getUser Env userId ;;
         match user with
         | None => ret (Res.mk 404 (Res.Error "User not found"))
         | Some user =>
             branchesResponse <- fetch Env github
                                   (get_request user (branches_url owner repo)) ;;
             branches <- eval (Response.json branchesResponse) ;;
             ret (Res.json (Res.Json (Js.jsonify branches)))
         end
     end)
    (fun _ => ret (Res.mk 500 (Res.Error "Failed to fetch branches"))).

(** ** [GET /api/repositories/:owner/:repo/contents] *)

(** [`.../contents/${path}?ref=${ref}`] with [path = ""] and
    [ref = "main"] where the query leaves them out. *)
Definition listing_url (owner repo : string) (path ref : option string) : string :=
  (contents_url owner repo (Js.default path "") ++ "?ref=" ++ Js.default ref "main")%string.

Definition get_contents (owner repo : string) (path ref : option string)
  : M (Sys Env) Res.t :=
  try_catch
    (sessionUserId <- gets session ;;
     match authenticated sessionUserId with
     | None => ret (Res.mk 401 (Res.Error "Not authenticated"))
     | Some userId =>
         user <- storage_getUser Env userId ;;
         match user with
         | None => ret (Res.mk 404 (Res.Error "User not found"))
         | Some user =>
             contentsResponse <- fetch Env github
                                   (get_request user (listing_url owner repo path ref)) ;;
             contents <- eval (Response.json contentsResponse) ;;
             ret (Res.json (Res.Json (Js.jsonify contents)))
         end
     end)
    (fun _ => ret (Res.mk 500 (Res.Error "Failed to fetch repository contents"))).

(** ** [POST /api/repositories/:owner/:repo/pulls] *)

Record PullBody : Type := mkPullBody {
  pull_title : option string;
  pull_body : option string;
  pull_head : option string;
  pull_base : option string
}.

Definition pulls_url (owner repo : string) : string :=
  ("https://api.github.com/repos/" ++ owner ++ "/" ++ repo ++ "/pulls")%string.

Definition pull_request (user : User.t) (owner repo : string) (body : PullBody)
  : Fetch.t :=
  Fetch.mk (pulls_url owner repo) "POST" (bearer (User.accessToken user))
    (Js.jsonify
       (JObj [ ("title", Js.of_opt (pull_title body));
               ("body", Js.of_opt (pull_body body));
               ("head", Js.of_opt (pull_head body));
               ("base", Js.of_opt (pull_base body)) ])).

Definition create_pull (owner repo : string) (body : PullBody) : M (Sys Env) Res.t :=
  try_catch
    (sessionUserId <- gets session ;;
     match authenticated sessionUserId with
     | None => ret (Res.mk 401 (Res.Error "Not authenticated"))
     | Some userId =>
         user <- storage_getUser Env userId ;;
         match user with
         | None => ret (Res.mk 404 (Res.Error "User not found"))
         | Some user =>
             prResponse <- fetch Env github (pull_request user owner repo body) ;;
             result <- eval (Response.json prResponse) ;;
             ret (Res.json (Res.Json (Js.jsonify result)))
         end
     end)
    (fun _ => ret (Res.mk 500 (Res.Error "Failed to create pull request"))).

(** ** [GET /api/repositories] *)

(** The state of this route: the system and the repository half of the
    storage. *)
Definition Full : Type := (Sys Env * MemRepositories.t)%type.

Definition on_sys {A : Type} (m : M (Sys Env) A) : M Full A :=
  zoom fst (fun s (f : Full) => (s, snd f)) m.

(** [for (const x of v)]: an array gives its items, a string its
    characters, anything else is not iterable. *)
Definition iterate (v : JsVal) : Thrown + list JsVal :=
  match v with
  | JArr items => inr items
  | JStr s => inr (map (fun c => JStr (String c EmptyString)) (list_ascii_of_string s))
  | _ => inl (ErrorObj "githubRepos is not iterable")
  end.

(** [await storage.getUserRepositories(userId)] *)
Definition storage_getUserRepositories (userId : Z) : M Full (list Repository.t) :=
  gets (fun f => MemRepositories.getUserRepositories (snd f) userId).

(** [await storage.createRepository(repository)] *)
Definition storage_createRepository (r : InsertRepository.t) : M Full Repository.t :=
  fun f =>
    let s := fst f in
    let (p, e') := persist (env s) in
    let s' := mkSys e' (storage s) (session s) (wire s) in
    match p with
    | inl e => (inl e, (s', snd f))
    | inr _ =>
        let (row, repos') := MemRepositories.createRepository (snd f) r in
        (inr row, (s', repos'))
    end.

(** The body of [for (const repo of githubRepos)]. *)
Definition sync_one (userId : Z) (repo : JsVal) : M Full unit :=
  existingRepo <- storage_getUserRepositories userId ;;
  githubId <- eval (github_id repo) ;;
  match find (fun r => (Repository.githubId r =? githubId)%string) existingRepo with
  | Some _ => ret tt
  | None =>
      name <- eval (Js.get_prop repo "name") ;;
      fullName <- eval (Js.get_prop repo "full_name") ;;
      isPrivate <- eval (Js.get_prop repo "private") ;;
      defaultBranch <- eval (Js.get_prop repo "default_branch") ;;
      storage_createRepository
        (InsertRepository.mk userId githubId name fullName isPrivate defaultBranch) ;;
      ret tt
  end.

Definition repos_request (user : User.t) : Fetch.t :=
  get_request user "https://api.github.com/user/repos?per_page=100".

Definition get_repositories : M Full Res.t :=
  try_catch
    (sessionUserId <- gets (fun f : Full => session (fst f)) ;;
     match authenticated sessionUserId with
     | None => ret (Res.mk 401 (Res.Error "Not authenticated"))
     | Some userId =>
         user <- on_sys (storage_getUser Env userId) ;;
         match user with
         | None => ret (Res.mk 404 (Res.Error "User not found"))
         | Some user =>
             reposResponse <- on_sys (fetch Env github (repos_request user)) ;;
             githubRepos <- eval (Response.json reposResponse) ;;
             items <- eval (iterate githubRepos) ;;
             for_of items (sync_one userId) ;;
             ret (Res.json (Res.Json (Js.jsonify githubRepos)))
         end
     end)
    (fun _ => ret (Res.mk 500 (Res.Error "Failed to fetch repositories"))).

End MoreRoutes.


(* ------------------------------------------------------------------ *)
(** * The client side of the upload and of the file browser

    The parts of [file-upload-panel.tsx] and [file-tree-browser.tsx] that
    compute on strings and lists. A [File] is an opaque blob with a name;
    what the browser makes of it ([FileReader], the ZIP reader) is given
    from outside. *)

Module Client.

Import Ascii.

(** [s.split(c)] for a one-character separator. *)
Fixpoint split_on (c : Ascii.ascii) (s : string) : list string :=
  match s with
  | EmptyString => [EmptyString]
  | String a s' =>
      if Ascii.eqb a c then EmptyString :: split_on c s'
      else match split_on c s' with
           | piece :: pieces => String a piece :: pieces
           | [] => [String a EmptyString]
           end
  end.

(** [xs.join(sep)] *)
Fixpoint join (sep : string) (xs : list string) : string :=
  match xs with
  | [] => EmptyString
  | [x] => x
  | x :: xs' => (x ++ sep ++ join sep xs')%string
  end.

(** [s.endsWith(suffix)] *)
Definition ends_with (suffix s : string) : bool :=
  (String.length suffix <=? String.length s)%nat
  && (substring (String.length s - String.length suffix) (String.length suffix) s
      =? suffix)%string.

(** [n] in decimal, as a template literal prints it. *)
Definition decimal (n : nat) : string := NilZero.string_of_uint (Nat.to_uint n).

(** ** The file browser's breadcrumbs *)

(** [currentPath.split('/').filter(Boolean)] *)
Definition pathSegments (currentPath : string) : list string :=
  filter (fun segment => negb (segment =? "")%string) (split_on "/"%char currentPath).

(** [pathSegments.slice(0, index + 1).join('/')], the path behind the
    crumb [index]. *)
Definition crumb_path (currentPath : string) (index : nat) : string :=
  join "/" (firstn (index + 1) (pathSegments currentPath)).

Section Upload.

(** The bytes behind a [File]. *)
Variable Blob : Type.

(** [fileToBase64]: what [FileReader.readAsDataURL] resolves to, or the
    error it rejects with. *)
Variable readAsDataURL : Blob -> Thrown + string.

(** A file as an [<input>] or a drop hands it over. *)
Record InputFile : Type := mkInputFile {
  file_name : string;
  webkitRelativePath : string;
  file_blob : Blob
}.

(** [interface UploadFile] *)
Record UploadFile : Type := mkUploadFile {
  file : Blob;
  path : string;
  progress : Z
}.

(** [handleFileSelect(files)] on the list [uploadFiles]. *)
Definition handleFileSelect (files : option (list InputFile))
           (uploadFiles : list UploadFile) : list UploadFile :=
  match files with
  | None => uploadFiles
  | Some files =>
      uploadFiles
      ++ map (fun f =>
                mkUploadFile (file_blob f)
                  (if (webkitRelativePath f =? "")%string
                   then file_name f else webkitRelativePath f)
                  0)
             files
  end.

(** [content.split(',')[1]], the data URL without its prefix. *)
Definition strip_data_uri (content : string) : option string :=
  nth_error (split_on ","%char content) 1.

(** The loop of the upload mutation that fills [filePayloads]. *)
Fixpoint file_payloads (files : list UploadFile) : Thrown + list BatchFile.t :=
  match files with
  | [] => inr []
  | uploadFile :: rest =>
      match readAsDataURL (file uploadFile) with
      | inl e => inl e
      | inr content =>
          match file_payloads rest with
          | inl e => inl e
          | inr payloads =>
              inr (BatchFile.mk (path uploadFile) (strip_data_uri content) None
                   :: payloads)
          end
      end
  end.

(** [`Upload ${files.length} file${files.length > 1 ? 's' : ''}`] *)
Definition upload_message (n : nat) : string :=
  ("Upload " ++ decimal n ++ " file" ++ (if (1 <? n)%nat then "s" else ""))%string.

(** The body the upload mutation posts to [upload-batch], or what it
    throws instead. *)
Definition upload_body (selectedRepo : option string) (selectedBranch : string)
           (files : list UploadFile) : Thrown + BatchBody.t :=
  match selectedRepo with
  | None => inl (ErrorObj "No repository selected")
  | Some _ =>
      match file_payloads files with
      | inl e => inl e
      | inr payloads =>
          inr (BatchBody.mk (FilesArray (map BatchFile.to_js payloads))
                            (Some selectedBranch)
                            (Some (upload_message (List.length files))))
      end
  end.

(** [handleUpload]: the mutation runs only on a non-empty list. *)
Definition handleUpload (selectedRepo : option string) (selectedBranch : string)
           (uploadFiles : list UploadFile) : option (Thrown + BatchBody.t) :=
  match uploadFiles with
  | [] => None
  | _ :: _ => Some (upload_body selectedRepo selectedBranch uploadFiles)
  end.

(** ** The ZIP input *)

(** An entry of [zipContent.files]: [data] is what
    [zipEntry.async('arraybuffer')] resolves to, or the error. *)
Record ZipEntry : Type := mkZipEntry {
  dir : bool;
  entry_name : string;
  data : Thrown + Blob
}.

Inductive Toast : Type :=
| ExtractingZip
| ZipExtracted (count : nat)
| ZipExtractionFailed.

(** The loop over [Object.entries(zipContent.files)]. *)
Fixpoint extract (entries : list (string * ZipEntry)) : Thrown + list UploadFile :=
  match entries with
  | [] => inr []
  | (relativePath, zipEntry) :: rest =>
      if dir zipEntry then extract rest
      else
        match data zipEntry with
        | inl e => inl e
        | inr blob =>
            match extract rest with
            | inl e => inl e
            | inr extractedFiles =>
                inr (mkUploadFile blob relativePath 0 :: extractedFiles)
            end
        end
  end.

(** [handleZipUpload]: [files] is [e.target.files], [loadAsync] is what
    [zip.loadAsync(file)] gives for its first file, the entries in the
    order of [Object.entries]. The result is the list [uploadFiles]
    afterwards and the toasts shown. *)
Definition handleZipUpload (extractZip : bool) (files : option (list InputFile))
           (loadAsync : Thrown + list (string * ZipEntry))
           (uploadFiles : list UploadFile) : list UploadFile * list Toast :=
  match files with
  | None | Some [] => (uploadFiles, [])
  | Some (f :: _) =>
      if extractZip && ends_with ".zip" (file_name f) then
        match loadAsync with
        | inl _ => (uploadFiles, [ExtractingZip; ZipExtractionFailed])
        | inr entries =>
            match extract entries with
            | inl _ => (uploadFiles, [ExtractingZip; ZipExtractionFailed])
            | inr extractedFiles =>
                (uploadFiles ++ extractedFiles,
                 [ExtractingZip; ZipExtracted (List.length extractedFiles)])
            end
        end
      else (handleFileSelect files uploadFiles, [])
  end.

End Upload.

End Client.

(* ------------------------------------------------------------------ *)
(** * More vocabulary *)

Import Ascii.

(** A map as the storage keeps them: the next id is positive, the keys
    are distinct, positive and below it, and every row carries its key as
    its id. *)
Definition keyed {V : Type} (idof : V -> Z) (next : Z) (m : list (Z * V)) : Prop :=
  0 < next
  /\ NoDup (map fst m)
  /\ Forall (fun row => 0 < fst row /\ fst row < next /\ idof (snd row) = fst row) m.

Definition store_wf (st : MemStorage.t) : Prop :=
  keyed User.id (MemStorage.currentUserId st) (MemStorage.users st)
  /\ keyed FileOperation.id (MemStorage.currentOpId st) (MemStorage.fileOperations st).

Definition repos_wf (r : MemRepositories.t) : Prop :=
  keyed Repository.id (MemRepositories.currentRepoId r) (MemRepositories.repositories r).

(** No comma, no slash: the character [c] does not occur in [s]. *)
Fixpoint free_of (c : Ascii.ascii) (s : string) : bool :=
  match s with
  | EmptyString => true
  | String a s' => negb (Ascii.eqb a c) && free_of c s'
  end.

(** The answer of a route to a request without a session user. *)
Definition denied : Thrown + Res.t :=
  inr (Res.mk 401 (Res.Error "Not authenticated")).

(** The answer of a route whose session user is not stored. *)
Definition unknown_user : Thrown + Res.t :=
  inr (Res.mk 404 (Res.Error "User not found")).

(** What a single-file route has done when it has answered [r] and left
    the state [s']: it answers 200 exactly when it has logged one row at
    the end of the ledger, for the session user, the operation and the
    path at hand. *)
Definition single_file_outcome {Env : Type} (s s' : Sys Env) (r : Thrown + Res.t)
           (operation filePath : string) : Prop :=
  exists res,
    r = inr res
    /\ In (Res.status res) [200; 401; 404; 500]
    /\ (Res.status res = 200 ->
        exists row,
          MemStorage.fileOperations (storage s')
          = MemStorage.fileOperations (storage s)
            ++ [(MemStorage.currentOpId (storage s), row)]
          /\ FileOperation.operation row = operation
          /\ FileOperation.filePath row = JStr filePath
          /\ authenticated (session s) = Some (FileOperation.userId row)
          /\ (FileOperation.status row = "completed"
              \/ FileOperation.status row = "failed"))
    /\ (Res.status res <> 200 -> storage s' = storage s).

(** Every request in [sent] is authorised with the token of [user]. *)
Definition sent_as (user : User.t) (sent : list Fetch.t) : Prop :=
  Forall (fun rq => Fetch.authorization rq = bearer (User.accessToken user)) sent.

(** No two stored users share a github id. *)
Definition distinct_github_ids (st : MemStorage.t) : Prop :=
  NoDup (map User.githubId (NumMap.values (MemStorage.users st))).

(** No two repositories stored for one user share a github id. *)
Definition distinct_repositories (r : MemRepositories.t) : Prop :=
  forall userId,
    NoDup (map Repository.githubId (MemRepositories.getUserRepositories r userId)).


(** The entry that the loop owes to [errors] for a file whose write
    ended as [o]: the exception that the fetch or the reading of the
    answer threw, or what the store reports with an answer that is not a
    success. [None] when the store took the write. *)
Definition write_failure (path : JsVal) (o : FetchOutcome) : option ErrorEntry :=
  match o with
  | Rejected e => Some (mkError path (JStr (error_text e)))
  | Responded r =>
      match Response.json r with
      | inl e => Some (mkError path (JStr (error_text e)))
      | inr result =>
          if Response.ok r then None
          else Some (mkError path
                       match Js.get_prop result "message" with
                       | inl e => JStr (error_text e)
                       | inr resultMessage => Js.or resultMessage (JStr "Upload failed")
                       end)
      end
  end.




(** What the repository route may do to the repositories, for the user
    [userId]: add rows of that user at the end, keeping the github ids of
    each user's repositories distinct. *)
Definition sync_step (userId : Z) (r r' : MemRepositories.t) : Prop :=
  repos_wf r' 
  /\ (exists added,
        MemRepositories.repositories r' = MemRepositories.repositories r ++ added
        /\ Forall (fun row => Repository.userId (snd row) = userId) added)
  /\ (distinct_repositories r -> distinct_repositories r').

(** The repository [repo] of a listing is stored for the user [userId]. *)
Definition stored_for (userId : Z) (r : MemRepositories.t) (repo : JsVal) : Prop :=
  exists githubId row,
    github_id repo = inr githubId
    /\ In row (MemRepositories.getUserRepositories r userId)
    /\ Repository.githubId row = githubId.

(** What api.github.com gives the repository route instead of a listing:
    no answer, an answer whose body is not JSON, or a body that a
    [for ... of] cannot run over. *)
Definition no_listing (o : FetchOutcome) : Prop :=
  match o with
  | Rejected _ => True
  | Responded r =>
      match Response.json r with
      | inl _ => True
      | inr githubRepos =>
          match iterate githubRepos with
          | inl _ => True
          | inr _ => False
          end
      end
  end.

(** The one field [updateRepositorySync] writes. *)
Definition synced_at (now : Date) (repo : Repository.t) : Repository.t :=
  Repository.mk (Repository.id repo) (Repository.userId repo)
    (Repository.githubId repo) (Repository.name repo)
    (Repository.fullName repo) (Repository.private repo)
    (Repository.defaultBranch repo) (Some now).

(** The request [rq] is the write of the picked file [f]: a [PUT] on the
    path the file was picked under, with the token of [user], on the
    branch [branch] and with the message [message], whose content is what
    follows the comma in the data URL of the file. *)
Definition writes_picked_file (Blob : Type) (readAsDataURL : Blob -> Thrown + string)
           (user : User.t) (owner repo branch message : string)
           (f : Client.UploadFile Blob) (rq : Fetch.t) : Prop :=
  Fetch.method rq = "PUT"
  /\ Fetch.url rq = contents_url owner repo (Client.path Blob f)
  /\ Fetch.authorization rq = bearer (User.accessToken user)
  /\ Js.get_prop (Fetch.body rq) "branch" = inr (JStr branch)
  /\ Js.get_prop (Fetch.body rq) "message" = inr (JStr message)
  /\ Js.has_key "sha" (Fetch.body rq) = false
  /\ exists content,
       readAsDataURL (Client.file Blob f) = inr content
       /\ Js.get_prop (Fetch.body rq) "content"
          = inr (Js.of_opt (Client.strip_data_uri content)).

(** The entries of an archive that are files. *)
Definition file_entries (Blob : Type) (entries : list (string * Client.ZipEntry Blob))
  : list (string * Client.ZipEntry Blob) :=
  filter (fun entry => negb (Client.dir Blob (snd entry))) entries.

(** Every segment is a name: not empty and without a slash. *)
Definition clean_segments (segments : list string) : Prop :=
  Forall (fun segment => segment <> EmptyString /\ free_of "/"%char segment = true) segments.

(** ** Listings of repositories, for the examples *)

Definition site_repo : JsVal :=
  JObj [ ("id", JNum 101); ("name", JStr "site"); ("full_name", JStr "alice/site");
         ("private", JBool false); ("default_branch", JStr "main") ].

Definition notes_repo : JsVal :=
  JObj [ ("id", JNum 102); ("name", JStr "notes"); ("full_name", JStr "alice/notes");
         ("private", JBool true); ("default_branch", JStr "trunk") ].

(** api.github.com lists two repositories, and both inserts go through. *)
Definition two_repositories : Script.t :=
  Script.mk [ Script.created (JArr [site_repo; notes_repo]) ] [ inr 8000; inr 8001 ].

(** The same listing, with a database that takes nothing. *)
Definition listing_again : Script.t :=
  Script.mk [ Script.created (JArr [site_repo; notes_repo]) ] [].

(** The repositories after the first listing has been stored. *)
Definition both_stored : MemRepositories.t :=
  MemRepositories.mk
    [ (1, Repository.mk 1 1 "101" (JStr "site") (JStr "alice/site")
            (JBool false) (JStr "main") None);
      (2, Repository.mk 2 1 "102" (JStr "notes") (JStr "alice/notes")
            (JBool true) (JStr "trunk") None) ]
    3.

(** api.github.com turns the token down. *)
Definition bad_credentials : Script.t :=
  Script.mk [ Script.refused (JObj [("message", JStr "Bad credentials")]) ] [].

(** ** Files in the browser, for the examples: a blob is its base64 text *)

Definition as_data_url (blob : string) : Thrown + string :=
  if (blob =? "")%string then inl (ErrorObj "NotReadableError")
  else inr ("data:text/plain;base64," ++ blob)%string.

Definition picked : list (Client.UploadFile string) :=
  [ Client.mkUploadFile string "aGVsbG8=" "readme.md" 0;
    Client.mkUploadFile string "Y29uc3Q=" "src/index.ts" 0 ].

(** The body the panel posts for [files], read through [as_data_url],
    as the server parses it. *)
Definition batch_of_picked (branch : string) (files : list (Client.UploadFile string))
  : BatchBody.t :=
  BatchBody.mk
    (FilesArray
       (map (fun f =>
               JObj [ ("path", JStr (Client.path string f));
                      ("content", JStr (Client.file string f)) ])
            files))
    (Some branch)
    (Some (Client.upload_message (List.length files))).

Definition archive : list (string * Client.ZipEntry string) :=
  [ ("docs/", Client.mkZipEntry string true "docs/" (inl (ErrorObj "is a directory")));
    ("docs/notes.txt", Client.mkZipEntry string false "docs/notes.txt" (inr "bm90ZXM="));
    ("readme.md", Client.mkZipEntry string false "readme.md" (inr "aGVsbG8=")) ].

Definition broken_archive : list (string * Client.ZipEntry string) :=
  [ ("readme.md", Client.mkZipEntry string false "readme.md" (inr "aGVsbG8="));
    ("docs/notes.txt",
     Client.mkZipEntry string false "docs/notes.txt" (inl (ErrorObj "Corrupted zip"))) ].

(** api.github.com as a catalogue, for the examples: every request is
    answered with the same listing, and the database takes every insert. *)
Module Catalogue.

Record t : Type := mk {
  listing : JsVal;
  clock : Date
}.

Definition github (e : t) (_ : Fetch.t) : FetchOutcome * t :=
  (Script.created (listing e), e).

Definition persist (e : t) : (Thrown + Date) * t :=
  (inr (clock e), mk (listing e) (clock e + 1)).

Definition start (e : t) (st : MemStorage.t) (sessionUserId : option Z) : Sys t :=
  mkSys e st sessionUserId [].

End Catalogue.

Definition alices_repositories : Catalogue.t :=
  Catalogue.mk (JArr [site_repo; notes_repo]) 8000.

(* ------------------------------------------------------------------ *)
(** * Facts about the list operations *)

Section SortFacts.
Context {A : Type} (cmp : A -> A -> Z).

Lemma sort_insert_perm (x : A) (l : list A) :
  Permutation (Js.sort_insert cmp x l) (x :: l).
Proof.
  induction l as [|y l IH]; simpl.
  - apply Permutation_refl.
  - destruct (cmp x y <=? 0).
    + apply Permutation_refl.
    + apply Permutation_trans with (y :: x :: l).
      * now apply perm_skip.
      * apply perm_swap.
Qed.

Lemma sort_perm (l : list A) : Permutation (Js.sort cmp l) l.
Proof.
  induction l as [|x l IH]; simpl.
  - apply perm_nil.
  - apply Permutation_trans with (x :: Js.sort cmp l).
    + apply sort_insert_perm.
    + now apply perm_skip.
Qed.

(** A comparator of the shape [key b - key a] never calls both orders
    wrong. *)
Hypothesis cmp_total : forall a b, 0 < cmp a b -> cmp b a <= 0.

Lemma sort_insert_hd (x a : A) (l : list A) :
  before cmp a x -> HdRel (before cmp) a l -> HdRel (before cmp) a (Js.sort_insert cmp x l).
Proof.
  intros Hax Hl. destruct l as [|y l]; simpl.
  - now constructor.
  - destruct (cmp x y <=? 0); constructor; trivial.
    now inversion Hl.
Qed.

Lemma sort_insert_sorted (x : A) (l : list A) :
  Sorted (before cmp) l -> Sorted (before cmp) (Js.sort_insert cmp x l).
Proof.
  induction 1 as [|y l Hl IH Hhd]; simpl.
  - repeat constructor.
  - destruct (cmp x y <=? 0) eqn:E.
    + constructor.
      * now constructor.
      * constructor. unfold before. lia.
    + constructor; trivial.
      apply sort_insert_hd; trivial.
      apply cmp_total. lia.
Qed.

Lemma sort_sorted (l : list A) : Sorted (before cmp) (Js.sort cmp l).
Proof.
  induction l as [|x l IH]; simpl.
  - constructor.
  - now apply sort_insert_sorted.
Qed.
End SortFacts.

Lemma newest_first_sorted (l : list FileOperation.t) :
  StronglySorted newer_or_same (Js.sort MemStorage.newest_first l).
Proof.
  apply Sorted_StronglySorted.
  - intros a b c. unfold newer_or_same. lia.
  - assert (H : Sorted (before MemStorage.newest_first)
                       (Js.sort MemStorage.newest_first l)).
    { apply sort_sorted. unfold MemStorage.newest_first. intros; lia. }
    revert H. generalize (Js.sort MemStorage.newest_first l).
    induction 1 as [|a r Hr IH Hhd]; constructor; trivial.
    destruct Hhd as [|b r' Hab]; constructor.
    unfold before, MemStorage.newest_first in Hab. unfold newer_or_same. lia.
Qed.

Lemma slice0_prefix {A : Type} (l : list A) (n : nat) :
  Js.slice0 l (Z.of_nat n) = firstn n l.
Proof.
  unfold Js.slice0.
  destruct (0 <=? Z.of_nat n) eqn:E.
  - now rewrite Nat2Z.id.
  - apply Z.leb_gt in E. lia.
Qed.

Lemma in_firstn {A : Type} (n : nat) (x : A) (l : list A) :
  In x (firstn n l) -> In x l.
Proof.
  intros H. rewrite <- (firstn_skipn n l). apply in_or_app. now left.
Qed.

Lemma NumMap_get_set_same {V : Type} (k : Z) (v : V) (m : list (Z * V)) :
  NumMap.get k (NumMap.set k v m) = Some v.
Proof.
  induction m as [|[k' v'] m IH]; simpl.
  - now rewrite Z.eqb_refl.
  - destruct (k =? k') eqn:E; simpl; rewrite E; trivial.
Qed.

Lemma NumMap_get_set_other {V : Type} (k k0 : Z) (v : V) (m : list (Z * V)) :
  k0 <> k -> NumMap.get k0 (NumMap.set k v m) = NumMap.get k0 m.
Proof.
  intros Hne. induction m as [|[k' v'] m IH]; simpl.
  - destruct (k0 =? k) eqn:E; trivial. apply Z.eqb_eq in E. contradiction.
  - destruct (k =? k') eqn:E; simpl.
    + apply Z.eqb_eq in E. subst k'.
      destruct (k0 =? k) eqn:E0; trivial.
      apply Z.eqb_eq in E0. contradiction.
    + now rewrite IH.
Qed.

(* ------------------------------------------------------------------ *)
(** * The activity ledger *)

(** C4, as stated, fails: [updateFileOperationStatus(1, "pending")] takes
    the completed record 1 back to pending. *)
Lemma status_moves_backward : ~ status_only_forward.
Proof.
  intros H.
  specialize (H one_done 1 "pending" done_upload
                (FileOperation.with_status done_upload "pending")
                eq_refl eq_refl).
  destruct H as [H | [H _]]; discriminate H.
Qed.

(** [updateFileOperationStatus] writes the status it is given over the
    one it finds. *)
Lemma updateFileOperationStatus_sets (st : MemStorage.t) (id : Z) (status : string) :
  let (r, st') := MemStorage.updateFileOperationStatus st id status in
  match NumMap.get id (MemStorage.fileOperations st) with
  | Some op =>
      r = Some (FileOperation.with_status op status)
      /\ NumMap.get id (MemStorage.fileOperations st')
         = Some (FileOperation.with_status op status)
      /\ (forall id', id' <> id ->
            NumMap.get id' (MemStorage.fileOperations st')
            = NumMap.get id' (MemStorage.fileOperations st))
      /\ MemStorage.users st' = MemStorage.users st
  | None => r = None /\ st' = st
  end.
Proof.
  unfold MemStorage.updateFileOperationStatus.
  destruct (NumMap.get id (MemStorage.fileOperations st)) as [op|]; simpl.
  - repeat split.
    + apply NumMap_get_set_same.
    + intros id' Hne. now apply NumMap_get_set_other.
  - split; reflexivity.
Qed.

Example activity_mixed_ledger :
  fst (activity Script.t (Script.start (Script.mk [] []) mixed_ledger (Some 1)))
  = inr (Res.json (Res.Operations
      [ FileOperation.mk 3 1 0 "delete" (JStr "a.txt") "main" "failed" JNull 40;
        FileOperation.mk 1 1 0 "upload" (JStr "a.txt") "main" "completed" JNull 30;
        FileOperation.mk 4 1 0 "upload" (JStr "c.txt") "dev" "completed" JNull 10 ])).
Proof. reflexivity. Qed.

(** C5: for a session with a user id, [GET /api/activity] answers 200
    with a list [ops] of at most 10 rows, all of that user, which is the
    front of the user's rows arranged newest first: with the rows left out
    ([older]) it is a rearrangement of exactly the user's rows, sorted by
    [createdAt] descending, and rows are left out only when 10 are
    returned. The state is left as it was. *)
Theorem activity_recent_ten :
  forall (Env : Type) (s : Sys Env) (userId : Z),
    authenticated (session s) = Some userId ->
    exists ops older : list FileOperation.t,
      activity Env s = (inr (Res.json (Res.Operations ops)), s)
      /\ (List.length ops <= 10)%nat
      /\ Forall (fun op => FileOperation.userId op = userId) ops
      /\ Permutation (ops ++ older) (rows_of (storage s) userId)
      /\ StronglySorted newer_or_same (ops ++ older)
      /\ (older <> [] -> List.length ops = 10%nat).
Proof.
  intros Env s userId Hauth.
  set (sorted := Js.sort MemStorage.newest_first (rows_of (storage s) userId)).
  exists (firstn 10 sorted), (skipn 10 sorted).
  assert (Hperm : Permutation sorted (rows_of (storage s) userId))
    by apply sort_perm.
  split; [| split; [| split; [| split; [| split]]]].
  - unfold activity, Exec.try_catch, Exec.bind, Exec.gets. rewrite Hauth.
    unfold storage_getUserFileOperations, Exec.gets, Exec.ret.
    unfold MemStorage.getUserFileOperations.
    change 10 with (Z.of_nat 10). rewrite slice0_prefix. reflexivity.
  - apply firstn_le_length.
  - apply Forall_forall. intros op Hin.
    apply in_firstn in Hin.
    apply (Permutation_in _ Hperm) in Hin.
    unfold rows_of in Hin. apply filter_In in Hin.
    now apply Z.eqb_eq.
  - now rewrite firstn_skipn.
  - rewrite firstn_skipn. apply newest_first_sorted.
  - intros Hrest. apply firstn_length_le.
    destruct (Nat.le_gt_cases 10 (List.length sorted)) as [Hle | Hgt]; trivial.
    exfalso. apply Hrest. apply skipn_all2. lia.
Qed.

Lemma activity_recent_ten_witness :
  authenticated (Some 1) = Some 1
  /\ exists ops older : list FileOperation.t,
       activity Script.t (Script.start (Script.mk [] []) mixed_ledger (Some 1))
       = (inr (Res.json (Res.Operations ops)),
          Script.start (Script.mk [] []) mixed_ledger (Some 1))
       /\ (List.length ops <= 10)%nat
       /\ Forall (fun op => FileOperation.userId op = 1) ops
       /\ Permutation (ops ++ older) (rows_of mixed_ledger 1)
       /\ StronglySorted newer_or_same (ops ++ older)
       /\ (older <> [] -> List.length ops = 10%nat).
Proof.
  split.
  - reflexivity.
  - apply (activity_recent_ten Script.t
             (Script.start (Script.mk [] []) mixed_ledger (Some 1)) 1).
    reflexivity.
Defined.

(** C7: [GET /api/activity] leaves the state as it found it, so asking
    again with nothing in between gives the same answer: the same rows in
    the same order. *)
Theorem activity_requery_identical :
  forall (Env : Type) (s : Sys Env),
    snd (activity Env s) = s
    /\ fst (activity Env (snd (activity Env s))) = fst (activity Env s).
Proof.
  intros Env s.
  assert (Hsame : snd (activity Env s) = s).
  { unfold activity, Exec.try_catch, Exec.bind, Exec.gets.
    destruct (authenticated (session s)); reflexivity. }
  split; trivial. now rewrite Hsame.
Qed.

(* ------------------------------------------------------------------ *)
(** * The batch loop *)

Lemma NumMap_in_set {V : Type} (k k0 : Z) (v x : V) (m : list (Z * V)) :
  In (k0, x) (NumMap.set k v m) -> In (k0, x) m \/ x = v.
Proof.
  induction m as [|[k' v'] m IH]; simpl.
  - intros [H | []]. right. congruence.
  - destruct (k =? k'); simpl.
    + intros [H | H]; [right; congruence | left; now right].
    + intros [H | H]; [left; now left |].
      destruct (IH H) as [H' | H']; [left; now right | now right].
Qed.

Lemma placeholder_only_refl (st : MemStorage.t) : placeholder_only st st.
Proof. intros k op H. now left. Qed.

Lemma placeholder_only_trans (st1 st2 st3 : MemStorage.t) :
  placeholder_only st1 st2 -> placeholder_only st2 st3 -> placeholder_only st1 st3.
Proof.
  intros H12 H23 k op H.
  destruct (H23 k op H) as [H' | H']; [now apply H12 | now right].
Qed.

Lemma NumMap_set_fresh {V : Type} (k : Z) (v : V) (m : list (Z * V)) :
  Forall (fun row => fst row < k) m -> NumMap.set k v m = m ++ [(k, v)].
Proof.
  induction 1 as [|[k' v'] m Hlt _ IH]; simpl; trivial.
  simpl in Hlt. destruct (Z.eqb_spec k k') as [-> | _]; [lia |].
  now rewrite IH.
Qed.

Lemma grows_refl (st : MemStorage.t) : ledger_wf st -> grows st st.
Proof.
  intros Hwf. split; trivial. exists []. now rewrite app_nil_r.
Qed.

Lemma grows_trans (st1 st2 st3 : MemStorage.t) :
  grows st1 st2 -> grows st2 st3 -> grows st1 st3.
Proof.
  intros [_ (a12 & H12)] [Hwf (a23 & H23)]. split; trivial.
  exists (a12 ++ a23). now rewrite H23, H12, app_assoc.
Qed.

Lemma logs_only_refl (st : MemStorage.t) : logs_only st st.
Proof.
  split; [apply placeholder_only_refl | apply grows_refl].
Qed.

Lemma logs_only_trans (st1 st2 st3 : MemStorage.t) :
  logs_only st1 st2 -> logs_only st2 st3 -> logs_only st1 st3.
Proof.
  intros [Hp12 Hg12] [Hp23 Hg23]. split.
  - now apply placeholder_only_trans with st2.
  - intros Hwf. pose proof (Hg12 Hwf) as H12.
    apply grows_trans with st2; trivial. apply Hg23. apply H12.
Qed.

(** The store after [createFileOperation] has built [row] with repository
    id 0 and put it under the next id. *)
Lemma logs_only_insert (st : MemStorage.t) (row : FileOperation.t) :
  FileOperation.repositoryId row = 0 ->
  logs_only st
    (MemStorage.mk (MemStorage.users st)
       (NumMap.set (MemStorage.currentOpId st) row (MemStorage.fileOperations st))
       (MemStorage.currentUserId st) (MemStorage.currentOpId st + 1)).
Proof.
  intros Hzero. split.
  - intros k op Hin. simpl in Hin. apply NumMap_in_set in Hin.
    destruct Hin as [Hin | ->]; [now left | now right].
  - intros Hwf. unfold grows, ledger_wf. simpl.
    rewrite (NumMap_set_fresh _ _ _ Hwf). split.
    + apply Forall_app. split.
      * eapply Forall_impl; [| exact Hwf]. simpl. intros row' H. lia.
      * constructor; [simpl; lia | constructor].
    + now exists [(MemStorage.currentOpId st, row)].
Qed.

Create HintDb ledger.
#[local] Hint Resolve logs_only_refl : ledger.

(** The ledger after one insert of a row with repository id 0. *)
Ltac one_insert := apply logs_only_insert; reflexivity.

Section BatchFacts.
Variable Env : Type.
Variable github : Env -> Fetch.t -> FetchOutcome * Env.
Variable persist : Env -> (Thrown + Date) * Env.
Variables (userId : Z) (user : User.t) (owner repo branch : string).
Variable message : option string.

Let body := upload_one Env github persist userId user owner repo branch message.
Let request := item_request user owner repo branch message.

Ltac arrays rs es :=
  exists rs, es; rewrite ?app_nil_r; simpl;
  repeat split; auto using Forall_nil, Forall_cons.

(** Reading a property of an item that is not [null] does not throw. *)
Lemma get_prop_file (file : JsVal) (k : string) :
  Js.nullish file = false -> Js.get_prop file k = inr (Js.prop file k).
Proof.
  unfold Js.prop. destruct file; simpl; try discriminate; reflexivity.
Qed.

Ltac open_turn Hfile :=
  unfold body, upload_one, Exec.try_catch, Exec.bind, Exec.eval, in_sys, Exec.zoom,
    fetch;
  rewrite !(get_prop_file _ _ Hfile);
  change (batch_request user owner repo branch message
            (Js.prop ?f "path") (Js.prop ?f "content"))
    with (request f).

(** On an item that is [null] the turn throws, in its [try] and again in
    its [catch], and has done nothing. *)
Lemma upload_one_null (file : JsVal) (l : Loop Env) :
  Js.nullish file = true -> exists e, body file l = (inl e, l).
Proof.
  unfold body, upload_one, Exec.try_catch, Exec.bind, Exec.eval.
  destruct file; simpl; try discriminate; intros _; now eexists.
Qed.

Lemma upload_one_turn (file : JsVal) (l : Loop Env) :
  Js.nullish file = false ->
  fst (body file l) = inr tt /\ turn request file l (snd (body file l)).
Proof.
  intros Hfile. open_turn Hfile.
  destruct (github (env (sys l)) (request file)) as [[e | r] e1]; simpl.
  - rewrite ?(get_prop_file _ _ Hfile); simpl.
    split; trivial. split; simpl; auto with ledger.
    arrays (@nil ResultEntry) [mkError (Js.prop file "path") (JStr (error_text e))].
  - destruct (Response.json r) as [e | result]; simpl.
    + rewrite ?(get_prop_file _ _ Hfile); simpl.
      split; trivial. split; simpl; auto with ledger.
      arrays (@nil ResultEntry) [mkError (Js.prop file "path") (JStr (error_text e))].
    + destruct (Response.ok r); simpl.
      * destruct (Js.get_length (Js.prop file "content")) as [e | size]; simpl.
        -- rewrite ?(get_prop_file _ _ Hfile); simpl.
           split; trivial. split; simpl; auto with ledger.
           arrays [mkResult (Js.prop file "path") true result]
                  [mkError (Js.prop file "path") (JStr (error_text e))].
        -- unfold storage_createFileOperation. simpl.
           destruct (persist e1) as [[e | now] e2]; simpl.
           ++ rewrite ?(get_prop_file _ _ Hfile); simpl.
              split; trivial. split; simpl; auto with ledger.
              arrays [mkResult (Js.prop file "path") true result]
                     [mkError (Js.prop file "path") (JStr (error_text e))].
           ++ split; trivial. split; simpl; auto with ledger.
              ** one_insert.
              ** arrays [mkResult (Js.prop file "path") true result] (@nil ErrorEntry).
      * destruct (Js.get_prop result "message") as [e | m]; simpl.
        -- rewrite ?(get_prop_file _ _ Hfile); simpl.
           split; trivial. split; simpl; auto with ledger.
           arrays (@nil ResultEntry) [mkError (Js.prop file "path") (JStr (error_text e))].
        -- split; trivial. split; simpl; auto with ledger.
           arrays (@nil ResultEntry)
                  [mkError (Js.prop file "path") (Js.or m (JStr "Upload failed"))].
Qed.

(** A write that failed: the turn has sent the request, has pushed the
    entry owed onto [errors] and nothing onto [results], and has left the
    storage as it was. *)
Lemma upload_one_write_failed (file : JsVal) (l : Loop Env) (o : FetchOutcome)
      (e1 : Env) (err : ErrorEntry) :
  Js.nullish file = false ->
  github (env (sys l)) (request file) = (o, e1) ->
  write_failure (Js.prop file "path") o = Some err ->
  body file l
  = (inr tt,
     mkLoop (mkSys e1 (storage (sys l)) (session (sys l))
                   (wire (sys l) ++ [request file]))
            (results l) (errors l ++ [err])).
Proof.
  intros Hfile Hgithub Herr. open_turn Hfile. rewrite Hgithub.
  destruct o as [e | r]; simpl in *.
  - rewrite ?(get_prop_file _ _ Hfile); simpl. now injection Herr as <-.
  - destruct (Response.json r) as [e | result]; simpl.
    + rewrite ?(get_prop_file _ _ Hfile); simpl. now injection Herr as <-.
    + destruct (Response.ok r); simpl; [discriminate Herr |].
      injection Herr as <-.
      destruct (Js.get_prop result "message") as [e | m]; reflexivity.
Qed.


Lemma path_recorded {X : Type} (proj : X -> JsVal) (p : JsVal) (xs : list X) :
  Forall (fun x => proj x = p) xs -> xs <> [] -> In p (map proj xs).
Proof.
  intros Hall Hne. destruct xs as [|x xs]; [contradiction |].
  left. now inversion Hall.
Qed.



Lemma attempted_all (files : list JsVal) :
  all_files files = true -> attempted files = files.
Proof.
  induction files as [|file files IH]; simpl; trivial.
  destruct (Js.nullish file); simpl; [discriminate |].
  intros H. now rewrite IH.
Qed.

(** The loop over any array: it runs over the items before the first
    [null], and ends well exactly when there is none. *)
Lemma for_of_any (files : list JsVal) (l : Loop Env) :
  run request (attempted files) l (snd (Exec.for_of files body l))
  /\ (all_files files = true -> fst (Exec.for_of files body l) = inr tt)
  /\ (all_files files = false -> exists e, fst (Exec.for_of files body l) = inl e).
Proof.
  revert l. induction files as [|file files IH]; intros l; simpl.
  - split; [| split; [trivial | discriminate]].
    split; simpl; rewrite ?app_nil_r; auto with ledger.
    exists [], []. rewrite !app_nil_r. simpl. repeat split; auto; intros f [].
  - unfold Exec.bind. destruct (Js.nullish file) eqn:Hfile; simpl.
    + destruct (upload_one_null file l Hfile) as [e ->]. simpl.
      split; [| split; [discriminate | now eexists]].
      split; simpl; rewrite ?app_nil_r; auto with ledger.
      exists [], []. rewrite !app_nil_r. simpl. repeat split; auto; intros f [].
    + destruct (upload_one_turn file l Hfile) as [Hret Hturn].
      destruct (body file l) as [r l1]. simpl in Hret, Hturn. subst r.
      destruct (IH l1) as (Hrun & Hok & Hbad).
      split; [| now split].
      destruct Hturn as [Tw Ts Tu Tl (rs1 & es1 & Tr & Te & Tr1 & Te1 & T1 & Trp & Tep)].
      destruct Hrun as [Rw Rs Ru Rl (rs2 & es2 & Rr & Re & Rr1 & Re1 & R1 & Rp)].
      split.
      * rewrite Rw, Tw, <- app_assoc. reflexivity.
      * congruence.
      * congruence.
      * eapply logs_only_trans; eassumption.
      * exists (rs1 ++ rs2), (es1 ++ es2).
        rewrite Rr, Tr, Re, Te, <- !app_assoc, !length_app, !map_app.
        change (List.length (file :: attempted files))
          with (S (List.length (attempted files))).
        split; [reflexivity |]. split; [reflexivity |].
        split; [lia |]. split; [lia |]. split; [lia |].
        intros f [<- | Hin].
        -- destruct rs1 as [|r1 rs1].
           ++ right. apply in_or_app. left.
              apply path_recorded with (p := Js.prop file "path"); trivial.
              destruct es1; [simpl in T1; lia | discriminate].
           ++ left. apply in_or_app. left.
              apply path_recorded with (p := Js.prop file "path"); trivial.
              discriminate.
        -- destruct (Rp f Hin) as [H | H]; [left | right];
             apply in_or_app; now right.
Qed.

Lemma for_of_run (files : list JsVal) (l : Loop Env) :
  all_files files = true ->
  fst (Exec.for_of files body l) = inr tt
  /\ run request files l (snd (Exec.for_of files body l)).
Proof.
  intros Hall. destruct (for_of_any files l) as (Hrun & Hok & _).
  rewrite (attempted_all files Hall) in Hrun. split; [now apply Hok | exact Hrun].
Qed.



End BatchFacts.

(* ------------------------------------------------------------------ *)
(** * The batch route *)

Section BatchRoute.
Variable Env : Type.
Variable github : Env -> Fetch.t -> FetchOutcome * Env.
Variable persist : Env -> (Thrown + Date) * Env.

(** The route, once past its guards, is its loop: the aggregate when the
    loop has ended well, 500 when it has thrown. *)
Lemma upload_batch_any (s : Sys Env) (owner repo : string) (body : BatchBody.t)
      (userId : Z) (user : User.t) (files : list JsVal) :
  authenticated (session s) = Some userId ->
  MemStorage.getUser (storage s) userId = Some user ->
  BatchBody.files body = FilesArray files ->
  files <> [] ->
  let l' := snd (Exec.for_of files
                   (upload_one Env github persist userId user owner repo
                      (Js.default (BatchBody.branch body) "main")
                      (BatchBody.message body))
                   (mkLoop s [] [])) in
  upload_batch Env github persist owner repo body s
  = (inr (if all_files files
          then Res.json (Res.Batch (aggregate (results l') (errors l')))
          else Res.mk 500 (Res.Error "Failed to upload files")),
     sys l').
Proof.
  intros Hauth Huser Hfiles Hne l'.
  unfold upload_batch, Exec.try_catch, Exec.bind, Exec.gets.
  rewrite Hauth. unfold storage_getUser, Exec.gets. rewrite Huser, Hfiles.
  destruct files as [|file files]; [contradiction |].
  unfold upload_all.
  destruct (for_of_any Env github persist userId user owner repo
              (Js.default (BatchBody.branch body) "main")
              (BatchBody.message body) (file :: files) (mkLoop s [] []))
    as (_ & Hok & Hbad).
  fold l'. subst l'.
  destruct (Exec.for_of (file :: files) _ (mkLoop s [] [])) as [r l1].
  cbn [fst] in Hok, Hbad.
  destruct (all_files (file :: files)).
  - rewrite (Hok eq_refl). reflexivity.
  - destruct (Hbad eq_refl) as [e ->]. reflexivity.
Qed.

Lemma upload_batch_run (s : Sys Env) (owner repo : string) (body : BatchBody.t)
      (userId : Z) (user : User.t) (files : list JsVal) :
  authenticated (session s) = Some userId ->
  MemStorage.getUser (storage s) userId = Some user ->
  BatchBody.files body = FilesArray files ->
  files <> [] ->
  all_files files = true ->
  let l' := snd (Exec.for_of files
                   (upload_one Env github persist userId user owner repo
                      (Js.default (BatchBody.branch body) "main")
                      (BatchBody.message body))
                   (mkLoop s [] [])) in
  upload_batch Env github persist owner repo body s
  = (inr (Res.json (Res.Batch (aggregate (results l') (errors l')))), sys l').
Proof.
  intros Hauth Huser Hfiles Hne Hall l'. subst l'.
  rewrite (upload_batch_any s owner repo body userId user files); trivial.
  now rewrite Hall.
Qed.

(** What the route leaves behind, whatever the request: the state as it
    was, or the state after the loop over the items it got to. *)
Lemma upload_batch_loop (s : Sys Env) (owner repo : string) (body : BatchBody.t) :
  snd (upload_batch Env github persist owner repo body s) = s
  \/ exists (userId : Z) (user : User.t) (files : list JsVal) (l' : Loop Env),
       authenticated (session s) = Some userId
       /\ MemStorage.getUser (storage s) userId = Some user
       /\ run (item_request user owner repo
                 (Js.default (BatchBody.branch body) "main") (BatchBody.message body))
              files (mkLoop s [] []) l'
       /\ snd (upload_batch Env github persist owner repo body s) = sys l'.
Proof.
  destruct (authenticated (session s)) as [userId|] eqn:Hauth.
  2:{ left. unfold upload_batch, Exec.try_catch, Exec.bind, Exec.gets.
      now rewrite Hauth. }
  destruct (MemStorage.getUser (storage s) userId) as [user|] eqn:Huser.
  2:{ left. unfold upload_batch, Exec.try_catch, Exec.bind, Exec.gets.
      rewrite Hauth. unfold storage_getUser, Exec.gets. now rewrite Huser. }
  destruct (BatchBody.files body) as [| v | [|file files]] eqn:Hfiles;
    try (left; unfold upload_batch, Exec.try_catch, Exec.bind, Exec.gets;
         rewrite Hauth; unfold storage_getUser, Exec.gets;
         now rewrite Huser, Hfiles).
  right. exists userId, user, (attempted (file :: files)).
  eexists. split; trivial. split; trivial.
  rewrite (upload_batch_any s owner repo body userId user (file :: files));
    trivial; try discriminate.
  split; [| reflexivity].
  apply (for_of_any Env github persist userId user owner repo
           (Js.default (BatchBody.branch body) "main")
           (BatchBody.message body) (file :: files) (mkLoop s [] [])).
Qed.

(** Whatever the request, the batch route adds to the ledger only rows
    with repository id 0. *)
Lemma upload_batch_ledger (s : Sys Env) (owner repo : string) (body : BatchBody.t) :
  logs_only (storage s)
    (storage (snd (upload_batch Env github persist owner repo body s))).
Proof.
  destruct (upload_batch_loop s owner repo body)
    as [-> | (userId & user & files & l' & _ & _ & [_ _ _ Hledger _] & ->)].
  - apply logs_only_refl.
  - exact Hledger.
Qed.
End BatchRoute.

Example batch_in_fair_weather :
  let out := upload_batch Script.t Script.github Script.persist "alice" "site"
               (batch_of [readme; index_ts])
               (Script.start fair_weather one_user (Some 1)) in
  (exists rs, fst out = inr (Res.json (Res.Batch (Aggregate.mk true 2 0 rs []))))
  /\ map snd (MemStorage.fileOperations (storage (snd out)))
     = [ FileOperation.mk 1 1 0 "upload" (JStr "readme.md") "main" "completed"
           (JObj [("message", JStr "Upload files"); ("size", JNum 8)]) 7000;
         FileOperation.mk 2 1 0 "upload" (JStr "src/index.ts") "main" "completed"
           (JObj [("message", JStr "Upload files"); ("size", JNum 8)]) 7001 ].
Proof. split; [eexists |]; reflexivity. Qed.

Example batch_over_rough_network :
  let out := upload_batch Script.t Script.github Script.persist "alice" "site"
               (batch_of [readme; index_ts; notes])
               (Script.start rough_network one_user (Some 1)) in
  fst out
  = inr (Res.json (Res.Batch
      (Aggregate.mk false 1 2
         [ mkResult (JStr "docs/notes.txt") true
             (JObj [("content", JObj [("path", JStr "docs/notes.txt")])]) ]
         [ mkError (JStr "readme.md") (JStr "Invalid request");
           mkError (JStr "src/index.ts") (JStr "fetch failed") ])))
  /\ map Fetch.url (wire (snd out))
     = [ "https://api.github.com/repos/alice/site/contents/readme.md";
         "https://api.github.com/repos/alice/site/contents/src/index.ts";
         "https://api.github.com/repos/alice/site/contents/docs/notes.txt" ].
Proof. split; reflexivity. Qed.





(** C6: a batch request whose [files] is missing, is not an array or is
    empty leaves the whole state as it was (no request goes to the store,
    no row goes to the ledger), and for a session user that exists the
    answer is 400 [Files array is required]; without one it is the 401 or
    404 of the guards before. *)
Theorem batch_rejects_bad_files :
  forall (Env : Type) (github : Env -> Fetch.t -> FetchOutcome * Env)
         (persist : Env -> (Thrown + Date) * Env)
         (s : Sys Env) (owner repo : string) (body : BatchBody.t),
    files_rejected (BatchBody.files body) = true ->
    snd (upload_batch Env github persist owner repo body s) = s
    /\ (exists code message,
          fst (upload_batch Env github persist owner repo body s)
          = inr (Res.mk code (Res.Error message))
          /\ (code = 400 \/ code = 401 \/ code = 404))
    /\ (forall userId user,
          authenticated (session s) = Some userId ->
          MemStorage.getUser (storage s) userId = Some user ->
          fst (upload_batch Env github persist owner repo body s)
          = inr (Res.mk 400 (Res.Error "Files array is required"))).
Proof.
  intros Env github persist s owner repo body Hbad.
  unfold upload_batch, Exec.try_catch, Exec.bind, Exec.gets, storage_getUser,
    Exec.gets.
  destruct (authenticated (session s)) as [userId|] eqn:Hauth.
  - destruct (MemStorage.getUser (storage s) userId) as [user|] eqn:Huser.
    + destruct (BatchBody.files body) as [| v | [|file files]];
        try discriminate Hbad; simpl.
      all: split; [reflexivity |].
      all: split; [exists 400, "Files array is required"; auto |].
      all: intros userId' user' H1 H2; reflexivity.
    + simpl. split; [reflexivity |].
      split; [exists 404, "User not found"; auto |].
      intros userId' user' H1 H2.
      injection H1 as <-. congruence.
  - simpl. split; [reflexivity |].
    split; [exists 401, "Not authenticated"; auto |].
    intros userId' user' H1 H2. discriminate H1.
Qed.

Lemma batch_rejects_bad_files_witness :
  snd (upload_batch Script.t Script.github Script.persist "alice" "site"
         (BatchBody.mk (FilesArray []) None None)
         (Script.start rough_network one_user (Some 1)))
  = Script.start rough_network one_user (Some 1)
  /\ fst (upload_batch Script.t Script.github Script.persist "alice" "site"
            (BatchBody.mk (FilesArray []) None None)
            (Script.start rough_network one_user (Some 1)))
     = inr (Res.mk 400 (Res.Error "Files array is required")).
Proof.
  destruct (batch_rejects_bad_files Script.t Script.github Script.persist
              (Script.start rough_network one_user (Some 1)) "alice" "site"
              (BatchBody.mk (FilesArray []) None None) eq_refl)
    as (Hstate & _ & Hanswer).
  split.
  - exact Hstate.
  - apply (Hanswer 1 alice); reflexivity.
Defined.

(* ------------------------------------------------------------------ *)
(** * The single-file routes *)

Section FileRoutes.
Variable Env : Type.
Variable github : Env -> Fetch.t -> FetchOutcome * Env.
Variable persist : Env -> (Thrown + Date) * Env.

(** Open a handler up to the next answer of its environment. *)
Ltac open_handler :=
  unfold Exec.try_catch, Exec.bind, Exec.gets, Exec.eval, Exec.ret,
    storage_getUser, storage_createFileOperation, fetch, Exec.gets; simpl.

Lemma upload_file_ledger (s : Sys Env) (owner repo filePath : string)
      (body : PutBody.t) :
  logs_only (storage s)
    (storage (snd (upload_file Env github persist owner repo filePath body s))).
Proof.
  unfold upload_file. open_handler.
  destruct (authenticated (session s)) as [userId|]; simpl; auto with ledger.
  destruct (MemStorage.getUser (storage s) userId) as [user|]; simpl;
    auto with ledger.
  destruct (github (env s) (put_request user owner repo filePath body))
    as [[e | r] e1]; simpl; auto with ledger.
  destruct (Response.json r) as [e | result]; simpl; auto with ledger.
  destruct (Js.length_of (PutBody.content body)) as [e | size]; simpl;
    auto with ledger.
  destruct (persist e1) as [[e | now] e2]; simpl; auto with ledger.
  one_insert.
Qed.

Lemma delete_file_ledger (s : Sys Env) (owner repo filePath : string)
      (body : DeleteBody.t) :
  logs_only (storage s)
    (storage (snd (delete_file Env github persist owner repo filePath body s))).
Proof.
  unfold delete_file. open_handler.
  destruct (authenticated (session s)) as [userId|]; simpl; auto with ledger.
  destruct (MemStorage.getUser (storage s) userId) as [user|]; simpl;
    auto with ledger.
  destruct (github (env s) (delete_request user owner repo filePath body))
    as [[e | r] e1]; simpl; auto with ledger.
  destruct (Response.json r) as [e | result]; simpl; auto with ledger.
  destruct (persist e1) as [[e | now] e2]; simpl; auto with ledger.
  one_insert.
Qed.

(** Past its guards the upload route sends the request it builds from the
    body, first of all. *)
Lemma upload_file_sends (s : Sys Env) (owner repo filePath : string)
      (body : PutBody.t) (userId : Z) (user : User.t) :
  authenticated (session s) = Some userId ->
  MemStorage.getUser (storage s) userId = Some user ->
  wire (snd (upload_file Env github persist owner repo filePath body s))
  = wire s ++ [put_request user owner repo filePath body].
Proof.
  intros Hauth Huser. unfold upload_file. open_handler.
  rewrite Hauth. simpl. rewrite Huser. simpl.
  destruct (github (env s) (put_request user owner repo filePath body))
    as [[e | r] e1]; simpl; trivial.
  destruct (Response.json r) as [e | result]; simpl; trivial.
  destruct (Js.length_of (PutBody.content body)) as [e | size]; simpl; trivial.
  destruct (persist e1) as [[e | now] e2]; simpl; trivial.
Qed.
End FileRoutes.

Example upload_file_logs_failure :
  MemStorage.fileOperations
    (storage (snd (upload_file Script.t Script.github Script.persist
                     "alice" "site" "readme.md"
                     (PutBody.mk (Some "aGVsbG8=") None None None)
                     (Script.start refusing one_user (Some 1)))))
  = [ (1, FileOperation.mk 1 1 0 "upload" (JStr "readme.md") "main" "failed"
            (JObj [("message", JUndefined); ("size", JNum 8)]) 9000) ].
Proof. reflexivity. Qed.

Example delete_file_logs_failure :
  MemStorage.fileOperations
    (storage (snd (delete_file Script.t Script.github Script.persist
                     "alice" "site" "readme.md"
                     (DeleteBody.mk (Some "drop it") (Some "dev") None)
                     (Script.start refusing one_user (Some 1)))))
  = [ (1, FileOperation.mk 1 1 0 "delete" (JStr "readme.md") "dev" "failed"
            (JObj [("message", JStr "drop it")]) 9000) ].
Proof. reflexivity. Qed.

(** C4, amended: [updateFileOperationStatus (id, status)] overwrites the
    status of the record [id] with the string it is given, whatever the
    old status was; the record's other fields, the other records and the
    users stay as they were, and the rewritten record is returned; with no
    record [id] nothing changes and [undefined] is returned. The upload,
    delete and batch routes do not call it: on a well-formed ledger they
    only add rows at its end and leave every row that was there, its
    status included, as it was. *)
Theorem updateFileOperationStatus_overwrites :
  (forall (st : MemStorage.t) (id : Z) (status : string),
      let (r, st') := MemStorage.updateFileOperationStatus st id status in
      match NumMap.get id (MemStorage.fileOperations st) with
      | Some op =>
          r = Some (FileOperation.with_status op status)
          /\ NumMap.get id (MemStorage.fileOperations st')
             = Some (FileOperation.with_status op status)
          /\ (forall id', id' <> id ->
                NumMap.get id' (MemStorage.fileOperations st')
                = NumMap.get id' (MemStorage.fileOperations st))
          /\ MemStorage.users st' = MemStorage.users st
      | None => r = None /\ st' = st
      end)
  /\ (forall (Env : Type) (github : Env -> Fetch.t -> FetchOutcome * Env)
             (persist : Env -> (Thrown + Date) * Env)
             (s : Sys Env) (owner repo : string),
        ledger_wf (storage s) ->
        (forall filePath body,
            grows (storage s)
              (storage (snd (upload_file Env github persist owner repo filePath body s))))
        /\ (forall filePath body,
            grows (storage s)
              (storage (snd (delete_file Env github persist owner repo filePath body s))))
        /\ (forall body,
            grows (storage s)
              (storage (snd (upload_batch Env github persist owner repo body s))))).
Proof.
  split.
  - intros st id status. apply updateFileOperationStatus_sets.
  - intros Env github persist s owner repo Hwf. split; [| split].
    + intros filePath body.
      now apply (proj2 (upload_file_ledger Env github persist s owner repo filePath body)).
    + intros filePath body.
      now apply (proj2 (delete_file_ledger Env github persist s owner repo filePath body)).
    + intros body.
      now apply (proj2 (upload_batch_ledger Env github persist s owner repo body)).
Qed.

Lemma updateFileOperationStatus_overwrites_witness :
  ledger_wf mixed_ledger
  /\ grows mixed_ledger
       (storage (snd (upload_batch Script.t Script.github Script.persist
                        "alice" "site" (batch_of [readme; index_ts; notes])
                        (Script.start rough_network mixed_ledger (Some 1))))).
Proof.
  assert (Hwf : ledger_wf mixed_ledger) by (repeat constructor).
  split; [exact Hwf |].
  apply (proj2 updateFileOperationStatus_overwrites Script.t Script.github
           Script.persist (Script.start rough_network mixed_ledger (Some 1))
           "alice" "site" Hwf).
Defined.

(** C8: whatever the request and whatever the environment answers, every
    ledger row that the upload route, the delete route or the batch route
    leaves behind and that was not there before carries the repository
    id 0. *)
Theorem file_operations_logged_under_zero :
  forall (Env : Type) (github : Env -> Fetch.t -> FetchOutcome * Env)
         (persist : Env -> (Thrown + Date) * Env)
         (s : Sys Env) (owner repo : string),
    (forall filePath body,
        placeholder_only (storage s)
          (storage (snd (upload_file Env github persist owner repo filePath body s))))
    /\ (forall filePath body,
        placeholder_only (storage s)
          (storage (snd (delete_file Env github persist owner repo filePath body s))))
    /\ (forall body,
        placeholder_only (storage s)
          (storage (snd (upload_batch Env github persist owner repo body s)))).
Proof.
  intros Env github persist s owner repo. split; [| split].
  - intros filePath body. apply upload_file_ledger.
  - intros filePath body. apply delete_file_ledger.
  - intros body. apply upload_batch_ledger.
Qed.

(* ------------------------------------------------------------------ *)
(** * The prior content hash *)

Lemma batch_request_no_sha (user : User.t) (owner repo branch : string)
      (message : option string) (path content : JsVal) :
  Fetch.method (batch_request user owner repo branch message path content) = "PUT"
  /\ Js.has_key "sha"
       (Fetch.body (batch_request user owner repo branch message path content))
     = false.
Proof.
  split; [reflexivity |].
  unfold batch_request. simpl.
  destruct (Js.is_undefined content); reflexivity.
Qed.

(** An item whose [path] can be read is not [null], and the read gives
    the property. *)
Lemma get_prop_path (file path : JsVal) (k : string) :
  Js.get_prop file k = inr path ->
  Js.nullish file = false /\ Js.prop file k = path.
Proof.
  unfold Js.prop. intros Hread. rewrite Hread. split; trivial.
  destruct file; simpl in *; trivial; discriminate.
Qed.

Lemma put_request_forwards_sha (user : User.t) (owner repo filePath : string)
      (body : PutBody.t) (sha : string) :
  PutBody.sha body = Some sha ->
  sha <> "" ->
  Js.get_prop (Fetch.body (put_request user owner repo filePath body)) "sha"
  = inr (JStr sha).
Proof.
  intros Hsha Hne. unfold put_request. rewrite Hsha. simpl.
  unfold Js.truthy_str. simpl.
  destruct (String.eqb_spec sha "") as [-> | _]; [contradiction |].
  simpl. destruct (PutBody.content body); reflexivity.
Qed.

Lemma content_store_rule :
  overwrite_needs_sha ContentStore.exists_at ContentStore.github.
Proof.
  intros e rq Hput Hex Hsha r e' Hgo.
  unfold ContentStore.github in Hgo. rewrite Hput in Hgo. simpl in Hgo.
  unfold ContentStore.exists_at in Hex.
  destruct (ContentStore.current (Fetch.url rq) (ContentStore.blobs e)) as [h|];
    [| discriminate Hex].
  unfold Js.has_key in Hsha. unfold Js.get_prop in Hgo.
  destruct (Fetch.body rq) as [ | | b | n | t | items | fields];
    try (injection Hgo as <- _; reflexivity).
  destruct (Js.assoc "sha" fields); [discriminate Hsha |].
  injection Hgo as <- _. reflexivity.
Qed.

Section PriorHash.
Variable Env : Type.
Variable github : Env -> Fetch.t -> FetchOutcome * Env.
Variable persist : Env -> (Thrown + Date) * Env.

Lemma upload_batch_wire (s : Sys Env) (owner repo : string) (body : BatchBody.t) :
  exists sent,
    wire (snd (upload_batch Env github persist owner repo body s)) = wire s ++ sent
    /\ Forall put_without_sha sent.
Proof.
  destruct (upload_batch_loop Env github persist s owner repo body)
    as [-> | (userId & user & files & l' & _ & _ & [Hwire _ _ _ _] & ->)].
  - exists []. split; [now rewrite app_nil_r | constructor].
  - eexists. split; [exact Hwire |].
    apply Forall_forall. intros rq Hin. apply in_map_iff in Hin.
    destruct Hin as (f & <- & _). apply batch_request_no_sha.
Qed.

(** Under the store's rule a file whose path exists when its turn comes
    ends in [errors], not in [results]. *)
Lemma upload_one_existing_path (exists_at : Env -> string -> bool)
      (userId : Z) (user : User.t) (owner repo branch : string)
      (message : option string) (file path : JsVal) (l : Loop Env) :
  overwrite_needs_sha exists_at github ->
  Js.get_prop file "path" = inr path ->
  exists_at (env (sys l)) (contents_url owner repo (Js.to_string path)) = true ->
  let l' := snd (upload_one Env github persist userId user owner repo branch
                   message file l) in
  results l' = results l
  /\ exists why, errors l' = errors l ++ [mkError path why].
Proof.
  intros Hrule Hpath Hex.
  destruct (get_prop_path file path "path" Hpath) as [Hfile Hprop].
  destruct (github (env (sys l)) (item_request user owner repo branch message file))
    as [o e1] eqn:Hgo.
  assert (Hfails : exists err, write_failure (Js.prop file "path") o = Some err).
  { destruct o as [e | r]; simpl; [now eexists |].
    destruct (Response.json r) as [e | result]; [now eexists |].
    destruct (batch_request_no_sha user owner repo branch message
                (Js.prop file "path") (Js.prop file "content")) as [Hput Hnosha].
    unfold item_request in Hgo. rewrite Hprop in Hgo, Hput, Hnosha.
    rewrite (Hrule _ _ Hput Hex Hnosha r e1 Hgo). now eexists. }
  destruct Hfails as [err Herr].
  cbv zeta.
  rewrite (upload_one_write_failed Env github persist userId user owner repo branch
             message file l o e1 err Hfile Hgo Herr).
  simpl. split; trivial. rewrite Hprop in Herr.
  exists (error_error err). f_equal.
  destruct o as [e | r]; simpl in Herr; [now injection Herr as <- |].
  destruct (Response.json r); [now injection Herr as <- |].
  destruct (Response.ok r); [discriminate Herr | now injection Herr as <-].
Qed.
End PriorHash.

(** C9: every request the batch route sends is a [PUT] whose body has no
    [sha] property, whatever the request body and its items hold; the
    upload route puts a non-empty [sha] of its body into the request it
    sends; and under the store's rule that an existing path is not
    overwritten without its hash, a batch file whose path exists when its
    write is sent is pushed onto [errors] and not onto [results]. *)
Theorem batch_never_sends_sha :
  forall (Env : Type) (github : Env -> Fetch.t -> FetchOutcome * Env)
         (persist : Env -> (Thrown + Date) * Env)
         (s : Sys Env) (owner repo : string),
    (forall body, exists sent,
        wire (snd (upload_batch Env github persist owner repo body s)) = wire s ++ sent
        /\ Forall put_without_sha sent)
    /\ (forall filePath body userId user sha,
          authenticated (session s) = Some userId ->
          MemStorage.getUser (storage s) userId = Some user ->
          PutBody.sha body = Some sha ->
          sha <> "" ->
          exists rq,
            wire (snd (upload_file Env github persist owner repo filePath body s))
            = wire s ++ [rq]
            /\ Js.get_prop (Fetch.body rq) "sha" = inr (JStr sha))
    /\ (forall exists_at userId user branch message file path (l : Loop Env),
          overwrite_needs_sha exists_at github ->
          Js.get_prop file "path" = inr path ->
          exists_at (env (sys l)) (contents_url owner repo (Js.to_string path)) = true ->
          let l' := snd (upload_one Env github persist userId user owner repo branch
                           message file l) in
          results l' = results l
          /\ exists why, errors l' = errors l ++ [mkError path why]).
Proof.
  intros Env github persist s owner repo. split; [| split].
  - intros body. apply upload_batch_wire.
  - intros filePath body userId user sha Hauth Huser Hsha Hne.
    exists (put_request user owner repo filePath body). split.
    + now apply upload_file_sends with (userId := userId).
    + now apply put_request_forwards_sha.
  - intros exists_at userId user branch message file path l Hrule Hpath Hex.
    now apply upload_one_existing_path with (exists_at := exists_at).
Qed.

Example batch_cannot_overwrite :
  fst (upload_batch ContentStore.t ContentStore.github ContentStore.persist
         "alice" "site" (batch_of [BatchFile.mk "readme.md" (Some "bmV3") (Some "b2xk"); notes])
         at_holds_readme)
  = inr (Res.json (Res.Batch
      (Aggregate.mk false 1 1
         [ mkResult (JStr "docs/notes.txt") true (JObj [("sha", JStr "bm90ZXM=")]) ]
         [ mkError (JStr "readme.md") (JStr "sha was not supplied") ]))).
Proof. reflexivity. Qed.

Example upload_file_can_overwrite :
  fst (upload_file ContentStore.t ContentStore.github ContentStore.persist
         "alice" "site" "readme.md"
         (PutBody.mk (Some "bmV3") None None (Some "b2xk")) at_holds_readme)
  = inr (Res.json (Res.Json (JObj [("sha", JStr "bmV3")]))).
Proof. reflexivity. Qed.

Lemma batch_never_sends_sha_witness :
  (exists rq,
      wire (snd (upload_file ContentStore.t ContentStore.github ContentStore.persist
                   "alice" "site" "readme.md"
                   (PutBody.mk (Some "bmV3") None None (Some "b2xk"))
                   at_holds_readme))
      = [] ++ [rq]
      /\ Js.get_prop (Fetch.body rq) "sha" = inr (JStr "b2xk"))
  /\ (let l' := snd (upload_one ContentStore.t ContentStore.github
                       ContentStore.persist 1 alice "alice" "site" "main" None
                       (BatchFile.to_js
                          (BatchFile.mk "readme.md" (Some "bmV3") (Some "b2xk")))
                       (mkLoop at_holds_readme [] [])) in
      results l' = []
      /\ exists why, errors l' = [] ++ [mkError (JStr "readme.md") why]).
Proof.
  destruct (batch_never_sends_sha ContentStore.t ContentStore.github
              ContentStore.persist at_holds_readme "alice" "site")
    as (_ & Hput & Hbatch).
  split.
  - apply (Hput "readme.md" (PutBody.mk (Some "bmV3") None None (Some "b2xk"))
                1 alice "b2xk"); try reflexivity.
    discriminate.
  - apply (Hbatch ContentStore.exists_at 1 alice "main" None
             (BatchFile.to_js (BatchFile.mk "readme.md" (Some "bmV3") (Some "b2xk")))
             (JStr "readme.md") (mkLoop at_holds_readme [] [])).
    + exact content_store_rule.
    + reflexivity.
    + reflexivity.
Defined.

(* ------------------------------------------------------------------ *)
(** * Counting the batch *)

Lemma aggregate_success_iff (rs : list ResultEntry) (es : list ErrorEntry) :
  Aggregate.success (aggregate rs es) = true <-> Aggregate.failed (aggregate rs es) = 0.
Proof.
  unfold aggregate. simpl. rewrite Nat.eqb_eq. lia.
Qed.

Section Counting.
Variable Env : Type.
Variable github : Env -> Fetch.t -> FetchOutcome * Env.
Variable persist : Env -> (Thrown + Date) * Env.

Lemma upload_one_reports_once (userId : Z) (user : User.t)
      (owner repo branch : string) (message : option string)
      (file : JsVal) (l : Loop Env) :
  always_persists persist ->
  with_content file = true ->
  reported (snd (upload_one Env github persist userId user owner repo branch
                   message file l))
  = S (reported l).
Proof.
  intros Hpersist Hcontent. unfold with_content in Hcontent.
  apply andb_prop in Hcontent. destruct Hcontent as [Hfile Hcontent].
  apply negb_true_iff in Hfile. apply negb_true_iff in Hcontent.
  unfold upload_one, Exec.try_catch, Exec.bind, Exec.eval, in_sys, Exec.zoom, fetch,
    reported.
  rewrite !(get_prop_file _ _ Hfile).
  destruct (github (env (sys l)) _) as [[e | r] e1]; simpl.
  - rewrite length_app. simpl. lia.
  - destruct (Response.json r) as [e | result]; simpl.
    + rewrite length_app. simpl. lia.
    + destruct (Response.ok r); simpl.
      * assert (Hsize : exists size,
                   Js.get_length (Js.prop file "content") = inr size).
        { destruct (Js.prop file "content"); simpl in *;
            try discriminate; now eexists. }
        destruct Hsize as [size ->]. simpl.
        unfold storage_createFileOperation. simpl.
        destruct (Hpersist e1) as (now & e2 & ->). simpl.
        rewrite length_app. simpl. lia.
      * destruct (Js.get_prop result "message") as [e | m]; simpl;
          rewrite length_app; simpl; lia.
Qed.

Lemma with_content_file (file : JsVal) :
  with_content file = true -> Js.nullish file = false.
Proof.
  unfold with_content. intros H. apply andb_prop in H.
  now apply negb_true_iff.
Qed.

Lemma for_of_reports_each (userId : Z) (user : User.t)
      (owner repo branch : string) (message : option string)
      (files : list JsVal) (l : Loop Env) :
  always_persists persist ->
  forallb with_content files = true ->
  reported (snd (Exec.for_of files
                   (upload_one Env github persist userId user owner repo branch message)
                   l))
  = (List.length files + reported l)%nat.
Proof.
  intros Hpersist Hall. revert l.
  induction files as [|file files IH]; intros l; simpl; trivial.
  simpl in Hall. apply andb_prop in Hall. destruct Hall as [Hfile Hfiles].
  unfold Exec.bind.
  pose proof (upload_one_reports_once userId user owner repo branch message
                file l Hpersist Hfile) as Hone.
  destruct (upload_one_turn Env github persist userId user owner repo branch
              message file l (with_content_file file Hfile)) as [Hret _].
  destruct (upload_one Env github persist userId user owner repo branch message
              file l) as [r l1].
  simpl in Hret, Hone. subst r. rewrite (IH Hfiles), Hone. lia.
Qed.

Lemma with_content_all (files : list JsVal) :
  forallb with_content files = true -> all_files files = true.
Proof.
  unfold all_files. induction files as [|file files IH]; simpl; trivial.
  intros H. apply andb_prop in H. destruct H as [Hfile Hfiles].
  rewrite (with_content_file file Hfile). simpl. now apply IH.
Qed.

(** When every item carries a content and every insert is taken, each
    file is counted once. *)
Lemma batch_counts_partition (s : Sys Env) (owner repo : string)
      (body : BatchBody.t) (userId : Z) (user : User.t) (files : list JsVal) :
  always_persists persist ->
  forallb with_content files = true ->
  authenticated (session s) = Some userId ->
  MemStorage.getUser (storage s) userId = Some user ->
  BatchBody.files body = FilesArray files ->
  files <> [] ->
  exists a,
    fst (upload_batch Env github persist owner repo body s)
    = inr (Res.json (Res.Batch a))
    /\ Aggregate.uploaded a + Aggregate.failed a = Z.of_nat (List.length files)
    /\ (Aggregate.success a = true <-> Aggregate.failed a = 0).
Proof.
  intros Hpersist Hall Hauth Huser Hfiles Hne.
  rewrite (upload_batch_run Env github persist s owner repo body userId user files);
    trivial; [| now apply with_content_all].
  eexists. split; [reflexivity |]. split; [| apply aggregate_success_iff].
  pose proof (for_of_reports_each userId user owner repo
                (Js.default (BatchBody.branch body) "main")
                (BatchBody.message body) files (mkLoop s [] []) Hpersist Hall) as H.
  unfold reported in H. simpl in H. simpl. lia.
Qed.

(** A write that the store does not answer with success leaves the ledger
    as it was: the loop logs nothing for it. *)
Lemma upload_one_failure_unlogged (userId : Z) (user : User.t)
      (owner repo branch : string) (message : option string)
      (file : JsVal) (l : Loop Env) :
  (forall r e',
      github (env (sys l)) (item_request user owner repo branch message file)
      = (Responded r, e') -> Response.ok r = false) ->
  storage (sys (snd (upload_one Env github persist userId user owner repo branch
                       message file l)))
  = storage (sys l).
Proof.
  intros Hfail.
  destruct (Js.nullish file) eqn:Hfile.
  { destruct (upload_one_null Env github persist userId user owner repo branch
                message file l Hfile) as [e ->]. reflexivity. }
  unfold upload_one, Exec.try_catch, Exec.bind, Exec.eval, in_sys, Exec.zoom, fetch.
  rewrite !(get_prop_file _ _ Hfile).
  change (batch_request user owner repo branch message
            (Js.prop file "path") (Js.prop file "content"))
    with (item_request user owner repo branch message file).
  destruct (github (env (sys l)) (item_request user owner repo branch message file))
    as [[e | r] e1]; simpl; trivial.
  rewrite (Hfail r e1 eq_refl).
  destruct (Response.json r) as [e | result]; simpl; trivial.
  destruct (Js.get_prop result "message") as [e | m]; reflexivity.
Qed.
End Counting.

(** C1, where the code departs from it: a batch of one file whose write
    the store refuses is answered with [success: false, uploaded: 0,
    failed: 1] and leaves the ledger empty, no row with status [failed];
    the upload route, given the same file and the same refusal, writes
    one row with status [failed]. *)
Theorem failed_batch_write_is_not_logged :
  let s := Script.start refusing one_user (Some 1) in
  let batch := upload_batch Script.t Script.github Script.persist "alice" "site"
                 (batch_of [readme]) s in
  let single := upload_file Script.t Script.github Script.persist "alice" "site"
                  "readme.md"
                  (PutBody.mk (Some "aGVsbG8=") (Some "Upload files") (Some "main") None)
                  s in
  fst batch
  = inr (Res.json (Res.Batch
      (Aggregate.mk false 0 1 [] [mkError (JStr "readme.md") (JStr "Invalid request")])))
  /\ MemStorage.fileOperations (storage (snd batch)) = []
  /\ map (fun row => FileOperation.status (snd row))
         (MemStorage.fileOperations (storage (snd single)))
     = ["failed"].
Proof. repeat split. Qed.

(** C2, where the code departs from it: a batch of one file that the
    store takes and whose ledger insert is then refused is answered with
    [uploaded: 1, failed: 1], the file in both arrays; so is a batch of
    one item without content that the store takes. *)
Theorem batch_counts_file_twice :
  fst (upload_batch Script.t Script.github Script.persist "alice" "site"
         (batch_of [readme]) (Script.start ledger_down one_user (Some 1)))
  = inr (Res.json (Res.Batch
      (Aggregate.mk false 1 1
         [ mkResult (JStr "readme.md") true
             (JObj [("content", JObj [("path", JStr "readme.md")])]) ]
         [ mkError (JStr "readme.md") (JStr "Connection terminated") ])))
  /\ fst (upload_batch Script.t Script.github Script.persist "alice" "site"
            (batch_of [BatchFile.mk "empty.txt" None None])
            (Script.start lenient_store one_user (Some 1)))
     = inr (Res.json (Res.Batch
         (Aggregate.mk false 1 1
            [ mkResult (JStr "empty.txt") true
                (JObj [("content", JObj [("path", JStr "empty.txt")])]) ]
            [ mkError (JStr "empty.txt")
                (JStr "Cannot read properties of undefined (reading 'length')") ]))).
Proof. split; reflexivity. Qed.

(* ------------------------------------------------------------------ *)
(** * User objects in answers *)

Lemma masked_user_hidden (user : option User.t) :
  Js.has_key "accessToken" (Js.jsonify (masked_user user)) = false.
Proof.
  destruct user as [u|]; [| reflexivity].
  unfold masked_user, User.to_js. simpl.
  destruct (User.email u), (User.avatarUrl u); reflexivity.
Qed.

Lemma user_without_token_hidden (u : User.t) :
  Js.has_key "accessToken"
    (Js.jsonify (JObj (Js.remove_field "accessToken" (Js.spread (User.to_js u)))))
  = false.
Proof.
  unfold User.to_js. simpl.
  destruct (User.email u), (User.avatarUrl u); reflexivity.
Qed.

Example get_user_alice :
  fst (get_user Script.t (Script.start (Script.mk [] []) one_user (Some 1)))
  = inr (Res.json (Res.Json
      (JObj [ ("id", JNum 1); ("githubId", JStr "583231"); ("username", JStr "alice");
              ("email", JNull); ("avatarUrl", JNull); ("createdAt", JNum 1000) ]))).
Proof. reflexivity. Qed.

Example auth_token_alice :
  fst (auth_token Script.t Script.github Script.persist (Some "ghp_fresh")
         (Script.start
            (Script.mk [ Script.created (JObj [("id", JNum 583231); ("login", JStr "alice")]) ] [])
            one_user None))
  = inr (Res.json (Res.AuthSuccess
      (JObj [ ("id", JNum 1); ("githubId", JStr "583231"); ("username", JStr "alice");
              ("email", JNull); ("avatarUrl", JNull); ("createdAt", JNum 1000) ]))).
Proof. reflexivity. Qed.

Example auth_token_newcomer :
  fst (auth_token Script.t Script.github Script.persist (Some "ghp_bob")
         (Script.start
            (Script.mk [ Script.created
                           (JObj [ ("id", JNum 77); ("login", JStr "bob");
                                   ("email", JStr "bob@example.org");
                                   ("avatar_url", JStr "https://a.example/77") ]) ]
                       [ inr 2000 ])
            one_user None))
  = inr (Res.json (Res.AuthSuccess
      (JObj [ ("id", JNum 2); ("githubId", JStr "77"); ("username", JStr "bob");
              ("email", JStr "bob@example.org");
              ("avatarUrl", JStr "https://a.example/77"); ("createdAt", JNum 2000) ]))).
Proof. reflexivity. Qed.

(** C10: whatever the stored users, the session, the token sent and the
    answers of the environment, the user object in the answer of
    [GET /api/user] and the [user] in the answer of a successful
    [POST /api/auth/token] have no [accessToken] property once they are
    serialised. *)
Theorem user_objects_hide_access_token :
  forall (Env : Type) (github : Env -> Fetch.t -> FetchOutcome * Env)
         (persist : Env -> (Thrown + Date) * Env)
         (s : Sys Env) (token : option string),
    shows_access_token (fst (get_user Env s)) = false
    /\ shows_access_token (fst (auth_token Env github persist token s)) = false.
Proof.
  intros Env github persist s token. split.
  - unfold get_user, Exec.try_catch, Exec.bind, Exec.gets, storage_getUser,
      Exec.gets.
    destruct (authenticated (session s)) as [userId|]; simpl; trivial.
    destruct (MemStorage.getUser (storage s) userId) as [user|]; simpl; trivial.
    apply user_without_token_hidden.
  - unfold auth_token, Exec.try_catch, Exec.bind.
    destruct token as [token|]; simpl; trivial.
    destruct (token =? "")%string; simpl; trivial.
    unfold fetch.
    destruct (github (env s) (user_info_request token)) as [[e | r] e1];
      simpl; trivial.
    destruct (Response.ok r); simpl; trivial.
    unfold Exec.eval.
    destruct (Response.json r) as [e | githubUser]; simpl; trivial.
    destruct (github_id githubUser) as [e | githubId]; simpl; trivial.
    unfold storage_getUserByGithubId, Exec.gets. simpl.
    destruct (MemStorage.getUserByGithubId (storage s) githubId) as [existing|];
      simpl.
    + unfold storage_updateUserToken. simpl.
      destruct (MemStorage.updateUserToken (storage s) (User.id existing) token)
        as [updated st']; simpl.
      apply masked_user_hidden.
    + destruct (parse_new_user githubId githubUser token) as [e | newUser];
        simpl; trivial.
      unfold storage_createUser. cbn [env storage session wire].
      destruct (persist e1) as [[e | now] e2]; [simpl; trivial |].
      destruct (MemStorage.createUser (storage s) newUser now) as [created st'].
      simpl. exact (masked_user_hidden (Some created)).
Qed.

(* ------------------------------------------------------------------ *)
(** * Maps with fresh keys *)

Lemma find_app {A : Type} (p : A -> bool) (l1 l2 : list A) :
  find p (l1 ++ l2) = match find p l1 with Some x => Some x | None => find p l2 end.
Proof.
  induction l1 as [|x l1 IH]; simpl; trivial. now destruct (p x).
Qed.

Lemma NumMap_get_in {V : Type} (k : Z) (v : V) (m : list (Z * V)) :
  NumMap.get k m = Some v -> In (k, v) m.
Proof.
  induction m as [|[k' v'] m IH]; simpl; [discriminate |].
  destruct (Z.eqb_spec k k') as [-> | _].
  - intros [= ->]. now left.
  - intros H. right. now apply IH.
Qed.

Lemma NumMap_get_none {V : Type} (k : Z) (m : list (Z * V)) :
  NumMap.get k m = None -> ~ In k (map fst m).
Proof.
  induction m as [|[k' v'] m IH]; simpl; [tauto |].
  destruct (Z.eqb_spec k k') as [-> | Hne]; [discriminate |].
  intros H [Heq | Hin]; [congruence | now apply IH].
Qed.

Lemma NumMap_in_get {V : Type} (k : Z) (v : V) (m : list (Z * V)) :
  NoDup (map fst m) -> In (k, v) m -> NumMap.get k m = Some v.
Proof.
  induction m as [|[k' v'] m IH]; simpl; [tauto |].
  intros Hnd [Heq | Hin].
  - injection Heq as -> ->. now rewrite Z.eqb_refl.
  - inversion Hnd as [|? ? Hnotin Hnd']; subst.
    destruct (Z.eqb_spec k k') as [-> | _].
    + exfalso. apply Hnotin. now apply (in_map fst) in Hin.
    + now apply IH.
Qed.

Lemma NumMap_in_set_self {V : Type} (k : Z) (v : V) (m : list (Z * V)) :
  In (k, v) (NumMap.set k v m).
Proof.
  apply NumMap_get_in. apply NumMap_get_set_same.
Qed.

Lemma NumMap_set_keys {V : Type} (k : Z) (v old : V) (m : list (Z * V)) :
  NumMap.get k m = Some old -> map fst (NumMap.set k v m) = map fst m.
Proof.
  induction m as [|[k' v'] m IH]; simpl; [discriminate |].
  destruct (Z.eqb_spec k k') as [-> | _]; simpl; trivial.
  intros H. now rewrite IH.
Qed.

(** With distinct keys, [set] on a key that is there rewrites the one row
    under it. *)
Lemma NumMap_set_present {V : Type} (k : Z) (v old : V) (m : list (Z * V)) :
  NoDup (map fst m) ->
  NumMap.get k m = Some old ->
  NumMap.set k v m = map (fun row => if fst row =? k then (k, v) else row) m.
Proof.
  induction m as [|[k' v'] m IH]; simpl; [discriminate |].
  intros Hnd Hget. inversion Hnd as [|? ? Hnotin Hnd']; subst.
  rewrite (Z.eqb_sym k' k).
  destruct (Z.eqb_spec k k') as [-> | Hne].
  - f_equal. clear IH Hget Hnd.
    induction m as [|[k2 v2] m IH2]; simpl; trivial.
    simpl in Hnotin. destruct (Z.eqb_spec k2 k') as [-> | _]; [tauto |].
    f_equal. apply IH2.
    + tauto.
    + now inversion Hnd'.
  - f_equal. now apply IH.
Qed.

Lemma keyed_fresh {V : Type} (idof : V -> Z) (next : Z) (m : list (Z * V)) :
  keyed idof next m -> Forall (fun row => fst row < next) m.
Proof.
  intros (_ & _ & Hall). eapply Forall_impl; [| exact Hall]. simpl. tauto.
Qed.

(** A new row under the next id goes to the end, and the map stays as
    the storage keeps them. *)
Lemma keyed_insert {V : Type} (idof : V -> Z) (next : Z) (v : V) (m : list (Z * V)) :
  keyed idof next m ->
  idof v = next ->
  NumMap.set next v m = m ++ [(next, v)]
  /\ keyed idof (next + 1) (NumMap.set next v m).
Proof.
  intros Hk Hid. pose proof (keyed_fresh _ _ _ Hk) as Hfresh.
  destruct Hk as (Hpos & Hnd & Hall).
  rewrite (NumMap_set_fresh _ _ _ Hfresh). split; trivial.
  split; [lia |]. split.
  - rewrite map_app. simpl. apply NoDup_app; trivial.
    + constructor; [simpl; tauto | constructor].
    + intros k Hin [<- | []]. apply in_map_iff in Hin.
      destruct Hin as (row & Hrow & Hin).
      rewrite Forall_forall in Hfresh. specialize (Hfresh row Hin). lia.
  - apply Forall_app. split.
    + eapply Forall_impl; [| exact Hall]. simpl. intros row H. lia.
    + constructor; [simpl; lia | constructor].
Qed.

(** A row rewritten under its own key and id leaves the map as the
    storage keeps them. *)
Lemma keyed_rewrite {V : Type} (idof : V -> Z) (next k : Z) (v old : V)
      (m : list (Z * V)) :
  keyed idof next m ->
  NumMap.get k m = Some old ->
  idof v = idof old ->
  keyed idof next (NumMap.set k v m).
Proof.
  intros (Hpos & Hnd & Hall) Hget Hid.
  assert (Hold : 0 < k /\ k < next /\ idof old = k).
  { rewrite Forall_forall in Hall.
    exact (Hall (k, old) (NumMap_get_in _ _ _ Hget)). }
  split; trivial. split.
  - now rewrite (NumMap_set_keys k v old m Hget).
  - rewrite (NumMap_set_present k v old m Hnd Hget).
    apply Forall_forall. intros row Hin. apply in_map_iff in Hin.
    destruct Hin as (row0 & <- & Hin0).
    rewrite Forall_forall in Hall. specialize (Hall row0 Hin0).
    destruct (fst row0 =? k); simpl; [lia | trivial].
Qed.

Lemma store_wf_ledger (st : MemStorage.t) : store_wf st -> ledger_wf st.
Proof.
  intros [_ Hk]. exact (keyed_fresh _ _ _ Hk).
Qed.

Lemma call_keeps_wf (st : MemStorage.t) (c : StorageCall) :
  store_wf st -> store_wf (call st c).
Proof.
  intros [Hu Ho]. destruct c as [u now | id token | op now | id status]; simpl.
  - split; trivial. simpl. now apply keyed_insert.
  - unfold MemStorage.updateUserToken.
    destruct (NumMap.get id (MemStorage.users st)) as [user|] eqn:Hget; simpl.
    + split; trivial. simpl. now apply keyed_rewrite with (old := user).
    + now split.
  - split; trivial. simpl. now apply keyed_insert.
  - unfold MemStorage.updateFileOperationStatus.
    destruct (NumMap.get id (MemStorage.fileOperations st)) as [row|] eqn:Hget; simpl.
    + split; trivial. simpl. now apply keyed_rewrite with (old := row).
    + now split.
Qed.

Lemma calls_keep_wf (cs : list StorageCall) (st : MemStorage.t) :
  store_wf st -> store_wf (fold_left call cs st).
Proof.
  revert st. induction cs as [|c cs IH]; intros st Hwf; simpl; trivial.
  apply IH. now apply call_keeps_wf.
Qed.

Lemma empty_wf : store_wf MemStorage.empty.
Proof.
  split; (split; [reflexivity | split; constructor]).
Qed.

(** Decide [store_wf] and the like on a concrete storage. *)
Ltac wf_by_computation :=
  repeat match goal with
         | |- store_wf _ => split
         | |- repos_wf _ => unfold repos_wf
         | |- ledger_wf _ => unfold ledger_wf
         | |- keyed _ _ _ => split; [reflexivity | split]
         | |- NoDup _ => constructor
         | |- Forall _ _ => constructor
         | |- ~ In _ _ => simpl; intuition discriminate
         | |- _ /\ _ => split
         | |- _ < _ => reflexivity
         | |- _ = _ => reflexivity
         end.

(* ------------------------------------------------------------------ *)
(** * The storage, call by call *)

(** X1: from [new MemStorage()] on, whatever calls are made, the users
    and the ledger stay maps with distinct positive keys below the next
    id, each row carrying its key as its [id]: no id is handed out
    twice and no row ever sits under another row's id. *)
Theorem storage_calls_keep_wf :
  forall cs : list StorageCall, store_wf (after cs).
Proof.
  intros cs. unfold after. apply calls_keep_wf. apply empty_wf.
Qed.

(** What [x || null] keeps of an optional text. *)
Lemma or_null_cases (given : option string) :
  (forall text, given = Some text -> text <> "" ->
                MemStorage.or_null given = Some text)
  /\ (given = None \/ given = Some "" -> MemStorage.or_null given = None).
Proof.
  unfold MemStorage.or_null. split.
  - intros text -> Hne. destruct (String.eqb_spec text ""); [contradiction | trivial].
  - intros [-> | ->]; reflexivity.
Qed.

(** X2: [createUser] hands out the next user id and [getUser] of that id
    gives back the user made; every other id reads as before and the
    ledger is untouched. The user made has the github id, the name and
    the token given and the time of the call; an [email] or [avatarUrl]
    that is given and not empty is stored as given, and one that is
    missing or empty is stored as [null]. *)
Theorem createUser_then_getUser :
  forall (st : MemStorage.t) (insertUser : InsertUser.t) (now : Date),
    let (user, st') := MemStorage.createUser st insertUser now in
    User.id user = MemStorage.currentUserId st
    /\ MemStorage.getUser st' (User.id user) = Some user
    /\ (forall id, id <> User.id user ->
          MemStorage.getUser st' id = MemStorage.getUser st id)
    /\ MemStorage.fileOperations st' = MemStorage.fileOperations st
    /\ User.githubId user = InsertUser.githubId insertUser
    /\ User.username user = InsertUser.username insertUser
    /\ User.accessToken user = InsertUser.accessToken insertUser
    /\ User.createdAt user = now
    /\ (forall text, InsertUser.email insertUser = Some text -> text <> "" ->
          User.email user = Some text
          /\ Js.get_prop (User.to_js user) "email" = inr (JStr text))
    /\ (InsertUser.email insertUser = None \/ InsertUser.email insertUser = Some "" ->
        User.email user = None
        /\ Js.get_prop (User.to_js user) "email" = inr JNull)
    /\ (forall text, InsertUser.avatarUrl insertUser = Some text -> text <> "" ->
          User.avatarUrl user = Some text
          /\ Js.get_prop (User.to_js user) "avatarUrl" = inr (JStr text))
    /\ (InsertUser.avatarUrl insertUser = None
        \/ InsertUser.avatarUrl insertUser = Some "" ->
        User.avatarUrl user = None
        /\ Js.get_prop (User.to_js user) "avatarUrl" = inr JNull).
Proof.
  intros st u now. simpl. unfold MemStorage.getUser. simpl.
  destruct (or_null_cases (InsertUser.email u)) as [Hemail Hnoemail].
  destruct (or_null_cases (InsertUser.avatarUrl u)) as [Havatar Hnoavatar].
  split; [reflexivity |].
  split; [apply NumMap_get_set_same |].
  split; [intros id Hne; now apply NumMap_get_set_other |].
  split; [reflexivity |]. split; [reflexivity |]. split; [reflexivity |].
  split; [reflexivity |]. split; [reflexivity |].
  split; [intros text Hgiven Hne; now rewrite (Hemail text Hgiven Hne) |].
  split; [intros Hgiven; now rewrite (Hnoemail Hgiven) |].
  split; [intros text Hgiven Hne; now rewrite (Havatar text Hgiven Hne) |].
  intros Hgiven. now rewrite (Hnoavatar Hgiven).
Qed.

Lemma createUser_then_getUser_witness :
  User.email
    (fst (MemStorage.createUser one_user
            (InsertUser.mk "77" "bob" (Some "") (Some "https://a.example/b.png")
               "ghp_bob") 2000))
  = None
  /\ User.avatarUrl
       (fst (MemStorage.createUser one_user
               (InsertUser.mk "77" "bob" (Some "") (Some "https://a.example/b.png")
                  "ghp_bob") 2000))
     = Some "https://a.example/b.png".
Proof.
  pose proof (createUser_then_getUser one_user
                (InsertUser.mk "77" "bob" (Some "") (Some "https://a.example/b.png")
                   "ghp_bob") 2000) as Hmade.
  simpl in Hmade.
  destruct Hmade as (_ & _ & _ & _ & _ & _ & _ & _ & _ & Hnoemail & Havatar & _).
  split.
  - apply Hnoemail. right. reflexivity.
  - apply (Havatar "https://a.example/b.png" eq_refl). discriminate.
Defined.

(** X3: [createUser] does not look at the github ids already stored. A
    user made with a github id that is taken is stored all the same, and
    [getUserByGithubId] goes on giving the user stored first; with a
    github id that is free, it gives the user just made. *)
Theorem createUser_then_getUserByGithubId :
  forall (st : MemStorage.t) (insertUser : InsertUser.t) (now : Date) (githubId : string),
    store_wf st ->
    let (user, st') := MemStorage.createUser st insertUser now in
    MemStorage.getUserByGithubId st' githubId
    = match MemStorage.getUserByGithubId st githubId with
      | Some first => Some first
      | None =>
          if (InsertUser.githubId insertUser =? githubId)%string
          then Some user else None
      end.
Proof.
  intros st u now g [Hu _]. simpl.
  unfold MemStorage.getUserByGithubId, NumMap.values. simpl.
  destruct (keyed_insert User.id (MemStorage.currentUserId st)
              (User.mk (MemStorage.currentUserId st) (InsertUser.githubId u)
                 (InsertUser.username u) (MemStorage.or_null (InsertUser.email u))
                 (MemStorage.or_null (InsertUser.avatarUrl u))
                 (InsertUser.accessToken u) now)
              (MemStorage.users st) Hu eq_refl) as [-> _].
  rewrite map_app, find_app. simpl.
  destruct (find _ (map snd (MemStorage.users st))); trivial.
Qed.

Lemma createUser_then_getUserByGithubId_witness :
  MemStorage.getUserByGithubId
    (snd (MemStorage.createUser one_user
            (InsertUser.mk "583231" "alice-again" None None "ghp_other") 2000))
    "583231"
  = Some alice.
Proof.
  assert (Hwf : store_wf one_user) by wf_by_computation.
  exact (createUser_then_getUserByGithubId one_user
           (InsertUser.mk "583231" "alice-again" None None "ghp_other") 2000
           "583231" Hwf).
Defined.

Lemma find_after_rewrite (p : User.t -> bool) (k : Z) (v old : User.t)
      (m : list (Z * User.t)) :
  NumMap.get k m = Some old ->
  p v = p old ->
  User.id v = User.id old ->
  option_map User.id (find p (NumMap.values (NumMap.set k v m)))
  = option_map User.id (find p (NumMap.values m)).
Proof.
  intros Hget Hp Hid. unfold NumMap.values.
  induction m as [|[k' v'] m IH]; simpl in *; [discriminate |].
  destruct (Z.eqb_spec k k') as [-> | _]; simpl.
  - injection Hget as ->. rewrite Hp. destruct (p old); simpl; congruence.
  - destruct (p v'); simpl; trivial. now apply IH.
Qed.

(** X4: [updateUserToken] on a user that is stored replaces the token
    and nothing else: the user read back has the new token and the old
    identity, the other users and the ledger are as before, and a lookup
    by github id finds the same user as before. On an id that is not
    stored it returns [undefined] and changes nothing: it never makes a
    user. *)
Theorem updateUserToken_replaces_token :
  forall (st : MemStorage.t) (id : Z) (accessToken : string),
    let (r, st') := MemStorage.updateUserToken st id accessToken in
    match MemStorage.getUser st id with
    | Some user =>
        r = MemStorage.getUser st' id
        /\ (exists updated,
              r = Some updated
              /\ User.accessToken updated = accessToken
              /\ User.id updated = User.id user
              /\ User.githubId updated = User.githubId user
              /\ User.username updated = User.username user
              /\ User.email updated = User.email user
              /\ User.avatarUrl updated = User.avatarUrl user
              /\ User.createdAt updated = User.createdAt user)
        /\ (forall id', id' <> id ->
              MemStorage.getUser st' id' = MemStorage.getUser st id')
        /\ (forall githubId,
              option_map User.id (MemStorage.getUserByGithubId st' githubId)
              = option_map User.id (MemStorage.getUserByGithubId st githubId))
        /\ MemStorage.fileOperations st' = MemStorage.fileOperations st
    | None => r = None /\ st' = st
    end.
Proof.
  intros st id token.
  unfold MemStorage.updateUserToken, MemStorage.getUser.
  destruct (NumMap.get id (MemStorage.users st)) as [user|] eqn:Hget; simpl.
  - split; [now rewrite NumMap_get_set_same |].
    split; [eexists; repeat split |].
    split; [intros id' Hne; now apply NumMap_get_set_other |].
    split; trivial.
    intros g. unfold MemStorage.getUserByGithubId. simpl.
    now apply find_after_rewrite with (old := user).
  - now split.
Qed.

(* ------------------------------------------------------------------ *)
(** * The activity query *)

Lemma sort_map {A : Type} (cmp : A -> A -> Z) (f : A -> A) (l : list A) :
  (forall a b, cmp (f a) (f b) = cmp a b) ->
  Js.sort cmp (map f l) = map f (Js.sort cmp l).
Proof.
  intros Hcmp. induction l as [|x l IH]; simpl; trivial.
  rewrite IH. generalize (Js.sort cmp l). intros s.
  induction s as [|y s IHs]; simpl; trivial.
  rewrite Hcmp. destruct (cmp x y <=? 0); simpl; trivial. now rewrite IHs.
Qed.

Lemma slice0_map {A : Type} (f : A -> A) (l : list A) (n : Z) :
  Js.slice0 (map f l) n = map f (Js.slice0 l n).
Proof.
  unfold Js.slice0. rewrite length_map.
  destruct (0 <=? n); now rewrite firstn_map.
Qed.

Lemma filter_map_same {A : Type} (p : A -> bool) (f : A -> A) (l : list A) :
  (forall a, p (f a) = p a) ->
  filter p (map f l) = map f (filter p l).
Proof.
  intros Hp. induction l as [|x l IH]; simpl; trivial.
  rewrite Hp. destruct (p x); simpl; now rewrite IH.
Qed.

Lemma rows_of_userId (st : MemStorage.t) (userId : Z) (row : FileOperation.t) :
  In row (rows_of st userId) ->
  FileOperation.userId row = userId
  /\ exists k, In (k, row) (MemStorage.fileOperations st).
Proof.
  unfold rows_of, NumMap.values. intros Hin. apply filter_In in Hin.
  destruct Hin as [Hin Hu]. split; [now apply Z.eqb_eq |].
  apply in_map_iff in Hin. destruct Hin as ([k r] & Heq & Hin).
  simpl in Heq. subst r. now exists k.
Qed.

(** X5: a row made by [createFileOperation] at a time later than all the
    rows its user has heads that user's activity, for every positive
    limit. *)
Theorem new_operation_heads_activity :
  forall (st : MemStorage.t) (insertOperation : InsertFileOperation.t)
         (now : Date) (limit : Z),
    0 < limit ->
    (forall row, In row (rows_of st (InsertFileOperation.userId insertOperation)) ->
                 FileOperation.createdAt row < now) ->
    let (operation, st') := MemStorage.createFileOperation st insertOperation now in
    hd_error (MemStorage.getUserFileOperations st'
                (InsertFileOperation.userId insertOperation) limit)
    = Some operation.
Proof.
  intros st ins now limit Hlimit Hold.
  destruct (MemStorage.createFileOperation st ins now) as [op st'] eqn:Hcreate.
  assert (Hop : op = fst (MemStorage.createFileOperation st ins now))
    by now rewrite Hcreate.
  assert (Hst : st' = snd (MemStorage.createFileOperation st ins now))
    by now rewrite Hcreate.
  clear Hcreate. simpl in Hop, Hst.
  set (u := InsertFileOperation.userId ins) in *.
  assert (Hu : FileOperation.userId op = u) by now subst op.
  assert (Hnow : FileOperation.createdAt op = now) by now subst op.
  assert (Hin : In op (rows_of st' u)).
  { unfold rows_of, NumMap.values. apply filter_In. split.
    - apply in_map_iff. exists (MemStorage.currentOpId st, op). split; trivial.
      subst st' op. simpl. apply NumMap_in_set_self.
    - now apply Z.eqb_eq. }
  assert (Hnew : forall row, In row (rows_of st' u) ->
                             row = op \/ FileOperation.createdAt row < now).
  { intros row Hrow. apply rows_of_userId in Hrow. destruct Hrow as [Hru (k & Hk)].
    subst st'. simpl in Hk. apply NumMap_in_set in Hk.
    destruct Hk as [Hk | Hk]; [right | left; now rewrite Hop].
    apply Hold. unfold rows_of, NumMap.values. apply filter_In. split.
    - apply in_map_iff. now exists (k, row).
    - now apply Z.eqb_eq. }
  unfold MemStorage.getUserFileOperations. fold (rows_of st' u).
  pose proof (sort_perm MemStorage.newest_first (rows_of st' u)) as Hperm.
  pose proof (newest_first_sorted (rows_of st' u)) as Hsorted.
  destruct (Js.sort MemStorage.newest_first (rows_of st' u)) as [|h t] eqn:Hs.
  - apply Permutation_nil in Hperm. rewrite Hperm in Hin. destruct Hin.
  - assert (Hh : In h (rows_of st' u))
      by (apply (Permutation_in _ Hperm); now left).
    assert (Hopin : In op (h :: t))
      by (apply (Permutation_in _ (Permutation_sym Hperm)); exact Hin).
    assert (Hge : FileOperation.createdAt op <= FileOperation.createdAt h).
    { destruct Hopin as [<- | Ht]; [lia |].
      apply StronglySorted_inv in Hsorted. destruct Hsorted as [_ Hall].
      rewrite Forall_forall in Hall. exact (Hall op Ht). }
    destruct (Hnew h Hh) as [-> | Hlt]; [| lia].
    unfold Js.slice0. destruct (Z.leb_spec 0 limit) as [_ | ?]; [| lia].
    destruct (Z.to_nat limit) as [|n] eqn:Hn; [lia | reflexivity].
Qed.

Lemma new_operation_heads_activity_witness :
  hd_error (MemStorage.getUserFileOperations
              (snd (MemStorage.createFileOperation mixed_ledger
                      (InsertFileOperation.mk 1 0 "upload" (JStr "d.txt") "main" None JUndefined)
                      60))
              1 10)
  = Some (FileOperation.mk 5 1 0 "upload" (JStr "d.txt") "main" "pending" JNull 60).
Proof.
  apply (new_operation_heads_activity mixed_ledger
           (InsertFileOperation.mk 1 0 "upload" (JStr "d.txt") "main" None JUndefined) 60 10).
  - reflexivity.
  - simpl. intros row [<- | [<- | [<- | []]]]; reflexivity.
Defined.

(** X6: what [limit] does to the activity query. The rows that come
    back are rows of the user asked for, and they are the newest: with
    the rows left out ([older]) they make up exactly the rows of that
    user, newest first, so that no row left out is newer than a row that
    comes back. A limit of zero or more keeps that many rows, all of them
    when the user has fewer; a negative limit leaves out that many rows,
    the oldest. *)
Theorem getUserFileOperations_limit :
  forall (st : MemStorage.t) (userId limit : Z),
    let n := Z.of_nat (List.length (rows_of st userId)) in
    let ops := MemStorage.getUserFileOperations st userId limit in
    exists older : list FileOperation.t,
      Permutation (ops ++ older) (rows_of st userId)
      /\ StronglySorted newer_or_same (ops ++ older)
      /\ Z.of_nat (List.length ops)
         = Z.max 0 (Z.min n (if 0 <=? limit then limit else n + limit))
      /\ Forall (fun row => FileOperation.userId row = userId) ops.
Proof.
  intros st u limit n ops. subst ops.
  unfold MemStorage.getUserFileOperations. fold (rows_of st u).
  pose proof (sort_perm MemStorage.newest_first (rows_of st u)) as Hperm.
  assert (Hlen : List.length (Js.sort MemStorage.newest_first (rows_of st u))
                 = List.length (rows_of st u))
    by now apply Permutation_length.
  assert (Hcut : exists k,
             Js.slice0 (Js.sort MemStorage.newest_first (rows_of st u)) limit
             = firstn k (Js.sort MemStorage.newest_first (rows_of st u))).
  { unfold Js.slice0. destruct (0 <=? limit); now eexists. }
  destruct Hcut as [k Hcut].
  exists (skipn k (Js.sort MemStorage.newest_first (rows_of st u))).
  split; [| split; [| split]].
  - rewrite Hcut, firstn_skipn. exact Hperm.
  - rewrite Hcut, firstn_skipn. apply newest_first_sorted.
  - unfold Js.slice0. rewrite Hlen. fold n.
    destruct (Z.leb_spec 0 limit); rewrite length_firstn, Hlen; lia.
  - apply Forall_forall. intros row Hin.
    rewrite Hcut in Hin. apply in_firstn in Hin.
    apply (Permutation_in _ Hperm) in Hin.
    now apply rows_of_userId in Hin.
Qed.

(** X7: an operation logged for one user leaves every other user's
    activity as it was. *)
Theorem other_users_operations_do_not_show :
  forall (st : MemStorage.t) (insertOperation : InsertFileOperation.t)
         (now : Date) (userId limit : Z),
    ledger_wf st ->
    InsertFileOperation.userId insertOperation <> userId ->
    MemStorage.getUserFileOperations
      (snd (MemStorage.createFileOperation st insertOperation now)) userId limit
    = MemStorage.getUserFileOperations st userId limit.
Proof.
  intros st ins now u limit Hwf Hne.
  unfold MemStorage.getUserFileOperations, NumMap.values. simpl.
  rewrite (NumMap_set_fresh _ _ _ Hwf), map_app, filter_app. simpl.
  destruct (Z.eqb_spec (InsertFileOperation.userId ins) u) as [? | _];
    [contradiction |].
  now rewrite app_nil_r.
Qed.

Lemma other_users_operations_do_not_show_witness :
  MemStorage.getUserFileOperations
    (snd (MemStorage.createFileOperation mixed_ledger
            (InsertFileOperation.mk 2 0 "upload" (JStr "d.txt") "main" None JUndefined) 60))
    1 10
  = MemStorage.getUserFileOperations mixed_ledger 1 10.
Proof.
  apply (other_users_operations_do_not_show mixed_ledger
           (InsertFileOperation.mk 2 0 "upload" (JStr "d.txt") "main" None JUndefined) 60 1 10).
  - wf_by_computation.
  - discriminate.
Defined.

(** What [updateFileOperationStatus (id, status)] makes of a row. *)
Lemma status_update_rows (st : MemStorage.t) (id : Z) (status : string) :
  store_wf st ->
  NumMap.values
    (MemStorage.fileOperations (snd (MemStorage.updateFileOperationStatus st id status)))
  = map (fun row => if FileOperation.id row =? id
                    then FileOperation.with_status row status else row)
        (NumMap.values (MemStorage.fileOperations st)).
Proof.
  intros [_ (Hpos & Hnd & Hall)].
  unfold MemStorage.updateFileOperationStatus, NumMap.values.
  destruct (NumMap.get id (MemStorage.fileOperations st)) as [op|] eqn:Hget; simpl.
  - rewrite (NumMap_set_present id _ op _ Hnd Hget), !map_map.
    apply map_ext_in. intros [k row] Hin. simpl.
    rewrite Forall_forall in Hall. destruct (Hall _ Hin) as (_ & _ & Hid).
    simpl in Hid. rewrite Hid.
    destruct (Z.eqb_spec k id) as [-> | _]; simpl; trivial.
    rewrite (NumMap_in_get _ _ _ Hnd Hin) in Hget. now injection Hget as ->.
  - rewrite <- (map_id (map snd (MemStorage.fileOperations st))) at 1.
    rewrite !map_map. apply map_ext_in. intros [k row] Hin. simpl.
    rewrite Forall_forall in Hall. destruct (Hall _ Hin) as (_ & _ & Hid).
    simpl in Hid. rewrite Hid.
    destruct (Z.eqb_spec k id) as [-> | _]; trivial.
    exfalso. apply (NumMap_get_none _ _ Hget).
    now apply (in_map fst) in Hin.
Qed.

(** X8: changing the status of a row changes what the activity query
    shows of that row and nothing else: the same rows come back in the
    same order, the one with the given id carrying the new status. *)
Theorem status_update_keeps_activity_order :
  forall (st : MemStorage.t) (id : Z) (status : string) (userId limit : Z),
    store_wf st ->
    MemStorage.getUserFileOperations
      (snd (MemStorage.updateFileOperationStatus st id status)) userId limit
    = map (fun row => if FileOperation.id row =? id
                      then FileOperation.with_status row status else row)
          (MemStorage.getUserFileOperations st userId limit).
Proof.
  intros st id status u limit Hwf.
  unfold MemStorage.getUserFileOperations.
  rewrite (status_update_rows st id status Hwf).
  rewrite filter_map_same, sort_map, slice0_map; trivial.
  - intros a b. unfold MemStorage.newest_first.
    destruct (FileOperation.id a =? id), (FileOperation.id b =? id); reflexivity.
  - intros a. destruct (FileOperation.id a =? id); reflexivity.
Qed.

Lemma status_update_keeps_activity_order_witness :
  MemStorage.getUserFileOperations
    (snd (MemStorage.updateFileOperationStatus mixed_ledger 3 "completed")) 1 10
  = [ FileOperation.mk 3 1 0 "delete" (JStr "a.txt") "main" "completed" JNull 40;
      FileOperation.mk 1 1 0 "upload" (JStr "a.txt") "main" "completed" JNull 30;
      FileOperation.mk 4 1 0 "upload" (JStr "c.txt") "dev" "completed" JNull 10 ].
Proof.
  assert (Hwf : store_wf mixed_ledger) by wf_by_computation.
  exact (status_update_keeps_activity_order mixed_ledger 3 "completed" 1 10 Hwf).
Defined.

(* ------------------------------------------------------------------ *)
(** * The guards of the routes *)

(** X9: without a session user (no user id in the session, or the id 0)
    every guarded route answers 401 [Not authenticated] and leaves the
    whole state as it was: no request goes out and nothing is stored. A
    logout leaves a session that is in this case. *)
Theorem unauthenticated_requests_change_nothing :
  forall (Env : Type) (github : Env -> Fetch.t -> FetchOutcome * Env)
         (persist : Env -> (Thrown + Date) * Env)
         (s : Sys Env) (repos : MemRepositories.t) (owner repo : string),
    authenticated (session s) = None ->
    (forall filePath body,
        upload_file Env github persist owner repo filePath body s = (denied, s))
    /\ (forall filePath body,
        delete_file Env github persist owner repo filePath body s = (denied, s))
    /\ (forall body, upload_batch Env github persist owner repo body s = (denied, s))
    /\ activity Env s = (denied, s)
    /\ get_user Env s = (denied, s)
    /\ get_branches Env github owner repo s = (denied, s)
    /\ (forall path ref, get_contents Env github owner repo path ref s = (denied, s))
    /\ (forall body, create_pull Env github owner repo body s = (denied, s))
    /\ get_repositories Env github persist (s, repos) = (denied, (s, repos))
    /\ (forall s0 : Sys Env, authenticated (session (snd (logout Env s0))) = None).
Proof.
  intros Env github persist s repos owner repo Hno.
  repeat split; intros;
    unfold upload_file, delete_file, upload_batch, activity, get_user,
      get_branches, get_contents, create_pull, get_repositories,
      Exec.try_catch, Exec.bind, Exec.gets; simpl; rewrite ?Hno; reflexivity.
Qed.

Lemma unauthenticated_requests_change_nothing_witness :
  upload_batch Script.t Script.github Script.persist "alice" "site"
    (batch_of [readme]) (Script.start fair_weather one_user (Some 0))
  = (denied, Script.start fair_weather one_user (Some 0)).
Proof.
  apply (unauthenticated_requests_change_nothing Script.t Script.github
           Script.persist (Script.start fair_weather one_user (Some 0))
           MemRepositories.empty "alice" "site").
  reflexivity.
Defined.

(** X10: with a session user id under which no user is stored, the
    routes that look the user up answer 404 [User not found] and leave
    the whole state as it was. The activity route does not look the user
    up: it answers 200 with the rows logged under that id. *)
Theorem unknown_session_user :
  forall (Env : Type) (github : Env -> Fetch.t -> FetchOutcome * Env)
         (persist : Env -> (Thrown + Date) * Env)
         (s : Sys Env) (repos : MemRepositories.t) (owner repo : string)
         (userId : Z),
    authenticated (session s) = Some userId ->
    MemStorage.getUser (storage s) userId = None ->
    (forall filePath body,
        upload_file Env github persist owner repo filePath body s = (unknown_user, s))
    /\ (forall filePath body,
        delete_file Env github persist owner repo filePath body s = (unknown_user, s))
    /\ (forall body,
        upload_batch Env github persist owner repo body s = (unknown_user, s))
    /\ get_user Env s = (unknown_user, s)
    /\ get_branches Env github owner repo s = (unknown_user, s)
    /\ (forall path ref,
        get_contents Env github owner repo path ref s = (unknown_user, s))
    /\ (forall body, create_pull Env github owner repo body s = (unknown_user, s))
    /\ get_repositories Env github persist (s, repos) = (unknown_user, (s, repos))
    /\ activity Env s
       = (inr (Res.json (Res.Operations
                 (MemStorage.getUserFileOperations (storage s) userId 10))), s).
Proof.
  intros Env github persist s repos owner repo userId Hauth Hnone.
  repeat split; intros;
    unfold upload_file, delete_file, upload_batch, activity, get_user,
      get_branches, get_contents, create_pull, get_repositories, on_sys,
      Exec.zoom, Exec.try_catch, Exec.bind, Exec.gets, storage_getUser,
      storage_getUserFileOperations, Exec.gets;
    simpl; rewrite ?Hauth; simpl; rewrite ?Hnone; reflexivity.
Qed.

Lemma unknown_session_user_witness :
  get_user Script.t (Script.start fair_weather one_user (Some 7))
  = (unknown_user, Script.start fair_weather one_user (Some 7)).
Proof.
  apply (unknown_session_user Script.t Script.github Script.persist
           (Script.start fair_weather one_user (Some 7)) MemRepositories.empty
           "alice" "site" 7); reflexivity.
Defined.

(* ------------------------------------------------------------------ *)
(** * The single-file routes, end to end *)

Section SingleFile.
Variable Env : Type.
Variable github : Env -> Fetch.t -> FetchOutcome * Env.
Variable persist : Env -> (Thrown + Date) * Env.

Ltac open_route :=
  unfold upload_file, delete_file, get_branches, get_contents, create_pull,
    Exec.try_catch, Exec.bind, Exec.gets, Exec.eval, Exec.ret,
    storage_getUser, storage_createFileOperation, fetch, Exec.gets; simpl.

Ltac no_row res :=
  exists res; simpl; split; [reflexivity |];
  split; [tauto |]; split; [intros H; discriminate H | reflexivity].

Lemma upload_file_outcome (s : Sys Env) (owner repo filePath : string)
      (body : PutBody.t) :
  ledger_wf (storage s) ->
  single_file_outcome s
    (snd (upload_file Env github persist owner repo filePath body s))
    (fst (upload_file Env github persist owner repo filePath body s))
    "upload" filePath.
Proof.
  intros Hwf. unfold single_file_outcome. open_route.
  destruct (authenticated (session s)) as [userId|] eqn:Hauth; simpl.
  2:{ no_row (Res.mk 401 (Res.Error "Not authenticated")). }
  destruct (MemStorage.getUser (storage s) userId) as [user|]; simpl.
  2:{ no_row (Res.mk 404 (Res.Error "User not found")). }
  destruct (github (env s) (put_request user owner repo filePath body))
    as [[e | r] e1]; simpl.
  { no_row (Res.mk 500 (Res.Error "Failed to upload file")). }
  destruct (Response.json r) as [e | result]; simpl.
  { no_row (Res.mk 500 (Res.Error "Failed to upload file")). }
  destruct (Js.length_of (PutBody.content body)) as [e | size]; simpl.
  { no_row (Res.mk 500 (Res.Error "Failed to upload file")). }
  destruct (persist e1) as [[e | now] e2]; simpl.
  { no_row (Res.mk 500 (Res.Error "Failed to upload file")). }
  eexists. split; [reflexivity |]. simpl. split; [tauto |].
  split; [| intros H; now contradiction H].
  intros _. eexists. rewrite (NumMap_set_fresh _ _ _ Hwf).
  split; [reflexivity |]. simpl. repeat split; trivial.
  destruct (Response.ok r); tauto.
Qed.

Lemma delete_file_outcome (s : Sys Env) (owner repo filePath : string)
      (body : DeleteBody.t) :
  ledger_wf (storage s) ->
  single_file_outcome s
    (snd (delete_file Env github persist owner repo filePath body s))
    (fst (delete_file Env github persist owner repo filePath body s))
    "delete" filePath.
Proof.
  intros Hwf. unfold single_file_outcome. open_route.
  destruct (authenticated (session s)) as [userId|] eqn:Hauth; simpl.
  2:{ no_row (Res.mk 401 (Res.Error "Not authenticated")). }
  destruct (MemStorage.getUser (storage s) userId) as [user|]; simpl.
  2:{ no_row (Res.mk 404 (Res.Error "User not found")). }
  destruct (github (env s) (delete_request user owner repo filePath body))
    as [[e | r] e1]; simpl.
  { no_row (Res.mk 500 (Res.Error "Failed to delete file")). }
  destruct (Response.json r) as [e | result]; simpl.
  { no_row (Res.mk 500 (Res.Error "Failed to delete file")). }
  destruct (persist e1) as [[e | now] e2]; simpl.
  { no_row (Res.mk 500 (Res.Error "Failed to delete file")). }
  eexists. split; [reflexivity |]. simpl. split; [tauto |].
  split; [| intros H; now contradiction H].
  intros _. eexists. rewrite (NumMap_set_fresh _ _ _ Hwf).
  split; [reflexivity |]. simpl. repeat split; trivial.
  destruct (Response.ok r); tauto.
Qed.

(** The upload route once the store has answered, whatever it answered. *)
Lemma upload_file_passes_on (s : Sys Env) (owner repo filePath : string)
      (body : PutBody.t) (userId : Z) (user : User.t) (r : Response.t)
      (result : JsVal) (content : string) (now : Date) (e1 e2 : Env) :
  authenticated (session s) = Some userId ->
  MemStorage.getUser (storage s) userId = Some user ->
  github (env s) (put_request user owner repo filePath body) = (Responded r, e1) ->
  Response.json r = inr result ->
  PutBody.content body = Some content ->
  persist e1 = (inr now, e2) ->
  let out := upload_file Env github persist owner repo filePath body s in
  fst out = inr (Res.mk 200 (Res.Json (Js.jsonify result)))
  /\ NumMap.get (MemStorage.currentOpId (storage s))
                (MemStorage.fileOperations (storage (snd out)))
     = Some (FileOperation.mk (MemStorage.currentOpId (storage s)) userId 0
               "upload" (JStr filePath) (Js.default (PutBody.branch body) "main")
               (if Response.ok r then "completed" else "failed")
               (JObj [ ("message", Js.of_opt (PutBody.message body));
                       ("size", JNum (Z.of_nat (String.length content))) ])
               now).
Proof.
  intros Hauth Huser Hgo Hjson Hcontent Hpersist. open_route.
  rewrite Hauth. simpl. rewrite Huser. simpl. rewrite Hgo. simpl.
  rewrite Hjson. simpl. rewrite Hcontent. simpl. rewrite Hpersist. simpl.
  split; [reflexivity |]. apply NumMap_get_set_same.
Qed.

(** The upload route on a body without [content]. *)
Lemma upload_file_without_content (s : Sys Env) (owner repo filePath : string)
      (body : PutBody.t) (userId : Z) (user : User.t) :
  authenticated (session s) = Some userId ->
  MemStorage.getUser (storage s) userId = Some user ->
  PutBody.content body = None ->
  let out := upload_file Env github persist owner repo filePath body s in
  fst out = inr (Res.mk 500 (Res.Error "Failed to upload file"))
  /\ wire (snd out) = wire s ++ [put_request user owner repo filePath body]
  /\ Js.has_key "content" (Fetch.body (put_request user owner repo filePath body))
     = false
  /\ storage (snd out) = storage s.
Proof.
  intros Hauth Huser Hcontent out.
  assert (Hkey : Js.has_key "content"
                   (Fetch.body (put_request user owner repo filePath body)) = false).
  { unfold put_request. rewrite Hcontent. simpl.
    destruct (Js.truthy_str (PutBody.sha body)); simpl; trivial.
    destruct (PutBody.sha body); reflexivity. }
  assert (Hrest : fst out = inr (Res.mk 500 (Res.Error "Failed to upload file"))
                  /\ wire (snd out) = wire s ++ [put_request user owner repo filePath body]
                  /\ storage (snd out) = storage s).
  { subst out. open_route. rewrite Hauth. simpl. rewrite Huser. simpl.
    destruct (github (env s) (put_request user owner repo filePath body))
      as [[e | r] e1]; simpl; [now repeat split |].
    destruct (Response.json r) as [e | result]; simpl; [now repeat split |].
    rewrite Hcontent. simpl. now repeat split. }
  tauto.
Qed.

(** What the routes that only ask the store leave behind. *)
Lemma get_branches_reads (s : Sys Env) (owner repo : string) :
  storage (snd (get_branches Env github owner repo s)) = storage s
  /\ session (snd (get_branches Env github owner repo s)) = session s.
Proof.
  open_route.
  destruct (authenticated (session s)) as [userId|]; simpl; [| now split].
  destruct (MemStorage.getUser (storage s) userId) as [user|]; simpl; [| now split].
  destruct (github (env s) _) as [[e | r] e1]; simpl; [now split |].
  destruct (Response.json r); now split.
Qed.

Lemma get_contents_reads (s : Sys Env) (owner repo : string) (path ref : option string) :
  storage (snd (get_contents Env github owner repo path ref s)) = storage s
  /\ session (snd (get_contents Env github owner repo path ref s)) = session s.
Proof.
  open_route.
  destruct (authenticated (session s)) as [userId|]; simpl; [| now split].
  destruct (MemStorage.getUser (storage s) userId) as [user|]; simpl; [| now split].
  destruct (github (env s) _) as [[e | r] e1]; simpl; [now split |].
  destruct (Response.json r); now split.
Qed.

Lemma create_pull_reads (s : Sys Env) (owner repo : string) (body : PullBody) :
  storage (snd (create_pull Env github owner repo body s)) = storage s
  /\ session (snd (create_pull Env github owner repo body s)) = session s.
Proof.
  open_route.
  destruct (authenticated (session s)) as [userId|]; simpl; [| now split].
  destruct (MemStorage.getUser (storage s) userId) as [user|]; simpl; [| now split].
  destruct (github (env s) _) as [[e | r] e1]; simpl; [now split |].
  destruct (Response.json r); now split.
Qed.

(** A route that asks the store once passes the body of the answer on
    under 200, whatever the status of the answer. *)
Lemma get_contents_passes_on (s : Sys Env) (owner repo : string)
      (path ref : option string) (userId : Z) (user : User.t)
      (r : Response.t) (contents : JsVal) (e1 : Env) :
  authenticated (session s) = Some userId ->
  MemStorage.getUser (storage s) userId = Some user ->
  github (env s) (get_request user (listing_url owner repo path ref)) = (Responded r, e1) ->
  Response.json r = inr contents ->
  fst (get_contents Env github owner repo path ref s)
  = inr (Res.mk 200 (Res.Json (Js.jsonify contents))).
Proof.
  intros Hauth Huser Hgo Hjson. open_route.
  rewrite Hauth. simpl. rewrite Huser. simpl. rewrite Hgo. simpl.
  now rewrite Hjson.
Qed.
End SingleFile.

Section Bearer.
Variable Env : Type.
Variable github : Env -> Fetch.t -> FetchOutcome * Env.
Variable persist : Env -> (Thrown + Date) * Env.
Variables (s : Sys Env) (userId : Z) (user : User.t) (owner repo : string).
Hypothesis Hauth : authenticated (session s) = Some userId.
Hypothesis Huser : MemStorage.getUser (storage s) userId = Some user.

Ltac enter :=
  unfold upload_file, delete_file, get_branches, get_contents, create_pull,
    Exec.try_catch, Exec.bind, Exec.gets, Exec.eval, Exec.ret,
    storage_getUser, storage_createFileOperation, fetch, Exec.gets; simpl;
  rewrite Hauth; simpl; rewrite Huser; simpl.

Ltac one_sent rq :=
  exists [rq]; split; [reflexivity | repeat constructor].

Lemma upload_file_sent (filePath : string) (body : PutBody.t) :
  exists sent,
    wire (snd (upload_file Env github persist owner repo filePath body s))
    = wire s ++ sent /\ sent_as user sent.
Proof.
  enter.
  destruct (github (env s) (put_request user owner repo filePath body))
    as [[e | r] e1]; simpl; [one_sent (put_request user owner repo filePath body) |].
  destruct (Response.json r) as [e | result]; simpl;
    [one_sent (put_request user owner repo filePath body) |].
  destruct (Js.length_of (PutBody.content body)) as [e | size]; simpl;
    [one_sent (put_request user owner repo filePath body) |].
  destruct (persist e1) as [[e | now] e2]; simpl;
    one_sent (put_request user owner repo filePath body).
Qed.

Lemma delete_file_sent (filePath : string) (body : DeleteBody.t) :
  exists sent,
    wire (snd (delete_file Env github persist owner repo filePath body s))
    = wire s ++ sent /\ sent_as user sent.
Proof.
  enter.
  destruct (github (env s) (delete_request user owner repo filePath body))
    as [[e | r] e1]; simpl; [one_sent (delete_request user owner repo filePath body) |].
  destruct (Response.json r) as [e | result]; simpl;
    [one_sent (delete_request user owner repo filePath body) |].
  destruct (persist e1) as [[e | now] e2]; simpl;
    one_sent (delete_request user owner repo filePath body).
Qed.

Lemma upload_batch_sent (body : BatchBody.t) :
  exists sent,
    wire (snd (upload_batch Env github persist owner repo body s))
    = wire s ++ sent /\ sent_as user sent.
Proof.
  destruct (upload_batch_loop Env github persist s owner repo body)
    as [-> | (userId' & user' & files & l' & Hauth' & Huser' & [Hwire _ _ _ _] & ->)].
  - exists []. split; [now rewrite app_nil_r | constructor].
  - rewrite Hauth in Hauth'. injection Hauth' as <-.
    rewrite Huser in Huser'. injection Huser' as <-.
    eexists. split; [exact Hwire |].
    apply Forall_forall. intros rq Hin. apply in_map_iff in Hin.
    now destruct Hin as (f & <- & _).
Qed.

Lemma get_branches_sent :
  exists sent,
    wire (snd (get_branches Env github owner repo s)) = wire s ++ sent
    /\ sent_as user sent.
Proof.
  enter.
  destruct (github (env s) (get_request user (branches_url owner repo)))
    as [[e | r] e1]; simpl; [one_sent (get_request user (branches_url owner repo)) |].
  destruct (Response.json r); simpl;
    one_sent (get_request user (branches_url owner repo)).
Qed.

Lemma get_contents_sent (path ref : option string) :
  exists sent,
    wire (snd (get_contents Env github owner repo path ref s)) = wire s ++ sent
    /\ sent_as user sent.
Proof.
  enter.
  destruct (github (env s) (get_request user (listing_url owner repo path ref)))
    as [[e | r] e1]; simpl;
    [one_sent (get_request user (listing_url owner repo path ref)) |].
  destruct (Response.json r); simpl;
    one_sent (get_request user (listing_url owner repo path ref)).
Qed.

Lemma create_pull_sent (body : PullBody) :
  exists sent,
    wire (snd (create_pull Env github owner repo body s)) = wire s ++ sent
    /\ sent_as user sent.
Proof.
  enter.
  destruct (github (env s) (pull_request user owner repo body))
    as [[e | r] e1]; simpl; [one_sent (pull_request user owner repo body) |].
  destruct (Response.json r); simpl; one_sent (pull_request user owner repo body).
Qed.
End Bearer.

(** X11: on a well-formed ledger the upload route and the delete route
    answer 200, 401, 404 or 500, and they answer 200 exactly when they
    have logged one row, at the end of the ledger, for the session user,
    their operation and the path of the request, with status [completed]
    or [failed]; with any other answer the storage is as it was. *)
Theorem single_file_routes_log_iff_200 :
  forall (Env : Type) (github : Env -> Fetch.t -> FetchOutcome * Env)
         (persist : Env -> (Thrown + Date) * Env)
         (s : Sys Env) (owner repo filePath : string),
    ledger_wf (storage s) ->
    (forall body,
        single_file_outcome s
          (snd (upload_file Env github persist owner repo filePath body s))
          (fst (upload_file Env github persist owner repo filePath body s))
          "upload" filePath)
    /\ (forall body,
        single_file_outcome s
          (snd (delete_file Env github persist owner repo filePath body s))
          (fst (delete_file Env github persist owner repo filePath body s))
          "delete" filePath).
Proof.
  intros Env github persist s owner repo filePath Hwf. split; intros body.
  - now apply upload_file_outcome.
  - now apply delete_file_outcome.
Qed.

Lemma single_file_routes_log_iff_200_witness :
  single_file_outcome (Script.start refusing one_user (Some 1))
    (snd (delete_file Script.t Script.github Script.persist "alice" "site"
            "readme.md" (DeleteBody.mk None None None)
            (Script.start refusing one_user (Some 1))))
    (fst (delete_file Script.t Script.github Script.persist "alice" "site"
            "readme.md" (DeleteBody.mk None None None)
            (Script.start refusing one_user (Some 1))))
    "delete" "readme.md".
Proof.
  apply (single_file_routes_log_iff_200 Script.t Script.github Script.persist
           (Script.start refusing one_user (Some 1)) "alice" "site" "readme.md").
  wf_by_computation.
Defined.

(** X12: the upload route does not pass the store's verdict on as a
    status. Once the store has answered with a body that parses, the route
    answers 200 with that body whether the store took the write or
    refused it; the verdict shows in the ledger only, where the row
    logged has status [completed] for a write taken and [failed] for a
    write refused. *)
Theorem store_refusal_is_answered_200 :
  forall (Env : Type) (github : Env -> Fetch.t -> FetchOutcome * Env)
         (persist : Env -> (Thrown + Date) * Env)
         (s : Sys Env) (owner repo filePath : string) (body : PutBody.t)
         (userId : Z) (user : User.t) (r : Response.t) (result : JsVal)
         (content : string) (now : Date) (e1 e2 : Env),
    authenticated (session s) = Some userId ->
    MemStorage.getUser (storage s) userId = Some user ->
    github (env s) (put_request user owner repo filePath body) = (Responded r, e1) ->
    Response.json r = inr result ->
    PutBody.content body = Some content ->
    persist e1 = (inr now, e2) ->
    let out := upload_file Env github persist owner repo filePath body s in
    fst out = inr (Res.mk 200 (Res.Json (Js.jsonify result)))
    /\ NumMap.get (MemStorage.currentOpId (storage s))
                  (MemStorage.fileOperations (storage (snd out)))
       = Some (FileOperation.mk (MemStorage.currentOpId (storage s)) userId 0
                 "upload" (JStr filePath) (Js.default (PutBody.branch body) "main")
                 (if Response.ok r then "completed" else "failed")
                 (JObj [ ("message", Js.of_opt (PutBody.message body));
                         ("size", JNum (Z.of_nat (String.length content))) ])
                 now).
Proof.
  intros. now apply upload_file_passes_on with (user := user) (e1 := e1) (e2 := e2).
Qed.

Lemma store_refusal_is_answered_200_witness :
  fst (upload_file Script.t Script.github Script.persist "alice" "site" "readme.md"
         (PutBody.mk (Some "aGVsbG8=") None None None)
         (Script.start refusing one_user (Some 1)))
  = inr (Res.mk 200 (Res.Json (JObj [("message", JStr "Invalid request")]))).
Proof.
  apply (store_refusal_is_answered_200 Script.t Script.github Script.persist
           (Script.start refusing one_user (Some 1)) "alice" "site" "readme.md"
           (PutBody.mk (Some "aGVsbG8=") None None None) 1 alice
           (Response.mk false (inr (JObj [("message", JStr "Invalid request")])))
           (JObj [("message", JStr "Invalid request")]) "aGVsbG8=" 9000
           (Script.mk [] [inr 9000]) (Script.mk [] []));
    reflexivity.
Defined.

(** X13: an upload whose body has no [content] is still sent to the
    store, as a request without [content], and only then fails: the route
    answers 500 [Failed to upload file] whatever the store has done with
    the request, and logs nothing. *)
Theorem upload_without_content_is_sent_then_fails :
  forall (Env : Type) (github : Env -> Fetch.t -> FetchOutcome * Env)
         (persist : Env -> (Thrown + Date) * Env)
         (s : Sys Env) (owner repo filePath : string) (body : PutBody.t)
         (userId : Z) (user : User.t),
    authenticated (session s) = Some userId ->
    MemStorage.getUser (storage s) userId = Some user ->
    PutBody.content body = None ->
    let out := upload_file Env github persist owner repo filePath body s in
    fst out = inr (Res.mk 500 (Res.Error "Failed to upload file"))
    /\ wire (snd out) = wire s ++ [put_request user owner repo filePath body]
    /\ Js.has_key "content" (Fetch.body (put_request user owner repo filePath body))
       = false
    /\ storage (snd out) = storage s.
Proof.
  intros. now apply upload_file_without_content with (userId := userId).
Qed.

Lemma upload_without_content_is_sent_then_fails_witness :
  fst (upload_file Script.t Script.github Script.persist "alice" "site" "empty.txt"
         (PutBody.mk None None None None)
         (Script.start lenient_store one_user (Some 1)))
  = inr (Res.mk 500 (Res.Error "Failed to upload file")).
Proof.
  apply (upload_without_content_is_sent_then_fails Script.t Script.github
           Script.persist (Script.start lenient_store one_user (Some 1))
           "alice" "site" "empty.txt" (PutBody.mk None None None None) 1 alice);
    reflexivity.
Defined.

(** X14: every request that a guarded route sends to the store for a
    session user is authorised with that user's stored token, and with no
    other. *)
Theorem requests_carry_the_session_users_token :
  forall (Env : Type) (github : Env -> Fetch.t -> FetchOutcome * Env)
         (persist : Env -> (Thrown + Date) * Env)
         (s : Sys Env) (userId : Z) (user : User.t) (owner repo : string),
    authenticated (session s) = Some userId ->
    MemStorage.getUser (storage s) userId = Some user ->
    (forall filePath body, exists sent,
        wire (snd (upload_file Env github persist owner repo filePath body s))
        = wire s ++ sent /\ sent_as user sent)
    /\ (forall filePath body, exists sent,
        wire (snd (delete_file Env github persist owner repo filePath body s))
        = wire s ++ sent /\ sent_as user sent)
    /\ (forall body, exists sent,
        wire (snd (upload_batch Env github persist owner repo body s))
        = wire s ++ sent /\ sent_as user sent)
    /\ (exists sent,
        wire (snd (get_branches Env github owner repo s)) = wire s ++ sent
        /\ sent_as user sent)
    /\ (forall path ref, exists sent,
        wire (snd (get_contents Env github owner repo path ref s)) = wire s ++ sent
        /\ sent_as user sent)
    /\ (forall body, exists sent,
        wire (snd (create_pull Env github owner repo body s)) = wire s ++ sent
        /\ sent_as user sent).
Proof.
  intros Env github persist s userId user owner repo Hauth Huser.
  repeat split; intros.
  - now apply upload_file_sent with (userId := userId).
  - now apply delete_file_sent with (userId := userId).
  - now apply upload_batch_sent with (userId := userId).
  - now apply get_branches_sent with (userId := userId).
  - now apply get_contents_sent with (userId := userId).
  - now apply create_pull_sent with (userId := userId).
Qed.

Lemma requests_carry_the_session_users_token_witness :
  exists sent,
    wire (snd (upload_batch Script.t Script.github Script.persist "alice" "site"
                 (batch_of [readme; index_ts])
                 (Script.start fair_weather one_user (Some 1))))
    = [] ++ sent
    /\ sent_as alice sent.
Proof.
  destruct (requests_carry_the_session_users_token Script.t Script.github
              Script.persist (Script.start fair_weather one_user (Some 1))
              1 alice "alice" "site" eq_refl eq_refl) as (_ & _ & Hbatch & _).
  exact (Hbatch (batch_of [readme; index_ts])).
Defined.

(** X15: the routes that list branches, list contents and open a pull
    request change neither the storage nor the session, whatever the
    store answers; and the listing of contents passes the body of the
    store's answer on under 200 whatever the status of that answer. *)
Theorem reading_routes_store_nothing :
  forall (Env : Type) (github : Env -> Fetch.t -> FetchOutcome * Env)
         (s : Sys Env) (owner repo : string),
    (storage (snd (get_branches Env github owner repo s)) = storage s
     /\ session (snd (get_branches Env github owner repo s)) = session s)
    /\ (forall path ref,
          storage (snd (get_contents Env github owner repo path ref s)) = storage s
          /\ session (snd (get_contents Env github owner repo path ref s)) = session s)
    /\ (forall body,
          storage (snd (create_pull Env github owner repo body s)) = storage s
          /\ session (snd (create_pull Env github owner repo body s)) = session s)
    /\ (forall path ref userId user r contents e1,
          authenticated (session s) = Some userId ->
          MemStorage.getUser (storage s) userId = Some user ->
          github (env s) (get_request user (listing_url owner repo path ref))
          = (Responded r, e1) ->
          Response.json r = inr contents ->
          fst (get_contents Env github owner repo path ref s)
          = inr (Res.mk 200 (Res.Json (Js.jsonify contents)))).
Proof.
  intros Env github s owner repo. repeat split; intros.
  - apply get_branches_reads.
  - apply get_branches_reads.
  - apply get_contents_reads.
  - apply get_contents_reads.
  - apply create_pull_reads.
  - apply create_pull_reads.
  - now apply get_contents_passes_on with (userId := userId) (user := user) (r := r) (e1 := e1).
Qed.

Lemma reading_routes_store_nothing_witness :
  fst (get_contents Script.t Script.github "alice" "site" None None
         (Script.start refusing one_user (Some 1)))
  = inr (Res.mk 200 (Res.Json (JObj [("message", JStr "Invalid request")]))).
Proof.
  destruct (reading_routes_store_nothing Script.t Script.github
              (Script.start refusing one_user (Some 1)) "alice" "site")
    as (_ & _ & _ & Hpass).
  apply (Hpass None None 1 alice
               (Response.mk false (inr (JObj [("message", JStr "Invalid request")])))
               (JObj [("message", JStr "Invalid request")])
               (Script.mk [] [inr 9000])); reflexivity.
Defined.

(* ------------------------------------------------------------------ *)
(** * Signing in with a token *)

Lemma same_user_object (u : User.t) :
  Js.jsonify (JObj (Js.remove_field "accessToken" (Js.spread (User.to_js u))))
  = Js.jsonify (masked_user (Some u)).
Proof.
  unfold masked_user, User.to_js. simpl.
  destruct (User.email u), (User.avatarUrl u); reflexivity.
Qed.

Lemma getUserByGithubId_stored (st : MemStorage.t) (githubId : string) (u : User.t) :
  store_wf st ->
  MemStorage.getUserByGithubId st githubId = Some u ->
  MemStorage.getUser st (User.id u) = Some u /\ 0 < User.id u.
Proof.
  intros [(Hpos & Hnd & Hall) _] Hfind.
  unfold MemStorage.getUserByGithubId, NumMap.values in Hfind.
  apply find_some in Hfind. destruct Hfind as [Hin _].
  apply in_map_iff in Hin. destruct Hin as ([k v] & Heq & Hin).
  simpl in Heq. subst v.
  rewrite Forall_forall in Hall. destruct (Hall _ Hin) as (Hk & _ & Hid).
  simpl in Hk, Hid. rewrite Hid. split; trivial.
  now apply NumMap_in_get.
Qed.

Lemma authenticated_positive (id : Z) : 0 < id -> authenticated (Some id) = Some id.
Proof.
  intros H. simpl. destruct (Z.eqb_spec id 0); [lia | reflexivity].
Qed.

Lemma githubIds_after_rewrite (k : Z) (v old : User.t) (m : list (Z * User.t)) :
  NumMap.get k m = Some old ->
  User.githubId v = User.githubId old ->
  map User.githubId (NumMap.values (NumMap.set k v m))
  = map User.githubId (NumMap.values m).
Proof.
  intros Hget Hg. unfold NumMap.values.
  induction m as [|[k' v'] m IH]; simpl in *; [discriminate |].
  destruct (Z.eqb_spec k k') as [-> | _]; simpl.
  - injection Hget as ->. now rewrite Hg.
  - f_equal. now apply IH.
Qed.

Lemma parse_new_user_fields (githubId : string) (githubUser : JsVal)
      (token : string) (newUser : InsertUser.t) :
  parse_new_user githubId githubUser token = inr newUser ->
  InsertUser.githubId newUser = githubId /\ InsertUser.accessToken newUser = token.
Proof.
  unfold parse_new_user. intros Hparse.
  destruct (Js.get_prop githubUser "login") as [? | [ | | | | login | | ]];
    destruct (Js.get_prop githubUser "email") as [? | email];
    destruct (Js.get_prop githubUser "avatar_url") as [? | avatar];
    try discriminate Hparse.
  destruct (parse_nullable email), (parse_nullable avatar); try discriminate Hparse.
  injection Hparse as <-. now split.
Qed.

Section SignIn.
Variable Env : Type.
Variable github : Env -> Fetch.t -> FetchOutcome * Env.
Variable persist : Env -> (Thrown + Date) * Env.

(** What a successful sign-in has established. *)
Lemma auth_token_success (s s' : Sys Env) (token : option string) (j : JsVal) :
  store_wf (storage s) ->
  auth_token Env github persist token s = (inr (Res.json (Res.AuthSuccess j)), s') ->
  exists u,
    token = Some (User.accessToken u)
    /\ session s' = Some (User.id u)
    /\ authenticated (session s') = Some (User.id u)
    /\ MemStorage.getUser (storage s') (User.id u) = Some u
    /\ j = Js.jsonify (masked_user (Some u))
    /\ store_wf (storage s').
Proof.
  intros Hwf. unfold auth_token, Exec.try_catch, Exec.bind.
  destruct token as [token|]; simpl; [| discriminate].
  destruct (token =? "")%string; simpl; [discriminate |].
  unfold fetch.
  destruct (github (env s) (user_info_request token)) as [[e | r] e1];
    simpl; [discriminate |].
  destruct (Response.ok r); simpl; [| discriminate].
  unfold Exec.eval.
  destruct (Response.json r) as [e | githubUser]; simpl; [discriminate |].
  destruct (github_id githubUser) as [e | githubId]; simpl; [discriminate |].
  unfold storage_getUserByGithubId, Exec.gets. simpl.
  destruct (MemStorage.getUserByGithubId (storage s) githubId) as [existing|] eqn:Hfind;
    simpl.
  - destruct (getUserByGithubId_stored _ _ _ Hwf Hfind) as [Hget Hpos].
    pose proof (call_keeps_wf (storage s) (UpdateUserToken (User.id existing) token) Hwf)
      as Hwf'.
    unfold storage_updateUserToken. simpl in *.
    unfold MemStorage.updateUserToken in *. unfold MemStorage.getUser in Hget.
    rewrite Hget in *. simpl in *.
    intros [= <- <-].
    exists (User.mk (User.id existing) (User.githubId existing)
              (User.username existing) (User.email existing)
              (User.avatarUrl existing) token (User.createdAt existing)).
    simpl. split; [reflexivity |]. split; [reflexivity |].
    split; [now apply authenticated_positive |].
    split; [apply NumMap_get_set_same |]. now split.
  - destruct (parse_new_user githubId githubUser token) as [e | newUser] eqn:Hparse;
      simpl; [discriminate |].
    apply parse_new_user_fields in Hparse. destruct Hparse as [_ Htoken].
    unfold storage_createUser. cbn [env storage session wire].
    destruct (persist e1) as [[e | now] e2]; [simpl; discriminate |].
    pose proof (call_keeps_wf (storage s) (CreateUser newUser now) Hwf) as Hwf'.
    simpl in Hwf'. simpl.
    intros [= <- <-].
    exists (User.mk (MemStorage.currentUserId (storage s))
              (InsertUser.githubId newUser) (InsertUser.username newUser)
              (MemStorage.or_null (InsertUser.email newUser))
              (MemStorage.or_null (InsertUser.avatarUrl newUser))
              (InsertUser.accessToken newUser) now).
    simpl. split; [now rewrite Htoken |]. split; [reflexivity |].
    split; [apply authenticated_positive; now destruct Hwf as [(Hpos & _) _] |].
    split; [apply NumMap_get_set_same |]. now split.
Qed.

(** A sign-in that does not succeed has left the storage and the session
    alone. *)
Lemma auth_token_failure (s : Sys Env) (token : option string) :
  let out := auth_token Env github persist token s in
  (exists j, fst out = inr (Res.json (Res.AuthSuccess j)))
  \/ (storage (snd out) = storage s
      /\ session (snd out) = session s
      /\ exists code message,
           fst out = inr (Res.mk code (Res.Error message))
           /\ In code [400; 401; 500]).
Proof.
  unfold auth_token, Exec.try_catch, Exec.bind.
  destruct token as [token|]; simpl.
  2:{ right. repeat split. exists 400, "Token is required". simpl. tauto. }
  destruct (token =? "")%string; simpl.
  { right. repeat split. exists 400, "Token is required". simpl. tauto. }
  unfold fetch.
  destruct (github (env s) (user_info_request token)) as [[e | r] e1]; simpl.
  { right. repeat split. exists 500, "Authentication failed". simpl. tauto. }
  destruct (Response.ok r); simpl.
  2:{ right. repeat split. exists 401, "Invalid token". simpl. tauto. }
  unfold Exec.eval.
  destruct (Response.json r) as [e | githubUser]; simpl.
  { right. repeat split. exists 500, "Authentication failed". simpl. tauto. }
  destruct (github_id githubUser) as [e | githubId]; simpl.
  { right. repeat split. exists 500, "Authentication failed". simpl. tauto. }
  unfold storage_getUserByGithubId, Exec.gets. simpl.
  destruct (MemStorage.getUserByGithubId (storage s) githubId) as [existing|]; simpl.
  - unfold storage_updateUserToken. simpl.
    destruct (MemStorage.updateUserToken (storage s) (User.id existing) token)
      as [updated st']; simpl.
    left. eexists. reflexivity.
  - destruct (parse_new_user githubId githubUser token) as [e | newUser]; simpl.
    { right. repeat split. exists 500, "Authentication failed". simpl. tauto. }
    unfold storage_createUser. cbn [env storage session wire].
    destruct (persist e1) as [[e | now] e2].
    { right. simpl. repeat split. exists 500, "Authentication failed". simpl. tauto. }
    destruct (MemStorage.createUser (storage s) newUser now) as [created st'].
    left. simpl. eexists. reflexivity.
Qed.

(** A sign-in, whatever comes of it, keeps the github ids of the stored
    users distinct. *)
Lemma auth_token_distinct (s : Sys Env) (token : option string) :
  store_wf (storage s) ->
  distinct_github_ids (storage s) ->
  distinct_github_ids (storage (snd (auth_token Env github persist token s)))
  /\ store_wf (storage (snd (auth_token Env github persist token s))).
Proof.
  intros Hwf Hd. unfold auth_token, Exec.try_catch, Exec.bind.
  destruct token as [token|]; simpl; [| now split].
  destruct (token =? "")%string; simpl; [now split |].
  unfold fetch.
  destruct (github (env s) (user_info_request token)) as [[e | r] e1];
    simpl; [now split |].
  destruct (Response.ok r); simpl; [| now split].
  unfold Exec.eval.
  destruct (Response.json r) as [e | githubUser]; simpl; [now split |].
  destruct (github_id githubUser) as [e | githubId]; simpl; [now split |].
  unfold storage_getUserByGithubId, Exec.gets. simpl.
  destruct (MemStorage.getUserByGithubId (storage s) githubId) as [existing|] eqn:Hfind;
    simpl.
  - destruct (getUserByGithubId_stored _ _ _ Hwf Hfind) as [Hget _].
    pose proof (call_keeps_wf (storage s) (UpdateUserToken (User.id existing) token) Hwf)
      as Hwf'.
    unfold storage_updateUserToken. simpl in *.
    unfold MemStorage.updateUserToken in *. unfold MemStorage.getUser in Hget.
    rewrite Hget in *. simpl in *. split; trivial.
    unfold distinct_github_ids in *. simpl.
    now rewrite (githubIds_after_rewrite _ _ existing _ Hget).
  - destruct (parse_new_user githubId githubUser token) as [e | newUser] eqn:Hparse;
      simpl; [now split |].
    apply parse_new_user_fields in Hparse. destruct Hparse as [Hgid _].
    unfold storage_createUser. cbn [env storage session wire].
    destruct (persist e1) as [[e | now] e2]; [simpl; now split |].
    pose proof (call_keeps_wf (storage s) (CreateUser newUser now) Hwf) as Hwf'.
    simpl in Hwf'. simpl. split; trivial.
    unfold distinct_github_ids in *. simpl.
    destruct Hwf as [Hu _].
    destruct (keyed_insert User.id (MemStorage.currentUserId (storage s))
                (User.mk (MemStorage.currentUserId (storage s))
                   (InsertUser.githubId newUser) (InsertUser.username newUser)
                   (MemStorage.or_null (InsertUser.email newUser))
                   (MemStorage.or_null (InsertUser.avatarUrl newUser))
                   (InsertUser.accessToken newUser) now)
                (MemStorage.users (storage s)) Hu eq_refl) as [-> _].
    unfold NumMap.values in *. rewrite !map_app. simpl.
    apply NoDup_app; trivial.
    + constructor; [simpl; tauto | constructor].
    + intros g Hin [<- | []]. rewrite Hgid in Hin.
      unfold MemStorage.getUserByGithubId, NumMap.values in Hfind.
      apply in_map_iff in Hin. destruct Hin as (u & Hu' & Hin).
      pose proof (find_none _ _ Hfind u Hin) as Hno. simpl in Hno.
      rewrite Hu', String.eqb_refl in Hno. discriminate Hno.
Qed.
End SignIn.

(** A stored user signs in again with a new token; a newcomer signs in. *)
Example sign_in_again :
  let out := auth_token Script.t Script.github Script.persist (Some "ghp_fresh")
               (Script.start
                  (Script.mk [ Script.created
                                 (JObj [("id", JNum 583231); ("login", JStr "alice")]) ] [])
                  one_user None) in
  session (snd out) = Some 1
  /\ option_map User.accessToken (MemStorage.getUser (storage (snd out)) 1)
     = Some "ghp_fresh".
Proof. split; reflexivity. Qed.

(** X16: on a well-formed storage a successful sign-in with a token
    leaves the session signed in as a stored user whose stored token is
    the token sent, and the user object of the answer is the one
    [GET /api/user] then gives for that session. *)
Theorem token_sign_in_opens_the_session :
  forall (Env : Type) (github : Env -> Fetch.t -> FetchOutcome * Env)
         (persist : Env -> (Thrown + Date) * Env)
         (s s' : Sys Env) (token : option string) (j : JsVal),
    store_wf (storage s) ->
    auth_token Env github persist token s = (inr (Res.json (Res.AuthSuccess j)), s') ->
    (exists u,
        token = Some (User.accessToken u)
        /\ authenticated (session s') = Some (User.id u)
        /\ MemStorage.getUser (storage s') (User.id u) = Some u)
    /\ get_user Env s' = (inr (Res.json (Res.Json j)), s')
    /\ store_wf (storage s').
Proof.
  intros Env github persist s s' token j Hwf Hrun.
  destruct (auth_token_success Env github persist s s' token j Hwf Hrun)
    as (u & Htoken & _ & Hauth & Hget & Hj & Hwf').
  split; [now exists u |]. split; trivial.
  unfold get_user, Exec.try_catch, Exec.bind, Exec.gets, storage_getUser, Exec.gets.
  rewrite Hauth. simpl. rewrite Hget. simpl.
  rewrite Hj, <- same_user_object. reflexivity.
Qed.

Lemma token_sign_in_opens_the_session_witness :
  exists s' j,
    auth_token Script.t Script.github Script.persist (Some "ghp_fresh")
      (Script.start
         (Script.mk [ Script.created
                        (JObj [("id", JNum 583231); ("login", JStr "alice")]) ] [])
         one_user None)
    = (inr (Res.json (Res.AuthSuccess j)), s')
    /\ get_user Script.t s' = (inr (Res.json (Res.Json j)), s').
Proof.
  eexists. eexists. split; [reflexivity |].
  assert (Hwf : store_wf one_user) by wf_by_computation.
  apply (token_sign_in_opens_the_session Script.t Script.github Script.persist
           (Script.start
              (Script.mk [ Script.created
                             (JObj [("id", JNum 583231); ("login", JStr "alice")]) ] [])
              one_user None)
           _ (Some "ghp_fresh") _ Hwf eq_refl).
Defined.

(** X17: a sign-in that is not answered with success has changed neither
    the storage nor the session, and is answered 400, 401 or 500; without
    a token, or with the empty one, it is answered 400 before any request
    goes out. *)
Theorem failed_sign_in_changes_nothing :
  forall (Env : Type) (github : Env -> Fetch.t -> FetchOutcome * Env)
         (persist : Env -> (Thrown + Date) * Env) (s : Sys Env),
    (forall token,
        let out := auth_token Env github persist token s in
        (exists j, fst out = inr (Res.json (Res.AuthSuccess j)))
        \/ (storage (snd out) = storage s
            /\ session (snd out) = session s
            /\ exists code message,
                 fst out = inr (Res.mk code (Res.Error message))
                 /\ In code [400; 401; 500]))
    /\ auth_token Env github persist None s
       = (inr (Res.mk 400 (Res.Error "Token is required")), s)
    /\ auth_token Env github persist (Some "") s
       = (inr (Res.mk 400 (Res.Error "Token is required")), s).
Proof.
  intros Env github persist s. split; [| split; reflexivity].
  intros token. apply auth_token_failure.
Qed.

(** X18: [MemStorage] does not keep github ids apart, the sign-in does:
    on a well-formed storage whose users have distinct github ids, they
    are distinct after a sign-in too, whatever the token and whatever the
    store answers, and the storage is still well formed. *)
Theorem sign_in_keeps_github_ids_distinct :
  forall (Env : Type) (github : Env -> Fetch.t -> FetchOutcome * Env)
         (persist : Env -> (Thrown + Date) * Env)
         (s : Sys Env) (token : option string),
    store_wf (storage s) ->
    distinct_github_ids (storage s) ->
    distinct_github_ids (storage (snd (auth_token Env github persist token s)))
    /\ store_wf (storage (snd (auth_token Env github persist token s))).
Proof.
  intros. now apply auth_token_distinct.
Qed.

Lemma sign_in_keeps_github_ids_distinct_witness :
  distinct_github_ids
    (storage (snd (auth_token Script.t Script.github Script.persist (Some "ghp_bob")
                     (Script.start
                        (Script.mk [ Script.created
                                       (JObj [("id", JNum 77); ("login", JStr "bob")]) ]
                                   [ inr 2000 ])
                        one_user None)))).
Proof.
  apply (sign_in_keeps_github_ids_distinct Script.t Script.github Script.persist
           (Script.start
              (Script.mk [ Script.created
                             (JObj [("id", JNum 77); ("login", JStr "bob")]) ]
                         [ inr 2000 ])
              one_user None) (Some "ghp_bob")).
  - wf_by_computation.
  - unfold distinct_github_ids. simpl. repeat constructor. simpl. tauto.
Defined.

(* ------------------------------------------------------------------ *)
(** * What a batch leaves in the ledger *)

Section BatchLedger.
Variable Env : Type.
Variable github : Env -> Fetch.t -> FetchOutcome * Env.
Variable persist : Env -> (Thrown + Date) * Env.
Variables (userId : Z) (user : User.t) (owner repo branch : string).
Variable message : option string.


End BatchLedger.



(* ------------------------------------------------------------------ *)
(** * Syncing the repositories *)

Lemma github_id_object (repo : JsVal) (githubId : string) :
  github_id repo = inr githubId -> exists fields, repo = JObj fields.
Proof.
  destruct repo; try discriminate. intros _. now eexists.
Qed.

Lemma sync_step_refl (userId : Z) (r : MemRepositories.t) :
  repos_wf r -> sync_step userId r r.
Proof.
  intros Hwf. split; trivial. split; [| trivial].
  exists []. rewrite app_nil_r. split; [reflexivity | constructor].
Qed.

Lemma sync_step_trans (userId : Z) (r1 r2 r3 : MemRepositories.t) :
  sync_step userId r1 r2 -> sync_step userId r2 r3 -> sync_step userId r1 r3.
Proof.
  intros (_ & (a12 & H12 & Hu12) & Hd12) (Hwf & (a23 & H23 & Hu23) & Hd23).
  split; trivial. split; [| tauto].
  exists (a12 ++ a23). rewrite H23, H12, app_assoc. split; trivial.
  now apply Forall_app.
Qed.

Lemma sync_step_rows (userId u : Z) (r r' : MemRepositories.t) :
  sync_step userId r r' ->
  exists added,
    MemRepositories.getUserRepositories r' u
    = MemRepositories.getUserRepositories r u ++ added
    /\ (u <> userId -> added = []).
Proof.
  intros (_ & (added & Happ & Hu) & _).
  unfold MemRepositories.getUserRepositories, NumMap.values.
  rewrite Happ, map_app, filter_app. eexists. split; [reflexivity |].
  intros Hne. clear Happ. induction Hu as [|row added Hrow _ IH]; simpl; trivial.
  rewrite Hrow. destruct (Z.eqb_spec userId u); [congruence | exact IH].
Qed.

Lemma stored_for_kept (userId : Z) (r r' : MemRepositories.t) (repo : JsVal) :
  sync_step userId r r' -> stored_for userId r repo -> stored_for userId r' repo.
Proof.
  intros Hstep (g & row & Hg & Hin & Hrow).
  destruct (sync_step_rows userId userId r r' Hstep) as (added & Hrows & _).
  exists g, row. rewrite Hrows. split; trivial. split; trivial.
  apply in_or_app. now left.
Qed.

(** One repository more for [userId], under a github id the user does
    not have yet. *)
Lemma sync_step_create (r : MemRepositories.t) (ins : InsertRepository.t) :
  repos_wf r ->
  find (fun row => (Repository.githubId row =? InsertRepository.githubId ins)%string)
       (MemRepositories.getUserRepositories r (InsertRepository.userId ins)) = None ->
  sync_step (InsertRepository.userId ins) r
            (snd (MemRepositories.createRepository r ins)).
Proof.
  intros Hwf Hfind. simpl.
  set (row := Repository.mk (MemRepositories.currentRepoId r)
                (InsertRepository.userId ins) (InsertRepository.githubId ins)
                (InsertRepository.name ins) (InsertRepository.fullName ins)
                (MemRepositories.nullish (InsertRepository.private ins) (JBool false))
                (MemRepositories.nullish (InsertRepository.defaultBranch ins) (JStr "main"))
                None).
  destruct (keyed_insert Repository.id (MemRepositories.currentRepoId r) row
              (MemRepositories.repositories r) Hwf eq_refl) as [Happ Hk].
  split; [exact Hk |]. split.
  - exists [(MemRepositories.currentRepoId r, row)]. simpl.
    split; [exact Happ | repeat constructor].
  - intros Hd u. unfold MemRepositories.getUserRepositories, NumMap.values. simpl.
    rewrite Happ, map_app, filter_app, map_app. simpl.
    destruct (Z.eqb_spec (InsertRepository.userId ins) u) as [<- | _]; simpl.
    + apply NoDup_app.
      * apply Hd.
      * constructor; [simpl; tauto | constructor].
      * intros g Hin [<- | []]. apply in_map_iff in Hin.
        destruct Hin as (row' & Hg & Hin).
        pose proof (find_none _ _ Hfind row' Hin) as Hno. simpl in Hno.
        rewrite Hg, String.eqb_refl in Hno. discriminate Hno.
    + rewrite app_nil_r. apply Hd.
Qed.

Section Sync.
Variable Env : Type.
Variable github : Env -> Fetch.t -> FetchOutcome * Env.
Variable persist : Env -> (Thrown + Date) * Env.
Variable userId : Z.

(** One turn of the loop of the repository route. *)
Ltac five :=
  split; [reflexivity | split; [reflexivity | split; [reflexivity | split]]].

Lemma sync_one_step (repo : JsVal) (f : Full Env) :
  repos_wf (snd f) ->
  let out := sync_one Env persist userId repo f in
  storage (fst (snd out)) = storage (fst f)
  /\ session (fst (snd out)) = session (fst f)
  /\ wire (fst (snd out)) = wire (fst f)
  /\ sync_step userId (snd f) (snd (snd out))
  /\ (fst out = inr tt -> stored_for userId (snd (snd out)) repo).
Proof.
  intros Hwf. destruct f as [s r]. simpl in Hwf.
  unfold sync_one, Exec.bind, storage_getUserRepositories, Exec.gets, Exec.eval.
  simpl.
  destruct (github_id repo) as [e | g] eqn:Hg; simpl.
  { five; [now apply sync_step_refl | discriminate]. }
  destruct (github_id_object _ _ Hg) as (fields & ->).
  destruct (find _ (MemRepositories.getUserRepositories r userId)) as [row|] eqn:Hfind;
    simpl.
  { five; [now apply sync_step_refl |].
    intros _. apply find_some in Hfind. destruct Hfind as [Hin Heq].
    exists g, row. repeat split; trivial. now apply String.eqb_eq. }
  unfold storage_createRepository. simpl.
  destruct (persist (env s)) as [[e | now] e1]; simpl.
  { five; [now apply sync_step_refl | discriminate]. }
  pose (prop := fun k => match Js.assoc k fields with
                         | Some x => x
                         | None => JUndefined
                         end).
  pose (ins := InsertRepository.mk userId g (prop "name") (prop "full_name")
                 (prop "private") (prop "default_branch")).
  five.
  - exact (sync_step_create r ins Hwf Hfind).
  - intros _. exists g, (fst (MemRepositories.createRepository r ins)).
    split; [exact Hg |]. split; [| reflexivity].
    unfold MemRepositories.getUserRepositories, NumMap.values. simpl.
    apply filter_In. split.
    + apply in_map_iff. eexists (_, _). split; [reflexivity |].
      apply NumMap_in_set_self.
    + simpl. apply Z.eqb_refl.
Qed.

Lemma sync_all_step (items : list JsVal) (f : Full Env) :
  repos_wf (snd f) ->
  let out := Exec.for_of items (sync_one Env persist userId) f in
  storage (fst (snd out)) = storage (fst f)
  /\ session (fst (snd out)) = session (fst f)
  /\ wire (fst (snd out)) = wire (fst f)
  /\ sync_step userId (snd f) (snd (snd out))
  /\ (fst out = inr tt ->
      Forall (stored_for userId (snd (snd out))) items).
Proof.
  revert f. induction items as [|repo items IH]; intros f Hwf; simpl.
  - five; [now apply sync_step_refl | constructor].
  - unfold Exec.bind.
    pose proof (sync_one_step repo f Hwf) as Hone. cbv zeta in Hone.
    destruct (sync_one Env persist userId repo f) as [[e | []] f1]; simpl in *.
    + destruct Hone as (H1 & H2 & H3 & H4 & _).
      split; [exact H1 |]. split; [exact H2 |]. split; [exact H3 |].
      split; [exact H4 | discriminate].
    + destruct Hone as (H1 & H2 & H3 & H4 & H5).
      assert (Hwf1 : repos_wf (snd f1)) by apply H4.
      specialize (IH f1 Hwf1). cbv zeta in IH.
      destruct IH as (I1 & I2 & I3 & I4 & I5).
      split; [congruence |]. split; [congruence |]. split; [congruence |].
      split; [now apply sync_step_trans with (snd f1) |].
      intros Hok. constructor; [| now apply I5].
      apply stored_for_kept with (snd f1); trivial. now apply H5.
Qed.

(** A listing all of whose repositories are stored leaves everything as
    it is. *)
Lemma sync_all_nothing_new (items : list JsVal) (f : Full Env) :
  Forall (stored_for userId (snd f)) items ->
  Exec.for_of items (sync_one Env persist userId) f = (inr tt, f).
Proof.
  induction 1 as [|repo items (g & row & Hg & Hin & Hrow) _ IH]; simpl; trivial.
  unfold Exec.bind.
  assert (Hone : sync_one Env persist userId repo f = (inr tt, f)).
  { unfold sync_one, Exec.bind, storage_getUserRepositories, Exec.gets, Exec.eval.
    simpl. rewrite Hg. simpl.
    destruct (find _ (MemRepositories.getUserRepositories (snd f) userId))
      as [found|] eqn:Hfind; trivial.
    pose proof (find_none _ _ Hfind row Hin) as Hno. simpl in Hno.
    rewrite Hrow, String.eqb_refl in Hno. discriminate Hno. }
  now rewrite Hone.
Qed.

Ltac settled :=
  split; [reflexivity |]; split; [reflexivity |];
  split; [now apply sync_step_refl |];
  eexists; split; [reflexivity |]; simpl; tauto.

Ltac open_sync :=
  unfold get_repositories, on_sys, Exec.zoom, Exec.try_catch, Exec.bind, Exec.gets,
    Exec.eval, Exec.ret, storage_getUser, fetch; simpl.

(** The route, from the answer of api.github.com on, in terms of its
    loop. *)
Lemma get_repositories_run (s : Sys Env) (r : MemRepositories.t) (user : User.t)
      (resp : Response.t) (githubRepos : JsVal) (items : list JsVal) (e1 : Env) :
  authenticated (session s) = Some userId ->
  MemStorage.getUser (storage s) userId = Some user ->
  github (env s) (repos_request user) = (Responded resp, e1) ->
  Response.json resp = inr githubRepos ->
  iterate githubRepos = inr items ->
  let sent := mkSys e1 (storage s) (session s) (wire s ++ [repos_request user]) in
  let loop := Exec.for_of items (sync_one Env persist userId) (sent, r) in
  get_repositories Env github persist (s, r)
  = match fst loop with
    | inr _ => (inr (Res.json (Res.Json (Js.jsonify githubRepos))), snd loop)
    | inl _ => (inr (Res.mk 500 (Res.Error "Failed to fetch repositories")), snd loop)
    end.
Proof.
  intros Hauth Huser Hgithub Hjson Hiter sent loop. subst loop sent.
  open_sync. rewrite Hauth. simpl. rewrite Huser. simpl. rewrite Hgithub. simpl.
  rewrite Hjson. simpl. rewrite Hiter. simpl.
  destruct (Exec.for_of items _ _) as [[e | []] f1]; reflexivity.
Qed.

Lemma get_repositories_no_listing (s : Sys Env) (r : MemRepositories.t)
      (user : User.t) (o : FetchOutcome) (e1 : Env) :
  authenticated (session s) = Some userId ->
  MemStorage.getUser (storage s) userId = Some user ->
  github (env s) (repos_request user) = (o, e1) ->
  no_listing o ->
  get_repositories Env github persist (s, r)
  = (inr (Res.mk 500 (Res.Error "Failed to fetch repositories")),
     (mkSys e1 (storage s) (session s) (wire s ++ [repos_request user]), r)).
Proof.
  intros Hauth Huser Hgithub Hno.
  open_sync. rewrite Hauth. simpl. rewrite Huser. simpl. rewrite Hgithub. simpl.
  destruct o as [e | resp]; simpl in *; trivial.
  destruct (Response.json resp) as [e | githubRepos]; simpl; trivial.
  destruct (iterate githubRepos) as [e | items]; simpl; [reflexivity | contradiction].
Qed.

Lemma get_repositories_step (s : Sys Env) (r : MemRepositories.t) :
  repos_wf r ->
  authenticated (session s) = Some userId ->
  let out := get_repositories Env github persist (s, r) in
  storage (fst (snd out)) = storage s
  /\ session (fst (snd out)) = session s
  /\ sync_step userId r (snd (snd out))
  /\ exists res, fst out = inr res /\ In (Res.status res) [200; 404; 500].
Proof.
  intros Hwf Hauth out. subst out.
  destruct (MemStorage.getUser (storage s) userId) as [user|] eqn:Huser.
  2:{ open_sync. rewrite Hauth. simpl. rewrite Huser. simpl.
      settled. }
  destruct (github (env s) (repos_request user)) as [o e1] eqn:Hgithub.
  assert (Hno : no_listing o ->
          storage (fst (snd (get_repositories Env github persist (s, r)))) = storage s
          /\ session (fst (snd (get_repositories Env github persist (s, r)))) = session s
          /\ sync_step userId r (snd (snd (get_repositories Env github persist (s, r))))
          /\ exists res, fst (get_repositories Env github persist (s, r)) = inr res
                         /\ In (Res.status res) [200; 404; 500]).
  { intros Hno.
    rewrite (get_repositories_no_listing s r user o e1 Hauth Huser Hgithub Hno). simpl.
    settled. }
  destruct o as [e | resp]; [now apply Hno |].
  destruct (Response.json resp) as [e | githubRepos] eqn:Hjson;
    [apply Hno; simpl; now rewrite Hjson |].
  destruct (iterate githubRepos) as [e | items] eqn:Hiter;
    [apply Hno; simpl; now rewrite Hjson, Hiter |].
  clear Hno.
  rewrite (get_repositories_run s r user resp githubRepos items e1
             Hauth Huser Hgithub Hjson Hiter).
  pose proof (sync_all_step items
                (mkSys e1 (storage s) (session s) (wire s ++ [repos_request user]), r)
                Hwf) as Hloop.
  cbv zeta in Hloop. simpl in Hloop.
  destruct Hloop as (H1 & H2 & _ & H4 & _).
  destruct (fst (Exec.for_of items _ _)) as [e | []]; simpl;
    (split; [exact H1 |]; split; [exact H2 |]; split; [exact H4 |];
     eexists; split; [reflexivity |]; simpl; tauto).
Qed.

Lemma get_repositories_stores (s : Sys Env) (r : MemRepositories.t) (user : User.t)
      (resp : Response.t) (items : list JsVal) (e1 : Env) (res : Res.t) :
  repos_wf r ->
  authenticated (session s) = Some userId ->
  MemStorage.getUser (storage s) userId = Some user ->
  github (env s) (repos_request user) = (Responded resp, e1) ->
  Response.json resp = inr (JArr items) ->
  fst (get_repositories Env github persist (s, r)) = inr res ->
  Res.status res = 200 ->
  Res.payload res = Res.Json (Js.jsonify (JArr items))
  /\ Forall (stored_for userId (snd (snd (get_repositories Env github persist (s, r)))))
            items.
Proof.
  intros Hwf Hauth Huser Hgithub Hjson.
  rewrite (get_repositories_run s r user resp (JArr items) items e1
             Hauth Huser Hgithub Hjson eq_refl).
  pose proof (sync_all_step items
                (mkSys e1 (storage s) (session s) (wire s ++ [repos_request user]), r)
                Hwf) as Hloop.
  cbv zeta in Hloop. simpl in Hloop.
  destruct Hloop as (_ & _ & _ & _ & H5).
  destruct (fst (Exec.for_of items _ _)) as [e | []]; simpl; intros Hres Hstatus.
  - injection Hres as <-. discriminate Hstatus.
  - injection Hres as <-. split; [reflexivity | now apply H5].
Qed.

Lemma get_repositories_again (s : Sys Env) (r : MemRepositories.t) (user : User.t)
      (resp : Response.t) (items : list JsVal) (e1 : Env) :
  authenticated (session s) = Some userId ->
  MemStorage.getUser (storage s) userId = Some user ->
  github (env s) (repos_request user) = (Responded resp, e1) ->
  Response.json resp = inr (JArr items) ->
  Forall (stored_for userId r) items ->
  get_repositories Env github persist (s, r)
  = (inr (Res.json (Res.Json (Js.jsonify (JArr items)))),
     (mkSys e1 (storage s) (session s) (wire s ++ [repos_request user]), r)).
Proof.
  intros Hauth Huser Hgithub Hjson Hall.
  rewrite (get_repositories_run s r user resp (JArr items) items e1
             Hauth Huser Hgithub Hjson eq_refl).
  now rewrite sync_all_nothing_new.
Qed.

End Sync.

(** X20: the repository route, for a session user, changes neither the
    users nor the ledger nor the session; to the repositories it only
    adds rows, at the end and for that user, keeps the map well formed
    and keeps the github ids of each user's repositories distinct; and it
    answers 200, 404 or 500. *)
Theorem repository_sync_only_appends :
  forall (Env : Type) (github : Env -> Fetch.t -> FetchOutcome * Env)
         (persist : Env -> (Thrown + Date) * Env)
         (s : Sys Env) (r : MemRepositories.t) (userId : Z),
    repos_wf r ->
    authenticated (session s) = Some userId ->
    storage (fst (snd (get_repositories Env github persist (s, r)))) = storage s
    /\ session (fst (snd (get_repositories Env github persist (s, r)))) = session s
    /\ sync_step userId r (snd (snd (get_repositories Env github persist (s, r))))
    /\ exists res,
         fst (get_repositories Env github persist (s, r)) = inr res
         /\ In (Res.status res) [200; 404; 500].
Proof.
  intros Env github persist s r userId Hwf Hauth.
  exact (get_repositories_step Env github persist userId s r Hwf Hauth).
Qed.

Lemma repository_sync_only_appends_witness :
  sync_step 1 both_stored
    (snd (snd (get_repositories Script.t Script.github Script.persist
                 (Script.start two_repositories one_user (Some 1), both_stored)))).
Proof.
  assert (Hwf : repos_wf both_stored) by wf_by_computation.
  destruct (repository_sync_only_appends Script.t Script.github Script.persist
              (Script.start two_repositories one_user (Some 1)) both_stored 1
              Hwf eq_refl) as (_ & _ & Hstep & _).
  exact Hstep.
Defined.

(** X21: when api.github.com answers with an array and the repository
    route answers 200, it answers with that array and every repository of
    the array is then stored for the session user under its github id. *)
Theorem repository_sync_stores_the_listing :
  forall (Env : Type) (github : Env -> Fetch.t -> FetchOutcome * Env)
         (persist : Env -> (Thrown + Date) * Env)
         (s : Sys Env) (r : MemRepositories.t) (userId : Z) (user : User.t)
         (resp : Response.t) (items : list JsVal) (e1 : Env) (res : Res.t),
    repos_wf r ->
    authenticated (session s) = Some userId ->
    MemStorage.getUser (storage s) userId = Some user ->
    github (env s) (repos_request user) = (Responded resp, e1) ->
    Response.json resp = inr (JArr items) ->
    fst (get_repositories Env github persist (s, r)) = inr res ->
    Res.status res = 200 ->
    Res.payload res = Res.Json (Js.jsonify (JArr items))
    /\ Forall (stored_for userId
                 (snd (snd (get_repositories Env github persist (s, r)))))
              items.
Proof.
  intros Env github persist s r userId user resp items e1 res.
  apply get_repositories_stores.
Qed.

Lemma repository_sync_stores_the_listing_witness :
  Forall (stored_for 1
            (snd (snd (get_repositories Script.t Script.github Script.persist
                         (Script.start two_repositories one_user (Some 1),
                          MemRepositories.empty)))))
         [site_repo; notes_repo].
Proof.
  assert (Hwf : repos_wf MemRepositories.empty) by wf_by_computation.
  destruct (repository_sync_stores_the_listing Script.t Script.github Script.persist
              (Script.start two_repositories one_user (Some 1))
              MemRepositories.empty 1 alice
              (Response.mk true (inr (JArr [site_repo; notes_repo])))
              [site_repo; notes_repo]
              (Script.mk [] [inr 8000; inr 8001])
              (Res.json (Res.Json (Js.jsonify (JArr [site_repo; notes_repo]))))
              Hwf eq_refl eq_refl eq_refl eq_refl eq_refl eq_refl)
    as [_ Hstored].
  exact Hstored.
Defined.

(** X22: asking for the repositories twice stores them once. When the
    route has answered 200 to a listing and is asked again, the user and
    the listing being the same, the second answer is the first and no
    repository is added, whatever the database would do with an insert. *)
Theorem repository_sync_twice_adds_nothing :
  forall (Env : Type) (github : Env -> Fetch.t -> FetchOutcome * Env)
         (persist : Env -> (Thrown + Date) * Env)
         (s : Sys Env) (r : MemRepositories.t) (userId : Z) (user : User.t)
         (resp resp' : Response.t) (items : list JsVal) (e1 e2 : Env) (res : Res.t),
    repos_wf r ->
    authenticated (session s) = Some userId ->
    MemStorage.getUser (storage s) userId = Some user ->
    github (env s) (repos_request user) = (Responded resp, e1) ->
    Response.json resp = inr (JArr items) ->
    fst (get_repositories Env github persist (s, r)) = inr res ->
    Res.status res = 200 ->
    github (env (fst (snd (get_repositories Env github persist (s, r)))))
           (repos_request user)
    = (Responded resp', e2) ->
    Response.json resp' = inr (JArr items) ->
    fst (get_repositories Env github persist
           (snd (get_repositories Env github persist (s, r))))
    = fst (get_repositories Env github persist (s, r))
    /\ snd (snd (get_repositories Env github persist
                   (snd (get_repositories Env github persist (s, r)))))
       = snd (snd (get_repositories Env github persist (s, r))).
Proof.
  intros Env github persist s r userId user resp resp' items e1 e2 res
         Hwf Hauth Huser Hgithub Hjson Hres Hstatus Hgithub' Hjson'.
  destruct (get_repositories_stores Env github persist userId s r user resp items
              e1 res Hwf Hauth Huser Hgithub Hjson Hres Hstatus)
    as [Hpayload Hstored].
  destruct (get_repositories_step Env github persist userId s r Hwf Hauth)
    as (Hstorage & Hsession & _ & _).
  destruct (get_repositories Env github persist (s, r)) as [answer [s1 r1]].
  simpl in *.
  rewrite (get_repositories_again Env github persist userId s1 r1 user resp' items e2);
    trivial; try congruence.
  simpl. split; [| reflexivity].
  rewrite Hres. destruct res as [status payload]. simpl in *.
  now rewrite Hstatus, Hpayload.
Qed.

Lemma repository_sync_twice_adds_nothing_witness :
  snd (snd (get_repositories Catalogue.t Catalogue.github Catalogue.persist
              (snd (get_repositories Catalogue.t Catalogue.github Catalogue.persist
                      (Catalogue.start alices_repositories one_user (Some 1),
                       MemRepositories.empty)))))
  = both_stored.
Proof.
  assert (Hwf : repos_wf MemRepositories.empty) by wf_by_computation.
  destruct (repository_sync_twice_adds_nothing Catalogue.t Catalogue.github
              Catalogue.persist
              (Catalogue.start alices_repositories one_user (Some 1))
              MemRepositories.empty 1 alice
              (Response.mk true (inr (JArr [site_repo; notes_repo])))
              (Response.mk true (inr (JArr [site_repo; notes_repo])))
              [site_repo; notes_repo]
              alices_repositories (Catalogue.mk (JArr [site_repo; notes_repo]) 8002)
              (Res.json (Res.Json (Js.jsonify (JArr [site_repo; notes_repo]))))
              Hwf eq_refl eq_refl eq_refl eq_refl eq_refl eq_refl eq_refl eq_refl)
    as [_ Hsame].
  rewrite Hsame. reflexivity.
Defined.



(** X24: the repository route does not look at the status of the answer
    of api.github.com. When the fetch is rejected, the body is not JSON
    or the body is not an array (nor a string), as with the error object
    of a token turned down, the route answers 500 [Failed to fetch
    repositories] and stores nothing; the one request has gone out. *)
Theorem answer_without_listing_is_500 :
  forall (Env : Type) (github : Env -> Fetch.t -> FetchOutcome * Env)
         (persist : Env -> (Thrown + Date) * Env)
         (s : Sys Env) (r : MemRepositories.t) (userId : Z) (user : User.t)
         (o : FetchOutcome) (e1 : Env),
    authenticated (session s) = Some userId ->
    MemStorage.getUser (storage s) userId = Some user ->
    github (env s) (repos_request user) = (o, e1) ->
    no_listing o ->
    get_repositories Env github persist (s, r)
    = (inr (Res.mk 500 (Res.Error "Failed to fetch repositories")),
       (mkSys e1 (storage s) (session s) (wire s ++ [repos_request user]), r)).
Proof.
  intros Env github persist s r userId user o e1.
  apply get_repositories_no_listing.
Qed.

Lemma answer_without_listing_is_500_witness :
  fst (get_repositories Script.t Script.github Script.persist
         (Script.start bad_credentials one_user (Some 1), both_stored))
  = inr (Res.mk 500 (Res.Error "Failed to fetch repositories")).
Proof.
  rewrite (answer_without_listing_is_500 Script.t Script.github Script.persist
             (Script.start bad_credentials one_user (Some 1)) both_stored 1 alice
             (Script.refused (JObj [("message", JStr "Bad credentials")]))
             (Script.mk [] [])
             eq_refl eq_refl eq_refl I).
  reflexivity.
Defined.

(* ------------------------------------------------------------------ *)
(** * The repository half of the storage *)

Lemma sync_stamp_rows (r : MemRepositories.t) (id : Z) (now : Date)
      (repo : Repository.t) :
  repos_wf r ->
  NumMap.get id (MemRepositories.repositories r) = Some repo ->
  NumMap.values (NumMap.set id (synced_at now repo) (MemRepositories.repositories r))
  = map (fun row => if Repository.id row =? id then synced_at now row else row)
        (NumMap.values (MemRepositories.repositories r)).
Proof.
  intros (_ & Hnd & Hall) Hget. unfold NumMap.values.
  rewrite (NumMap_set_present id _ repo _ Hnd Hget), !map_map.
  apply map_ext_in. intros [k row] Hin. simpl.
  rewrite Forall_forall in Hall. destruct (Hall _ Hin) as (_ & _ & Hid).
  simpl in Hid. rewrite Hid.
  destruct (Z.eqb_spec k id) as [-> | _]; simpl; trivial.
  pose proof (NumMap_in_get _ _ _ Hnd Hin) as Hrow.
  rewrite Hget in Hrow. now injection Hrow as ->.
Qed.

(** X25: on a well-formed map [createRepository] hands out the next id;
    [getRepository] of that id gives the repository made, the repository
    comes last among those of its user, and every other id and every
    other user reads as before. *)
Theorem createRepository_then_getRepository :
  forall (r : MemRepositories.t) (insertRepository : InsertRepository.t),
    repos_wf r ->
    let (repository, r') := MemRepositories.createRepository r insertRepository in
    Repository.id repository = MemRepositories.currentRepoId r
    /\ MemRepositories.getRepository r' (Repository.id repository) = Some repository
    /\ (forall id, id <> Repository.id repository ->
          MemRepositories.getRepository r' id = MemRepositories.getRepository r id)
    /\ MemRepositories.getUserRepositories r' (InsertRepository.userId insertRepository)
       = MemRepositories.getUserRepositories r (InsertRepository.userId insertRepository)
         ++ [repository]
    /\ (forall userId, userId <> InsertRepository.userId insertRepository ->
          MemRepositories.getUserRepositories r' userId
          = MemRepositories.getUserRepositories r userId)
    /\ repos_wf r'.
Proof.
  intros r ins Hwf. simpl.
  set (row := Repository.mk (MemRepositories.currentRepoId r)
                (InsertRepository.userId ins) (InsertRepository.githubId ins)
                (InsertRepository.name ins) (InsertRepository.fullName ins)
                (MemRepositories.nullish (InsertRepository.private ins) (JBool false))
                (MemRepositories.nullish (InsertRepository.defaultBranch ins) (JStr "main"))
                None).
  destruct (keyed_insert Repository.id (MemRepositories.currentRepoId r) row
              (MemRepositories.repositories r) Hwf eq_refl) as [Happ Hk].
  split; [reflexivity |].
  split; [apply NumMap_get_set_same |].
  split; [intros id Hne; now apply NumMap_get_set_other |].
  unfold MemRepositories.getUserRepositories, NumMap.values. simpl.
  rewrite Happ, map_app, filter_app. simpl.
  split; [now rewrite Z.eqb_refl |].
  split; [| unfold repos_wf; simpl; rewrite <- Happ; exact Hk].
  intros userId Hne. rewrite filter_app. simpl.
  destruct (Z.eqb_spec (InsertRepository.userId ins) userId); [congruence |].
  apply app_nil_r.
Qed.

Lemma createRepository_then_getRepository_witness :
  MemRepositories.getUserRepositories
    (snd (MemRepositories.createRepository both_stored
            (InsertRepository.mk 1 "103" (JStr "blog") (JStr "alice/blog")
               JUndefined JNull)))
    1
  = MemRepositories.getUserRepositories both_stored 1
    ++ [Repository.mk 3 1 "103" (JStr "blog") (JStr "alice/blog")
          (JBool false) (JStr "main") None].
Proof.
  assert (Hwf : repos_wf both_stored) by wf_by_computation.
  exact (proj1 (proj2 (proj2 (proj2
           (createRepository_then_getRepository both_stored
              (InsertRepository.mk 1 "103" (JStr "blog") (JStr "alice/blog")
                 JUndefined JNull)
              Hwf))))).
Defined.

(** X26: on a well-formed map [updateRepositorySync] on a repository that
    is stored writes its [lastSyncAt] and nothing else: that repository
    reads back with the new time and its other fields as they were, every
    other repository is as before, each user has the same repositories in
    the same order, and the map is still well formed. *)
Theorem updateRepositorySync_stamps_one_row :
  forall (r : MemRepositories.t) (id : Z) (now : Date) (repo : Repository.t),
    repos_wf r ->
    MemRepositories.getRepository r id = Some repo ->
    let (updated, r') := MemRepositories.updateRepositorySync r id now in
    updated = Some (synced_at now repo)
    /\ MemRepositories.getRepository r' id = Some (synced_at now repo)
    /\ (forall other, other <> id ->
          MemRepositories.getRepository r' other = MemRepositories.getRepository r other)
    /\ (forall userId,
          MemRepositories.getUserRepositories r' userId
          = map (fun row => if Repository.id row =? id then synced_at now row else row)
                (MemRepositories.getUserRepositories r userId))
    /\ repos_wf r'.
Proof.
  intros r id now repo Hwf Hget.
  unfold MemRepositories.getRepository in Hget.
  unfold MemRepositories.updateRepositorySync. rewrite Hget.
  fold (synced_at now repo).
  split; [reflexivity |].
  split; [apply NumMap_get_set_same |].
  split; [intros other Hne; now apply NumMap_get_set_other |].
  split.
  - intros userId. unfold MemRepositories.getUserRepositories. simpl.
    rewrite (sync_stamp_rows r id now repo Hwf Hget).
    apply filter_map_same. intros row.
    destruct (Repository.id row =? id); reflexivity.
  - exact (keyed_rewrite Repository.id _ id (synced_at now repo) repo _ Hwf Hget eq_refl).
Qed.

Lemma updateRepositorySync_stamps_one_row_witness :
  MemRepositories.getRepository
    (snd (MemRepositories.updateRepositorySync both_stored 2 9000)) 2
  = Some (Repository.mk 2 1 "102" (JStr "notes") (JStr "alice/notes")
            (JBool true) (JStr "trunk") (Some 9000)).
Proof.
  assert (Hwf : repos_wf both_stored) by wf_by_computation.
  exact (proj1 (proj2
           (updateRepositorySync_stamps_one_row both_stored 2 9000
              (Repository.mk 2 1 "102" (JStr "notes") (JStr "alice/notes")
                 (JBool true) (JStr "trunk") None)
              Hwf eq_refl))).
Defined.

(* ------------------------------------------------------------------ *)
(** * Splitting and joining, as the client does *)

Lemma split_on_free (c : ascii) (s : string) :
  free_of c s = true -> Client.split_on c s = [s].
Proof.
  induction s as [|a s IH]; simpl; trivial.
  destruct (Ascii.eqb a c); simpl; [discriminate |].
  intros Hfree. now rewrite (IH Hfree).
Qed.

Lemma split_on_app (c : ascii) (p rest : string) :
  free_of c p = true ->
  Client.split_on c (p ++ String c rest) = p :: Client.split_on c rest.
Proof.
  induction p as [|a p IH]; simpl.
  - intros _. now rewrite Ascii.eqb_refl.
  - destruct (Ascii.eqb a c); simpl; [discriminate |].
    intros Hfree. now rewrite (IH Hfree).
Qed.

Lemma split_on_pieces (c : ascii) (s : string) :
  Client.split_on c s <> []
  /\ Forall (fun piece => free_of c piece = true) (Client.split_on c s).
Proof.
  induction s as [|a s [Hne IH]]; simpl.
  - split; [discriminate | repeat constructor].
  - destruct (Ascii.eqb a c) eqn:Hac.
    + split; [discriminate | now constructor].
    + destruct (Client.split_on c s) as [|piece pieces]; [contradiction |].
      split; [discriminate |].
      inversion IH as [|? ? Hpiece Hpieces]; subst.
      constructor; trivial. simpl. now rewrite Hac.
Qed.

Lemma pathSegments_clean (currentPath : string) :
  clean_segments (Client.pathSegments currentPath).
Proof.
  unfold clean_segments, Client.pathSegments.
  destruct (split_on_pieces "/" currentPath) as [_ Hall].
  induction Hall as [|piece pieces Hpiece _ IH]; simpl; [constructor |].
  destruct (String.eqb_spec piece ""); simpl; trivial.
  constructor; [now split | exact IH].
Qed.

Lemma clean_segments_firstn (n : nat) (segments : list string) :
  clean_segments segments -> clean_segments (firstn n segments).
Proof.
  intros Hall. revert n.
  induction Hall as [|segment segments Hsegment _ IH]; intros [|n]; simpl;
    try constructor; trivial. apply IH.
Qed.

(** Names joined with slashes come apart into the same names. *)
Lemma pathSegments_join (segments : list string) :
  clean_segments segments ->
  Client.pathSegments (Client.join "/" segments) = segments.
Proof.
  unfold Client.pathSegments.
  induction 1 as [|segment segments [Hne Hfree] Hrest IH]; trivial.
  destruct segments as [|next segments].
  - simpl. rewrite (split_on_free _ _ Hfree). simpl.
    destruct (String.eqb_spec segment ""); [contradiction | reflexivity].
  - change (Client.join "/" (segment :: next :: segments))
      with (segment ++ String "/" (Client.join "/" (next :: segments)))%string.
    rewrite (split_on_app _ _ _ Hfree). simpl filter.
    destruct (String.eqb_spec segment ""); [contradiction |].
    simpl negb. cbv iota. f_equal. exact IH.
Qed.

(** X27: what [content.split(',')[1]] makes of a data URL. When neither
    the prefix nor the payload holds a comma, as with base64, it is the
    payload; of a text without a comma it is [undefined], so that the
    file goes into the batch without [content]. *)
Theorem data_url_payload :
  forall (prefix payload : string),
    free_of "," prefix = true ->
    free_of "," payload = true ->
    Client.strip_data_uri (prefix ++ "," ++ payload) = Some payload
    /\ Client.strip_data_uri prefix = None.
Proof.
  intros prefix payload Hprefix Hpayload. unfold Client.strip_data_uri.
  change (prefix ++ "," ++ payload)%string with (prefix ++ String "," payload)%string.
  rewrite (split_on_app _ _ _ Hprefix), (split_on_free _ _ Hpayload),
    (split_on_free _ _ Hprefix).
  split; reflexivity.
Qed.

Lemma data_url_payload_witness :
  Client.strip_data_uri "data:text/plain;base64,aGVsbG8=" = Some "aGVsbG8=".
Proof.
  exact (proj1 (data_url_payload "data:text/plain;base64" "aGVsbG8=" eq_refl eq_refl)).
Defined.

(** X28: the crumbs of the file browser. The path behind a crumb, taken
    apart again, gives the segments of the current path up to and
    including that crumb: empty segments, as a leading, trailing or
    doubled slash makes them, are gone, and a crumb beyond the last one
    gives all segments. *)
Theorem crumb_leads_to_its_segments :
  forall (currentPath : string) (index : nat),
    Client.pathSegments (Client.crumb_path currentPath index)
    = firstn (index + 1) (Client.pathSegments currentPath).
Proof.
  intros currentPath index. unfold Client.crumb_path.
  apply pathSegments_join, clean_segments_firstn, pathSegments_clean.
Qed.

(* ------------------------------------------------------------------ *)
(** * From the upload panel to the batch route *)

Section ClientFacts.
Variable Blob : Type.
Variable readAsDataURL : Blob -> Thrown + string.

(** What the loop of the mutation makes of each file. *)
Lemma file_payloads_each (files : list (Client.UploadFile Blob))
      (payloads : list BatchFile.t) :
  Client.file_payloads Blob readAsDataURL files = inr payloads ->
  Forall2 (fun f payload =>
             BatchFile.path payload = Client.path Blob f
             /\ exists content,
                  readAsDataURL (Client.file Blob f) = inr content
                  /\ BatchFile.content payload = Client.strip_data_uri content)
          files payloads.
Proof.
  revert payloads. induction files as [|f files IH]; simpl; intros payloads.
  - intros [= <-]. constructor.
  - destruct (readAsDataURL (Client.file Blob f)) as [e | content] eqn:Hread;
      [discriminate |].
    destruct (Client.file_payloads Blob readAsDataURL files) as [e | rest];
      [discriminate |].
    intros [= <-]. constructor; [| now apply IH].
    simpl. split; trivial. now exists content.
Qed.

Lemma file_payloads_fails (files : list (Client.UploadFile Blob))
      (f : Client.UploadFile Blob) (e : Thrown) :
  In f files ->
  readAsDataURL (Client.file Blob f) = inl e ->
  exists e', Client.file_payloads Blob readAsDataURL files = inl e'.
Proof.
  induction files as [|g files IH]; simpl; [tauto |].
  intros [-> | Hin] Hread.
  - rewrite Hread. now eexists.
  - destruct (readAsDataURL (Client.file Blob g)); [now eexists |].
    destruct (IH Hin Hread) as [e' ->]. now eexists.
Qed.

Lemma extract_files (entries : list (string * Client.ZipEntry Blob)) :
  Forall (fun entry => exists blob, Client.data Blob (snd entry) = inr blob)
         (file_entries Blob entries) ->
  exists extractedFiles,
    Client.extract Blob entries = inr extractedFiles
    /\ map (Client.path Blob) extractedFiles = map fst (file_entries Blob entries)
    /\ Forall (fun f => Client.progress Blob f = 0) extractedFiles.
Proof.
  induction entries as [|[relativePath zipEntry] entries IH]; simpl.
  - intros _. exists []. repeat split; constructor.
  - destruct (Client.dir Blob zipEntry); simpl; [exact IH |].
    intros Hall. inversion Hall as [|? ? (blob & Hblob) Hrest]; subst.
    simpl in Hblob. rewrite Hblob.
    destruct (IH Hrest) as (extracted & -> & Hpaths & Hprogress).
    eexists. split; [reflexivity |]. simpl. split; [now f_equal |].
    constructor; trivial.
Qed.

Lemma extract_fails (entries : list (string * Client.ZipEntry Blob))
      (entry : string * Client.ZipEntry Blob) (e : Thrown) :
  In entry (file_entries Blob entries) ->
  Client.data Blob (snd entry) = inl e ->
  exists e', Client.extract Blob entries = inl e'.
Proof.
  induction entries as [|[relativePath zipEntry] entries IH]; simpl; [tauto |].
  destruct (Client.dir Blob zipEntry); simpl; [exact IH |].
  intros [<- | Hin] Hdata; simpl in *.
  - rewrite Hdata. now eexists.
  - destruct (Client.data Blob zipEntry); [now eexists |].
    destruct (IH Hin Hdata) as [e' ->]. now eexists.
Qed.
End ClientFacts.

(** What the handler reads of an item as the client sends it. *)
Lemma to_js_reads (payload : BatchFile.t) :
  Js.nullish (BatchFile.to_js payload) = false
  /\ Js.prop (BatchFile.to_js payload) "path" = JStr (BatchFile.path payload)
  /\ Js.prop (BatchFile.to_js payload) "content"
     = Js.of_opt (BatchFile.content payload).
Proof.
  destruct payload as [path [content|] [sha|]]; repeat split; reflexivity.
Qed.

Lemma to_js_all_files (payloads : list BatchFile.t) :
  all_files (map BatchFile.to_js payloads) = true.
Proof.
  induction payloads as [|payload payloads IH]; [reflexivity | exact IH].
Qed.

(** The request of the batch loop for an item of the client, field by
    field, under a message that is not empty. *)
Lemma item_request_fields (user : User.t) (owner repo branch : string)
      (n : nat) (payload : BatchFile.t) :
  let rq := item_request user owner repo branch (Some (Client.upload_message n))
              (BatchFile.to_js payload) in
  Fetch.method rq = "PUT"
  /\ Fetch.url rq = contents_url owner repo (BatchFile.path payload)
  /\ Fetch.authorization rq = bearer (User.accessToken user)
  /\ Js.get_prop (Fetch.body rq) "branch" = inr (JStr branch)
  /\ Js.get_prop (Fetch.body rq) "message" = inr (JStr (Client.upload_message n))
  /\ Js.has_key "sha" (Fetch.body rq) = false
  /\ Js.get_prop (Fetch.body rq) "content" = inr (Js.of_opt (BatchFile.content payload)).
Proof.
  destruct (to_js_reads payload) as (_ & Hpath & Hcontent).
  unfold item_request, batch_request. rewrite Hpath, Hcontent. simpl.
  destruct (BatchFile.content payload); simpl; repeat split; reflexivity.
Qed.

(** X29: the upload panel and the batch route together. For a session
    user that is stored, a body that [handleUpload] posts is never turned
    down with 400: the route answers 200 with an aggregate and has sent
    one request for each file picked, in the order of the list; each is a
    [PUT] on the path the file was picked under, with the token of the
    user, on the branch selected and with the message of the panel, has
    no [sha], and has as content what follows the comma in the data URL of
    the file. And the panel posts nothing when one of the files cannot be
    read. *)
Theorem picked_files_reach_the_store :
  forall (Blob : Type) (readAsDataURL : Blob -> Thrown + string)
         (Env : Type) (github : Env -> Fetch.t -> FetchOutcome * Env)
         (persist : Env -> (Thrown + Date) * Env)
         (s : Sys Env) (owner repo : string)
         (selectedRepo : option string) (selectedBranch : string)
         (uploadFiles : list (Client.UploadFile Blob))
         (userId : Z) (user : User.t),
    uploadFiles <> [] ->
    authenticated (session s) = Some userId ->
    MemStorage.getUser (storage s) userId = Some user ->
    (forall body,
        Client.handleUpload Blob readAsDataURL selectedRepo selectedBranch uploadFiles
        = Some (inr body) ->
        exists a sent,
          fst (upload_batch Env github persist owner repo body s)
          = inr (Res.json (Res.Batch a))
          /\ wire (snd (upload_batch Env github persist owner repo body s))
             = wire s ++ sent
          /\ Forall2 (writes_picked_file Blob readAsDataURL user owner repo
                        selectedBranch
                        (Client.upload_message (List.length uploadFiles)))
                     uploadFiles sent)
    /\ (forall f e,
          In f uploadFiles ->
          readAsDataURL (Client.file Blob f) = inl e ->
          exists e',
            Client.handleUpload Blob readAsDataURL selectedRepo selectedBranch
              uploadFiles
            = Some (inl e')).
Proof.
  intros Blob readAsDataURL Env github persist s owner repo selectedRepo
         selectedBranch uploadFiles userId user Hne Hauth Huser.
  destruct uploadFiles as [|first others]; [contradiction |]. clear Hne.
  unfold Client.handleUpload, Client.upload_body. split.
  - intros body Hbody.
    destruct selectedRepo as [name|]; [| discriminate].
    destruct (Client.file_payloads Blob readAsDataURL (first :: others))
      as [e | payloads] eqn:Hpayloads; [discriminate |].
    injection Hbody as <-.
    pose proof (file_payloads_each Blob readAsDataURL _ _ Hpayloads) as Heach.
    assert (Hsome : map BatchFile.to_js payloads <> []).
    { inversion Heach. discriminate. }
    rewrite (upload_batch_run Env github persist s owner repo
               (BatchBody.mk (FilesArray (map BatchFile.to_js payloads))
                  (Some selectedBranch)
                  (Some (Client.upload_message (S (List.length others)))))
               userId user (map BatchFile.to_js payloads) Hauth Huser eq_refl Hsome
               (to_js_all_files payloads)).
    destruct (for_of_run Env github persist userId user owner repo selectedBranch
                (Some (Client.upload_message (S (List.length others))))
                (map BatchFile.to_js payloads) (mkLoop s [] [])
                (to_js_all_files payloads))
      as [_ [Hwire _ _ _ _]].
    eexists. eexists.
    split; [reflexivity |]. split; [exact Hwire |].
    change (List.length (first :: others)) with (S (List.length others)).
    clear Hwire Hsome Hpayloads.
    induction Heach as [|f payload files payloads (Hpath & content & Hread & Hcontent) _ IH];
      simpl; constructor; trivial.
    destruct (item_request_fields user owner repo selectedBranch
                (S (List.length others)) payload)
      as (Hmethod & Hurl & Hauthz & Hbranch & Hmessage & Hsha & Hbody).
    unfold writes_picked_file. rewrite <- Hpath.
    repeat (split; trivial).
    exists content. split; trivial. now rewrite <- Hcontent.
  - intros f e Hin Hread.
    destruct selectedRepo as [name|]; [| now eexists].
    destruct (file_payloads_fails Blob readAsDataURL _ f e Hin Hread) as [e' ->].
    now eexists.
Qed.

Lemma picked_files_reach_the_store_witness :
  exists a sent,
    fst (upload_batch Script.t Script.github Script.persist "alice" "site"
           (batch_of_picked "main" picked)
           (Script.start fair_weather one_user (Some 1)))
    = inr (Res.json (Res.Batch a))
    /\ wire (snd (upload_batch Script.t Script.github Script.persist "alice" "site"
                    (batch_of_picked "main" picked)
                    (Script.start fair_weather one_user (Some 1))))
       = [] ++ sent
    /\ Forall2 (writes_picked_file string as_data_url alice "alice" "site" "main"
                  "Upload 2 files")
               picked sent.
Proof.
  assert (Hsome : picked <> []) by discriminate.
  destruct (picked_files_reach_the_store string as_data_url Script.t Script.github
              Script.persist (Script.start fair_weather one_user (Some 1))
              "alice" "site" (Some "alice/site") "main" picked 1 alice
              Hsome eq_refl eq_refl) as [Hposted _].
  exact (Hposted (batch_of_picked "main" picked) eq_refl).
Defined.

(** X30: a ZIP archive chosen with extraction on. When every file entry
    of the archive can be read, the files of the archive are added after
    the files already picked, one for each entry that is not a directory,
    in the order of the archive, under the path of the entry and with
    progress 0, and the toast counts them. When one file entry cannot be
    read, nothing is added at all and the failure is shown. *)
Theorem zip_extraction_is_all_or_nothing :
  forall (Blob : Type) (chosen : Client.InputFile Blob)
         (others : list (Client.InputFile Blob))
         (entries : list (string * Client.ZipEntry Blob))
         (uploadFiles : list (Client.UploadFile Blob)),
    Client.ends_with ".zip" (Client.file_name Blob chosen) = true ->
    (Forall (fun entry => exists blob, Client.data Blob (snd entry) = inr blob)
            (file_entries Blob entries) ->
     exists extractedFiles,
       Client.handleZipUpload Blob true (Some (chosen :: others)) (inr entries)
         uploadFiles
       = (uploadFiles ++ extractedFiles,
          [Client.ExtractingZip;
           Client.ZipExtracted (List.length (file_entries Blob entries))])
       /\ map (Client.path Blob) extractedFiles = map fst (file_entries Blob entries)
       /\ Forall (fun f => Client.progress Blob f = 0) extractedFiles)
    /\ (forall entry e,
          In entry (file_entries Blob entries) ->
          Client.data Blob (snd entry) = inl e ->
          Client.handleZipUpload Blob true (Some (chosen :: others)) (inr entries)
            uploadFiles
          = (uploadFiles, [Client.ExtractingZip; Client.ZipExtractionFailed])).
Proof.
  intros Blob chosen others entries uploadFiles Hzip.
  unfold Client.handleZipUpload. rewrite Hzip. simpl andb. cbv iota. split.
  - intros Hall.
    destruct (extract_files Blob entries Hall) as (extracted & -> & Hpaths & Hprogress).
    exists extracted. split; [| now split].
    assert (Hcount : List.length extracted = List.length (file_entries Blob entries)).
    { rewrite <- (length_map (Client.path Blob)), Hpaths. apply length_map. }
    now rewrite Hcount.
  - intros entry e Hin Hdata.
    now destruct (extract_fails Blob entries entry e Hin Hdata) as [e' ->].
Qed.

Lemma zip_extraction_is_all_or_nothing_witness :
  Client.handleZipUpload string true
    (Some [Client.mkInputFile string "site.zip" "" "UEsDBA=="]) (inr broken_archive)
    picked
  = (picked, [Client.ExtractingZip; Client.ZipExtractionFailed]).
Proof.
  destruct (zip_extraction_is_all_or_nothing string
              (Client.mkInputFile string "site.zip" "" "UEsDBA==") []
              broken_archive picked eq_refl) as [_ Hfails].
  apply (Hfails ("docs/notes.txt",
                 Client.mkZipEntry string false "docs/notes.txt"
                   (inl (ErrorObj "Corrupted zip")))
                (ErrorObj "Corrupted zip")).
  - right. left. reflexivity.
  - reflexivity.
Defined.
